(** * dnnviewer: the Keras bridge and the property-list widget

    A shallow embedding of
      - [dnnviewer/widgets/property_list.py]            (module [property_list]),
      - [dnnviewer/bridge/KerasModelSequence.py]        (module [KerasModelSequence]),
      - [dnnviewer/bridge/KerasNetworkExtractor.py]     (module [KerasNetworkExtractor]),
    followed by the properties proved about them.

    Python objects are mutable and every statement may raise, so methods are
    computations [M S A := S -> S * outcome A]: the state reached so far
    survives an exception, as the mutations of a Python object do.  What the
    code obtains from TensorFlow, numpy, [glob], [re], [pathlib] and from the
    modules of the package that are not part of the checked sources is
    gathered in the record [External]. *)

From Stdlib Require Import List String Ascii ZArith QArith Bool Arith Lia.
From Stdlib Require Import Permutation Sorted DecimalString.
Import ListNotations.
Close Scope Q_scope.
Open Scope string_scope.
Open Scope list_scope.

(* ================================================================== *)
(** ** Python run time: exceptions, sequences, strings, dictionaries   *)
(* ================================================================== *)

Module Py.

(** The exception classes the code raises or meets.  [ModelError] is the
    application's own class (package [bridge]); all of them derive from
    [Exception], so [except Exception] catches every one. *)
Inductive exn_kind : Type :=
| ModelError | AttributeError | IndexError | KeyError
| TypeError | ValueError | OSError.

Definition exn_kind_eqb (a b : exn_kind) : bool :=
  match a, b with
  | ModelError, ModelError | AttributeError, AttributeError
  | IndexError, IndexError | KeyError, KeyError
  | TypeError, TypeError | ValueError, ValueError | OSError, OSError => true
  | _, _ => false
  end.

(** [type(e).__name__] *)
Definition class_name_of (k : exn_kind) : string :=
  match k with
  | ModelError => "ModelError" | AttributeError => "AttributeError"
  | IndexError => "IndexError" | KeyError => "KeyError"
  | TypeError => "TypeError" | ValueError => "ValueError"
  | OSError => "OSError"
  end.

(** An exception object: its class and [str(e)]. *)
Record exn : Type := Exn { kind : exn_kind; message : string }.

Inductive outcome (A : Type) : Type :=
| Ret (a : A)
| Raise (e : exn).
Arguments Ret {A} a.
Arguments Raise {A} e.

Definition obind {A B} (o : outcome A) (k : A -> outcome B) : outcome B :=
  match o with
  | Ret a => k a
  | Raise e => Raise e
  end.

(** Statements over a mutable state [S]. *)
Definition M (S A : Type) : Type := S -> S * outcome A.

Definition ret {S A} (a : A) : M S A := fun s => (s, Ret a).
Definition raise {S A} (e : exn) : M S A := fun s => (s, Raise e).
Definition bind {S A B} (c : M S A) (k : A -> M S B) : M S B :=
  fun s => match c s with
           | (s', Ret a) => k a s'
           | (s', Raise e) => (s', Raise e)
           end.
Definition get {S} : M S S := fun s => (s, Ret s).
Definition modify {S} (f : S -> S) : M S unit := fun s => (f s, Ret tt).
Definition lift {S A} (o : outcome A) : M S A := fun s => (s, o).

(** [try: body  except Exception as e: handler(e)] *)
Definition try_except {S A} (body : M S A) (handler : exn -> M S A) : M S A :=
  fun s => match body s with
           | (s', Ret a) => (s', Ret a)
           | (s', Raise e) => handler e s'
           end.

(** [for x in xs: body(x)], the loop variables being threaded as [acc]. *)
Fixpoint for_each {S X L} (xs : list X) (body : X -> L -> M S L) (acc : L)
  : M S L :=
  match xs with
  | [] => ret acc
  | x :: rest => bind (body x acc) (for_each rest body)
  end.

(** A list comprehension [[f(x) for x in xs]] whose element may raise. *)
Fixpoint comprehension {X Y} (f : X -> outcome Y) (xs : list X)
  : outcome (list Y) :=
  match xs with
  | [] => Ret []
  | x :: rest =>
      obind (f x) (fun y => obind (comprehension f rest) (fun ys => Ret (y :: ys)))
  end.

(** [seq[i]] for a Python integer [i]: negative indices count from the end,
    an index outside [-len, len) raises [IndexError]. *)
Definition index_error (what : string) : exn :=
  Exn IndexError (what ++ " index out of range")%string.

Definition getitem {A} (what : string) (l : list A) (i : Z) : outcome A :=
  let n := Z.of_nat (List.length l) in
  let j := if (i <? 0)%Z then (i + n)%Z else i in
  if ((0 <=? j)%Z && (j <? n)%Z)%bool then
    match nth_error l (Z.to_nat j) with
    | Some a => Ret a
    | None => Raise (index_error what)
    end
  else Raise (index_error what).

(** [seq[1:]] and [seq[1:-1]] never raise. *)
Definition slice_from_1 {A} (l : list A) : list A := tl l.
Definition slice_1_to_last {A} (l : list A) : list A := removelast (tl l).

(** *** Strings *)

(** [s.replace(old, new)] for a non-empty [old]: the occurrences of [old] are
    replaced from left to right, without overlap.  [skip] counts the
    characters of a replaced occurrence still to be dropped. *)
Fixpoint replace_from (old new : string) (skip : nat) (s : string) : string :=
  match s with
  | EmptyString => EmptyString
  | String c rest =>
      match skip with
      | S k => replace_from old new k rest
      | O =>
          if String.prefix old s
          then (new ++ replace_from old new (String.length old - 1) rest)%string
          else String c (replace_from old new 0 rest)
      end
  end.

Definition replace (s old new : string) : string := replace_from old new 0 s.

Definition is_digit (c : ascii) : bool :=
  let n := nat_of_ascii c in (48 <=? n)%nat && (n <=? 57)%nat.

Fixpoint digits_value (acc : Z) (s : string) : option Z :=
  match s with
  | EmptyString => Some acc
  | String c rest =>
      if is_digit c
      then digits_value (10 * acc + Z.of_nat (nat_of_ascii c - 48))%Z rest
      else None
  end.

(** [int(s)] on the strings a group [[0-9]*] can capture: a non-empty run of
    decimal digits is its value, anything else (the empty string first of
    all) raises [ValueError]. *)
Definition int (s : string) : outcome Z :=
  match s with
  | EmptyString =>
      Raise (Exn ValueError "invalid literal for int() with base 10: ''")
  | _ =>
      match digits_value 0 s with
      | Some z => Ret z
      | None =>
          Raise (Exn ValueError
                   ("invalid literal for int() with base 10: '" ++ s ++ "'")%string)
      end
  end.

(** [str(i)] of an integer. *)
Definition string_of_Z (z : Z) : string := NilZero.string_of_int (Z.to_int z).

(** *** Dictionaries

    A [dict] keeps its keys in insertion order and holds each key once:
    assigning an existing key replaces the value in place. *)
Definition dict (K V : Type) : Type := list (K * V).

Section Dict.
Context {K V : Type} (eqb : K -> K -> bool).

Fixpoint dict_get (d : dict K V) (k : K) : option V :=
  match d with
  | [] => None
  | (k', v) :: rest => if eqb k' k then Some v else dict_get rest k
  end.

Fixpoint dict_set (d : dict K V) (k : K) (v : V) : dict K V :=
  match d with
  | [] => [(k, v)]
  | (k', v') :: rest =>
      if eqb k' k then (k', v) :: rest else (k', v') :: dict_set rest k v
  end.

Definition dict_contains (d : dict K V) (k : K) : bool :=
  match dict_get d k with Some _ => true | None => false end.

(** [d.update(other)] *)
Definition dict_update (d other : dict K V) : dict K V :=
  fold_left (fun acc kv => dict_set acc (fst kv) (snd kv)) other d.

(** [{key(x): value(x) for x in xs}], already evaluated pairs. *)
Definition dict_of_pairs (kvs : list (K * V)) : dict K V :=
  dict_update [] kvs.

Definition keys (d : dict K V) : list K := map fst d.

End Dict.

(** [d[k]] with a string key: a missing key raises [KeyError], whose text is
    the [repr] of the key. *)
Definition getitem_str {V} (d : dict string V) (k : string) : outcome V :=
  match dict_get String.eqb d k with
  | Some v => Ret v
  | None => Raise (Exn KeyError ("'" ++ k ++ "'")%string)
  end.

(** *** Sorting: [list.sort()] *)
Section Sort.
Context {A : Type} (leb : A -> A -> bool).

Fixpoint insert_sorted (x : A) (l : list A) : list A :=
  match l with
  | [] => [x]
  | y :: rest => if leb x y then x :: l else y :: insert_sorted x rest
  end.

Fixpoint sort (l : list A) : list A :=
  match l with
  | [] => []
  | x :: rest => insert_sorted x (sort rest)
  end.

End Sort.

Definition string_leb (a b : string) : bool :=
  match String.compare a b with
  | Gt => false
  | _ => true
  end.

(** [set(xs)] iterated: each element once (the order in which a Python set
    is iterated is unspecified; the callers sort afterwards). *)
Fixpoint dedup (l : list string) : list string :=
  match l with
  | [] => []
  | x :: rest =>
      if existsb (String.eqb x) rest then dedup rest else x :: dedup rest
  end.

(** *** Logging: the records handed to the module's [_logger]. *)
Inductive log_level : Type := DEBUG | INFO | WARNING | ERROR.
Record log_record : Type := Log { level : log_level; text : string }.

(** [traceback.format_exc(limit=None, chain=True)]: the first parameter is the
    frame limit.  [StackSummary.extract] evaluates [limit >= 0] as soon as it
    is not [None], so an argument that is not a number raises [TypeError]. *)
Inductive limit_arg : Type :=
| LimitNone
| LimitInt (n : Z)
| LimitExn (e : exn).

Definition format_exc (trace : string) (limit : limit_arg) : outcome string :=
  match limit with
  | LimitNone | LimitInt _ => Ret trace
  | LimitExn e =>
      Raise (Exn TypeError
               ("'>=' not supported between instances of '"
                  ++ class_name_of (kind e) ++ "' and 'int'")%string)
  end.

End Py.

Import Py.

(* ================================================================== *)
(** ** Python values met by the bridge                                  *)
(* ================================================================== *)

(** The dynamically typed values read from layer attributes and layer
    configurations, and stored in the property dictionaries of the UI. *)
#[local] Unset Elimination Schemes.
Inductive pyval : Type :=
| PNone
| PBool (b : bool)
| PInt (z : Z)
| PFloat (q : Q)
| PStr (s : string)
| PTuple (items : list pyval)
| PList (items : list pyval)
| PDict (entries : list (string * pyval))
| PObj (cls : string) (attrs : list (string * pyval)).
#[local] Set Elimination Schemes.

(** [bool(v)] *)
Definition truthy (v : pyval) : bool :=
  match v with
  | PNone => false
  | PBool b => b
  | PInt z => negb (z =? 0)%Z
  | PFloat q => negb (Qeq_bool q 0)
  | PStr s => negb (String.eqb s "")
  | PTuple items | PList items => match items with [] => false | _ => true end
  | PDict entries => match entries with [] => false | _ => true end
  | PObj _ _ => true
  end.

Definition is_none (v : pyval) : bool :=
  match v with PNone => true | _ => false end.

Definition num_value (v : pyval) : option Q :=
  match v with
  | PBool b => Some (if b then 1 else 0)%Q
  | PInt z => Some (inject_Z z)
  | PFloat q => Some q
  | _ => None
  end.

(** [v == (z1, ..., zn)] against a tuple literal of integers. *)
Fixpoint eq_items (items : list pyval) (zs : list Z) : bool :=
  match items, zs with
  | [], [] => true
  | v :: items', z :: zs' =>
      match num_value v with
      | Some q => Qeq_bool q (inject_Z z) && eq_items items' zs'
      | None => false
      end
  | _, _ => false
  end.

Definition eq_int_tuple (v : pyval) (zs : list Z) : bool :=
  match v with
  | PTuple items => eq_items items zs
  | _ => false
  end.

(** [getattr(v, name)]: only an object has the attributes asked for. *)
Definition py_getattr (v : pyval) (name : string) : outcome pyval :=
  match v with
  | PObj cls attrs =>
      match dict_get String.eqb attrs name with
      | Some a => Ret a
      | None =>
          Raise (Exn AttributeError
                   ("'" ++ cls ++ "' object has no attribute '" ++ name ++ "'")%string)
      end
  | _ =>
      Raise (Exn AttributeError ("object has no attribute '" ++ name ++ "'")%string)
  end.

(** [v[key]] with a string key: a dictionary looks the key up ([KeyError] when
    it is missing), no other value accepts a string subscript. *)
Definition py_subscript_str (v : pyval) (key : string) : outcome pyval :=
  match v with
  | PDict entries => getitem_str entries key
  | PStr _ => Raise (Exn TypeError "string indices must be integers")
  | PTuple _ => Raise (Exn TypeError "tuple indices must be integers or slices, not str")
  | PList _ => Raise (Exn TypeError "list indices must be integers or slices, not str")
  | _ => Raise (Exn TypeError "object is not subscriptable")
  end.

(** [v[i]] with an integer [i]. *)
Definition py_subscript_int (v : pyval) (i : Z) : outcome pyval :=
  match v with
  | PTuple items => getitem "tuple" items i
  | PList items => getitem "list" items i
  | PStr s =>
      obind (getitem "string" (list_ascii_of_string s) i)
            (fun c => Ret (PStr (String c EmptyString)))
  | PDict entries => Raise (Exn KeyError (string_of_Z i))
  | _ => Raise (Exn TypeError "object is not subscriptable")
  end.

(** A shape tuple such as [(None, 28, 28, 1)]. *)
Definition shape : Type := list (option Z).

Definition dim_value (d : option Z) : pyval :=
  match d with Some z => PInt z | None => PNone end.

Definition shape_value (s : shape) : pyval := PTuple (map dim_value s).

(* ================================================================== *)
(** ** TensorFlow / Keras objects, as the bridge reads them            *)
(* ================================================================== *)

(** A numpy array: its shape and its entries (rationals stand for the
    floating point entries, which the bridge only copies). *)
Record ndarray : Type := NdArray { nd_shape : list Z; nd_data : list Q }.

(** A [tf.Variable] of a layer; [v.numpy()] is [var_value]. *)
Record KVar : Type := Var { var_name : string; var_value : ndarray }.

Definition numpy (v : KVar) : ndarray := var_value v.

(** A Keras layer. *)
Record KerasLayer : Type := {
  class_name : string;              (* type(keras_layer).__name__ *)
  type_repr : string;               (* str(type(keras_layer)) *)
  name : string;
  weights : list KVar;
  trainable_weights : list KVar;
  input_shape : shape;
  output_shape : shape;
  output_shape_at_0 : shape;        (* get_output_shape_at(0) *)
  attributes : dict string pyval;   (* what getattr finds on the layer *)
  bias : option KVar;               (* keras_layer.bias *)
  config : option (dict string pyval)   (* get_config() *)
}.

(** [keras_layer.get_weights()] *)
Definition get_weights (l : KerasLayer) : list ndarray := map numpy (weights l).

(** A Keras model. *)
Record Model : Type := {
  model_name : string;
  model_type : string;              (* str(type(model)) *)
  is_sequential : bool;             (* isinstance(model, keras.models.Sequential) *)
  layers : list KerasLayer;
  input_dtype : string;             (* model.input.dtype.as_numpy_dtype *)
  input_shape_list : shape          (* model.input.shape.as_list() *)
}.

(** [model.trainable_variables]: the trainable weights of the layers, layer
    after layer. *)
Definition trainable_variables (m : Model) : list KVar :=
  List.concat (map trainable_weights (layers m)).

(** The test data handed to the bridge ([TestData] / [DataSet]). *)
Record TestData : Type := {
  x : option ndarray;
  y : option ndarray;
  x_format : option ndarray;
  has_test_sample : bool;
  input_classes : option (list string);
  output_classes : option (list string)
}.

Definition set_x_format (t : TestData) (v : option ndarray) : TestData :=
  {| x := x t; y := y t; x_format := v; has_test_sample := has_test_sample t;
     input_classes := input_classes t; output_classes := output_classes t |}.

(** The attributes [AbstractModelSequence] keeps for a sequence. *)
Record AbstractModelSequence : Type := {
  title : option string;
  number_epochs : Z;
  current_epoch_index : Z
}.

(** What the code calls outside the checked sources.
    - the file system and [re]: [glob.glob], [re.compile] (which rejects an
      ill-formed pattern), [regexp.search(path)] giving the captured groups of
      the first match, [str(Path(a) / b)], [str(Path(p))], [Path(p).exists()];
    - Keras: [keras.models.load_model], the gradient tape of
      [compute_gradients] (the forward pass and the loss may raise; when they
      do not, the tape gives for each variable its gradient, or [None]);
    - package modules that are not in the checked sources:
      [tf_bridge.keras_prepare_input], [tf_bridge.keras_set_model_properties]
      (the top-level properties it computes for a model), [get_caption],
      [AbstractModelSequence.reset], [float_fmt];
    - Python library text: [str(v)], the [%] operator applied to a format
      built with [float_fmt], numpy's element-wise quotient of two shapes
      (as a tuple) and [1 / np.array(v)], the text of the current traceback. *)
Record External : Type := {
  glob_glob : string -> list string;
  re_compile : string -> outcome unit;
  re_search : string -> string -> option (list string);
  path_join : string -> string -> string;
  path_str : string -> string;
  path_exists : string -> bool;
  keras_load_model : string -> outcome Model;
  tape_gradient : Model -> TestData -> outcome (KVar -> option ndarray);
  keras_prepare_input : string -> shape -> option ndarray -> outcome (option ndarray);
  keras_model_properties : Model -> dict string pyval;
  get_caption : pyval -> dict string string -> pyval;
  abstract_reset : AbstractModelSequence -> AbstractModelSequence;
  float_fmt : string;
  py_str : pyval -> string;
  py_format : string -> list pyval -> outcome string;
  np_shape_ratio : shape -> shape -> outcome pyval;
  np_reciprocal : pyval -> outcome pyval;
  traceback_text : string
}.

Declare Scope py_scope.
Delimit Scope py_scope with py.
Notation "x <- c ;; k" := (bind c (fun x => k))
  (at level 61, c at next level, right associativity) : py_scope.
Notation "c ;; k" := (bind c (fun _ => k))
  (at level 61, right associativity) : py_scope.
Notation "x <~ o ;; k" := (obind o (fun x => k))
  (at level 61, o at next level, right associativity) : py_scope.
Open Scope py_scope.

(* ================================================================== *)
(** ** widgets/property_list.py                                        *)
(* ================================================================== *)

Module property_list.

(** The Dash components the widget builds. *)
#[local] Unset Elimination Schemes.
Inductive html : Type :=
| H6 (children : string)
| Li (children : string)
| Ul (children : list html).
#[local] Set Elimination Schemes.

Section Widget.
(** The values held by the two dictionaries, with their [str()]. *)
Context {L V : Type} (str_label : L -> string) (str_value : V -> string).

(** ["%s: %s" % (labels[p], values[p])] wrapped in [html.Li]. *)
Definition item (labels : dict string L) (values : dict string V) (p : string)
  : outcome html :=
  l <~ getitem_str labels p ;;
  v <~ getitem_str values p ;;
  Ret (Li (str_label l ++ ": " ++ str_value v)%string).

Definition widget (title : string) (labels : dict string L)
  (values : dict string V) : outcome (list html) :=
  if (0 <? List.length values)%nat then
    items <~ comprehension (item labels values) (keys values) ;;
    Ret [H6 title; Ul items]
  else Ret [].

End Widget.

End property_list.

(* ================================================================== *)
(** ** The UI side: layers and grapher                                  *)
(* ================================================================== *)

Definition Theme : Type := string.

Module Layers.

Inductive layer_class : Type := Input | Dense | Convo2D.

Definition layer_class_eqb (a b : layer_class) : bool :=
  match a, b with
  | Input, Input | Dense, Dense | Convo2D, Convo2D => true
  | _, _ => false
  end.

(** Modelled from the spec: the classes [Input], [Dense] and [Convo2D] of the
    package [layers] are not in the checked sources.  A UI layer holds the
    copied-out weight arrays, the display captions and the shape metadata:
    the arguments of its constructor, the four property dictionaries, and the
    attributes the bridge assigns ([bias], [flatten_output], [unit_names]);
    [sampling_factors] records the arguments of [append_sampling_factor]. *)
Record AbstractLayer : Type := {
  class : layer_class;
  name : string;
  num_unit : pyval;
  weights : option ndarray;
  grads : option ndarray;
  theme : Theme;
  unit_names : option (list string);
  bias : option ndarray;
  flatten_output : bool;
  structure_props : dict string pyval;
  training_props : dict string pyval;
  input_props : dict string pyval;
  output_props : dict string pyval;
  sampling_factors : list pyval
}.

(** [Input(name, num_unit, theme, unit_names)] *)
Definition new_Input (nm : string) (n : pyval) (th : Theme)
  (names : option (list string)) : AbstractLayer :=
  {| class := Input; name := nm; num_unit := n; weights := None; grads := None;
     theme := th; unit_names := names; bias := None; flatten_output := false;
     structure_props := []; training_props := []; input_props := [];
     output_props := []; sampling_factors := [] |}.

(** [Dense(name, num_unit, weights, grads, theme)] and
    [Convo2D(name, num_unit, weights, grads, theme)] *)
Definition new_weighted (c : layer_class) (nm : string) (n : pyval)
  (w : ndarray) (g : option ndarray) (th : Theme) : AbstractLayer :=
  {| class := c; name := nm; num_unit := n; weights := Some w; grads := g;
     theme := th; unit_names := None; bias := None; flatten_output := false;
     structure_props := []; training_props := []; input_props := [];
     output_props := []; sampling_factors := [] |}.

Definition with_grads (g : option ndarray) (l : AbstractLayer) : AbstractLayer :=
  {| class := class l; name := name l; num_unit := num_unit l;
     weights := weights l; grads := g; theme := theme l;
     unit_names := unit_names l; bias := bias l;
     flatten_output := flatten_output l;
     structure_props := structure_props l; training_props := training_props l;
     input_props := input_props l; output_props := output_props l;
     sampling_factors := sampling_factors l |}.

Definition with_unit_names (names : option (list string)) (l : AbstractLayer)
  : AbstractLayer :=
  {| class := class l; name := name l; num_unit := num_unit l;
     weights := weights l; grads := grads l; theme := theme l;
     unit_names := names; bias := bias l;
     flatten_output := flatten_output l;
     structure_props := structure_props l; training_props := training_props l;
     input_props := input_props l; output_props := output_props l;
     sampling_factors := sampling_factors l |}.

Definition with_bias (b : option ndarray) (l : AbstractLayer) : AbstractLayer :=
  {| class := class l; name := name l; num_unit := num_unit l;
     weights := weights l; grads := grads l; theme := theme l;
     unit_names := unit_names l; bias := b;
     flatten_output := flatten_output l;
     structure_props := structure_props l; training_props := training_props l;
     input_props := input_props l; output_props := output_props l;
     sampling_factors := sampling_factors l |}.

Definition with_flatten_output (b : bool) (l : AbstractLayer) : AbstractLayer :=
  {| class := class l; name := name l; num_unit := num_unit l;
     weights := weights l; grads := grads l; theme := theme l;
     unit_names := unit_names l; bias := bias l;
     flatten_output := b;
     structure_props := structure_props l; training_props := training_props l;
     input_props := input_props l; output_props := output_props l;
     sampling_factors := sampling_factors l |}.

Definition with_structure_props (d : dict string pyval) (l : AbstractLayer)
  : AbstractLayer :=
  {| class := class l; name := name l; num_unit := num_unit l;
     weights := weights l; grads := grads l; theme := theme l;
     unit_names := unit_names l; bias := bias l;
     flatten_output := flatten_output l;
     structure_props := d; training_props := training_props l;
     input_props := input_props l; output_props := output_props l;
     sampling_factors := sampling_factors l |}.

Definition with_training_props (d : dict string pyval) (l : AbstractLayer)
  : AbstractLayer :=
  {| class := class l; name := name l; num_unit := num_unit l;
     weights := weights l; grads := grads l; theme := theme l;
     unit_names := unit_names l; bias := bias l;
     flatten_output := flatten_output l;
     structure_props := structure_props l; training_props := d;
     input_props := input_props l; output_props := output_props l;
     sampling_factors := sampling_factors l |}.

Definition with_input_props (d : dict string pyval) (l : AbstractLayer)
  : AbstractLayer :=
  {| class := class l; name := name l; num_unit := num_unit l;
     weights := weights l; grads := grads l; theme := theme l;
     unit_names := unit_names l; bias := bias l;
     flatten_output := flatten_output l;
     structure_props := structure_props l; training_props := training_props l;
     input_props := d; output_props := output_props l;
     sampling_factors := sampling_factors l |}.

Definition with_output_props (d : dict string pyval) (l : AbstractLayer)
  : AbstractLayer :=
  {| class := class l; name := name l; num_unit := num_unit l;
     weights := weights l; grads := grads l; theme := theme l;
     unit_names := unit_names l; bias := bias l;
     flatten_output := flatten_output l;
     structure_props := structure_props l; training_props := training_props l;
     input_props := input_props l; output_props := d;
     sampling_factors := sampling_factors l |}.

(** [layer.structure_props[k] = v] and its three siblings *)
Definition set_structure_prop (k : string) (v : pyval) (l : AbstractLayer) :=
  with_structure_props (dict_set String.eqb (structure_props l) k v) l.
Definition set_training_prop (k : string) (v : pyval) (l : AbstractLayer) :=
  with_training_props (dict_set String.eqb (training_props l) k v) l.
Definition set_input_prop (k : string) (v : pyval) (l : AbstractLayer) :=
  with_input_props (dict_set String.eqb (input_props l) k v) l.
Definition set_output_prop (k : string) (v : pyval) (l : AbstractLayer) :=
  with_output_props (dict_set String.eqb (output_props l) k v) l.

(** [layer.append_sampling_factor(factor)] *)
Definition append_sampling_factor (factor : pyval) (l : AbstractLayer)
  : AbstractLayer :=
  {| class := class l; name := name l; num_unit := num_unit l;
     weights := weights l; grads := grads l; theme := theme l;
     unit_names := unit_names l; bias := bias l;
     flatten_output := flatten_output l;
     structure_props := structure_props l; training_props := training_props l;
     input_props := input_props l; output_props := output_props l;
     sampling_factors := sampling_factors l ++ [factor] |}.

End Layers.

Module Grapher.

(** Modelled from the spec: the class [Grapher] is not in the checked sources.
    It is the mutable container of the currently displayed layer list, rebuilt
    in place on every model switch: [reset] clears the layer list,
    [add_layer] appends to it; [theme] is read by the extractor and
    [properties] holds the top-level properties of the displayed model. *)
Record t : Type := {
  theme : Theme;
  properties : dict string pyval;
  layers : list Layers.AbstractLayer
}.

Definition with_layers (ls : list Layers.AbstractLayer) (g : t) : t :=
  {| theme := theme g; properties := properties g; layers := ls |}.

Definition with_properties (p : dict string pyval) (g : t) : t :=
  {| theme := theme g; properties := p; layers := layers g |}.

Definition reset (g : t) : t := with_layers [] g.

Definition add_layer (l : Layers.AbstractLayer) (g : t) : t :=
  with_layers (layers g ++ [l]) g.

End Grapher.

(** What a call of the bridge can change outside the model sequence: the one
    grapher of the application and the records sent to the loggers. *)
Record World : Type := {
  grapher : Grapher.t;
  log : list log_record
}.

Definition with_grapher (f : Grapher.t -> Grapher.t) (w : World) : World :=
  {| grapher := f (grapher w); log := log w |}.

(** [_logger.error(...)] and the like *)
Definition emit (lv : log_level) (msg : string) (w : World) : World :=
  {| grapher := grapher w; log := log w ++ [Log lv msg] |}.

(* ================================================================== *)
(** ** bridge/KerasNetworkExtractor.py                                 *)
(* ================================================================== *)

Module KerasNetworkExtractor.

Definition _pooling_layers : list string :=
  [ "MaxPooling1D"; "MaxPooling2D"; "MaxPooling3D";
    "AveragePooling1D"; "AveragePooling2D"; "AveragePooling3D";
    "GlobalAveragePooling1D"; "GlobalAveragePooling2D"; "GlobalAveragePooling3D";
    "GlobalMaxPooling1D"; "GlobalMaxPooling2D"; "GlobalMaxPooling3D" ].

Definition _dropout_layers : list string :=
  [ "Dropout"; "SpatialDropout1D"; "SpatialDropout2D"; "SpatialDropout3D" ].

Definition _keras_ignored_layers : list string := [ "ActivityRegularization" ].

Definition _pooling_captions : dict string string :=
  [ ("MaxPooling1D", "Max 1D"); ("MaxPooling2D", "Max 2D");
    ("MaxPooling3D", "Max 3D");
    ("AveragePooling1D", "Average 1D"); ("AveragePooling2D", "Average 2D");
    ("AveragePooling3D", "Average 3D");
    ("GlobalAveragePooling1D", "Global average 1D");
    ("GlobalAveragePooling2D", "Global average 2D");
    ("GlobalAveragePooling3D", "Global average 3D");
    ("GlobalMaxPooling1D", "Global max 1D");
    ("GlobalMaxPooling2D", "Global max 2D");
    ("GlobalMaxPooling3D", "Global max 3D") ].

Definition _dropout_captions : dict string string :=
  [ ("Dropout", "Standard"); ("SpatialDropout1D", "Spatial 1D");
    ("SpatialDropout2D", "Spatial 2D"); ("SpatialDropout3D", "Spatial 3D") ].

Definition _activation_captions : dict string string :=
  [ ("elu", "Exponential linear unit"); ("exponential", "Exponential");
    ("hard_sigmoid", "Hard sigmoid"); ("linear", "Linear");
    ("relu", "Rectified linear unit");
    ("selu", "Scaled Exponential Linear Unit (SELU)");
    ("sigmoid", "Sigmoid"); ("softmax", "Soft-max");
    ("softplus", "Soft-plus"); ("softsign", "Soft-sign");
    ("swish", "Swish"); ("tanh", "Hyperbolic tangent") ].

(** [x in names] *)
Definition mem (x : string) (names : list string) : bool :=
  existsb (String.eqb x) names.

(** The local variables of the loop of [process].  [previous_layer] is a
    reference to a layer object that is also held by the grapher: it is kept
    as the position of that object in the grapher's layer list, and an
    assignment through it updates the list. *)
Record locals : Type := {
  previous_layer : option nat;
  idx_grads : Z;
  layer_training_props : dict string pyval;
  layer_input_props : dict string pyval
}.

(** [grapher.add_layer(layer)]; the result is the position of the object. *)
Definition add_layer (l : Layers.AbstractLayer) : M World nat :=
  fun w => (with_grapher (Grapher.add_layer l) w,
            Ret (List.length (Grapher.layers (grapher w)))).

Fixpoint update_nth {A} (i : nat) (f : A -> A) (l : list A) : list A :=
  match l, i with
  | [], _ => []
  | a :: rest, O => f a :: rest
  | a :: rest, S j => a :: update_nth j f rest
  end.

(** An assignment through a reference to the layer at position [i]. *)
Definition update_layer (i : nat) (f : Layers.AbstractLayer -> Layers.AbstractLayer)
  : M World unit :=
  modify (with_grapher
            (fun g => Grapher.with_layers (update_nth i f (Grapher.layers g)) g)).

Definition class_at (i : nat) (w : World) : option Layers.layer_class :=
  option_map Layers.class (nth_error (Grapher.layers (grapher w)) i).

Definition none_has_no_attribute (attr : string) : exn :=
  Exn AttributeError ("'NoneType' object has no attribute '" ++ attr ++ "'")%string.

Section Extractor.
Context (E : External).

Definition _regularizers_captions : dict string string :=
  [ ("l1", "L1 - Lasso (" ++ float_fmt E ++ ")");
    ("l2", "L2 - Ridge (" ++ float_fmt E ++ ")");
    ("l1_l2", "L1-L2 - Elasticnet (" ++ float_fmt E ++ ", " ++ float_fmt E ++ ")") ]%string.

(** The first loop over [sub_attr]: [getattr(value, sa)], an [AttributeError]
    skipping the sub-attribute. *)
Fixpoint collect_attributes (value : pyval) (sub_attr : list string)
  (ret_attr : dict string pyval) : dict string pyval :=
  match sub_attr with
  | [] => ret_attr
  | sa :: rest =>
      match py_getattr value sa with
      | Ret a => collect_attributes value rest (dict_set String.eqb ret_attr sa a)
      | Raise _ => collect_attributes value rest ret_attr
      end
  end.

(** The second loop over [sub_attr]: [value[sa]]; only an [AttributeError]
    is caught there. *)
Fixpoint collect_items (value : pyval) (sub_attr : list string)
  (ret_attr : dict string pyval) : outcome (dict string pyval) :=
  match sub_attr with
  | [] => Ret ret_attr
  | sa :: rest =>
      match py_subscript_str value sa with
      | Ret a => collect_items value rest (dict_set String.eqb ret_attr sa a)
      | Raise e =>
          if exn_kind_eqb (kind e) AttributeError
          then collect_items value rest ret_attr
          else Raise e
      end
  end.

(** The value found in the layer configuration, or [value] unchanged. *)
Definition config_value (keras_layer : KerasLayer) (attribute : string)
  (value : pyval) : pyval :=
  match config keras_layer with
  | None => value
  | Some cfg =>
      match dict_get String.eqb cfg attribute with
      | None => value
      | Some (PDict entries) =>
          match dict_get String.eqb entries "config" with
          | Some v => v
          | None => value
          end
      | Some (PStr s) => PStr s
      | Some (PInt z) => PInt z
      | Some (PBool b) => PBool b
      | Some (PFloat q) => PFloat q
      | Some _ => value
      end
  end.

Definition _get_keras_layer_attribute (keras_layer : KerasLayer)
  (attribute : string) (sub_attr : option (list string)) (look_in_config : bool)
  : outcome pyval :=
  let value :=
    match dict_get String.eqb (attributes keras_layer) attribute with
    | Some v => v
    | None => PNone
    end in
  match is_none value, sub_attr with
  | false, Some subs => Ret (PDict (collect_attributes value subs []))
  | _, _ =>
      let value :=
        if look_in_config then config_value keras_layer attribute value
        else value in
      match is_none value, sub_attr with
      | false, Some subs =>
          ret_attr <~ collect_items value subs [] ;; Ret (PDict ret_attr)
      | _, _ => Ret value
      end
  end.

(** The caption of one regularizer: the [value] of the loop of
    [_process_add_layer]. *)
Definition regularizer_value (reg : pyval) : outcome pyval :=
  if is_none reg then Ret PNone
  else
    l1 <~ py_subscript_str reg "l1" ;;
    if truthy l1 then
      l2 <~ py_subscript_str reg "l2" ;;
      if truthy l2 then
        fmt <~ getitem_str _regularizers_captions "l1_l2" ;;
        v <~ py_format E fmt [l1; l2] ;; Ret (PStr v)
      else
        fmt <~ getitem_str _regularizers_captions "l1" ;;
        v <~ py_format E fmt [l1] ;; Ret (PStr v)
    else
      l2 <~ py_subscript_str reg "l2" ;;
      if truthy l2 then
        fmt <~ getitem_str _regularizers_captions "l2" ;;
        v <~ py_format E fmt [l2] ;; Ret (PStr v)
      else Ret PNone.

Fixpoint regularizers (keras_layer : KerasLayer) (reg_attrs : list string)
  (layer : Layers.AbstractLayer) : outcome Layers.AbstractLayer :=
  match reg_attrs with
  | [] => Ret layer
  | reg_attr :: rest =>
      reg <~ _get_keras_layer_attribute keras_layer reg_attr
               (Some ["l1"; "l2"]) true ;;
      value <~ regularizer_value reg ;;
      regularizers keras_layer rest
        (if truthy value then Layers.set_training_prop reg_attr value layer
         else layer)
  end.

(** The assignments of [_process_add_layer] to the new layer, before it is
    added to the grapher. *)
Definition prepare_layer (layer : Layers.AbstractLayer) (keras_layer : KerasLayer)
  (layer_training_props layer_input_props : dict string pyval)
  : outcome Layers.AbstractLayer :=
  let layer :=
    Layers.with_training_props
      (dict_update String.eqb (Layers.training_props layer) layer_training_props)
      layer in
  let layer :=
    Layers.with_input_props
      (dict_update String.eqb (Layers.input_props layer) layer_input_props)
      layer in
  let layer :=
    Layers.set_input_prop "shape"
      (shape_value (slice_from_1 (input_shape keras_layer))) layer in
  let layer :=
    Layers.set_output_prop "shape"
      (shape_value (slice_from_1 (output_shape keras_layer))) layer in
  layer <~ regularizers keras_layer
             ["activity_regularizer"; "bias_regularizer"; "kernel_regularizer"]
             layer ;;
  let use_bias :=
    match dict_get String.eqb (attributes keras_layer) "use_bias" with
    | None => true
    | Some b => truthy b
    end in
  let layer :=
    match use_bias, bias keras_layer with
    | true, Some b => Layers.with_bias (Some (numpy b)) layer
    | _, _ => layer
    end in
  activation <~ _get_keras_layer_attribute keras_layer "activation" None true ;;
  Ret (if is_none activation then layer
       else Layers.set_structure_prop "activation"
              (get_caption E activation _activation_captions) layer).

(** The result is the position of [layer] in the grapher. *)
Definition _process_add_layer (layer : Layers.AbstractLayer)
  (keras_layer : KerasLayer)
  (layer_training_props layer_input_props : dict string pyval) : M World nat :=
  layer <- lift (prepare_layer layer keras_layer
                   layer_training_props layer_input_props) ;;
  add_layer layer.

Definition compute_gradients (model : Model) (test_data : TestData)
  : M World (option (list (option ndarray))) :=
  try_except
    (if has_test_sample test_data then
       gradient <- lift (tape_gradient E model test_data) ;;
       ret (Some (map gradient (trainable_variables model)))
     else ret None)
    (fun e =>
       modify (emit ERROR ("Unable to compute gradients for model "
                             ++ model_name model ++ ": " ++ message e)%string) ;;
       ret None).

(** [grads[idx_grads].numpy() if grads else None] *)
Definition grads_arg (grads : option (list (option ndarray))) (idx_grads : Z)
  : outcome (option ndarray) :=
  match grads with
  | None | Some [] => Ret None
  | Some g =>
      t <~ getitem "list" g idx_grads ;;
      match t with
      | Some a => Ret (Some a)
      | None => Raise (none_has_no_attribute "numpy")
      end
  end.

(** [Dense(keras_layer.name, keras_layer.output_shape[-1],
           keras_layer.weights[0].numpy(), <grads_arg>, theme)],
    and the same for [Convo2D]. *)
Definition new_layer (c : Layers.layer_class) (keras_layer : KerasLayer)
  (grads : option (list (option ndarray))) (idx_grads : Z) (theme : Theme)
  : outcome Layers.AbstractLayer :=
  n <~ getitem "tuple" (output_shape keras_layer) (-1) ;;
  w <~ getitem "list" (weights keras_layer) 0 ;;
  g <~ grads_arg grads idx_grads ;;
  Ret (Layers.new_weighted c (name keras_layer) (dim_value n) (numpy w) g theme).

(** ["%s (flat)" % t] for a tuple [t]: the tuple is the argument list. *)
Definition format_flat (t : shape) : outcome string :=
  match t with
  | [d] => Ret (py_str E (dim_value d) ++ " (flat)")%string
  | [] => Raise (Exn TypeError "not enough arguments for format string")
  | _ => Raise (Exn TypeError "not all arguments converted during string formatting")
  end.

(** The branch taken for a layer of class ['Dense'] ([c = Dense]) or
    ['Conv2D'] ([c = Convo2D], with its extra properties).  The result is the
    new [previous_layer]. *)
Definition weighted_branch (c : Layers.layer_class) (keras_layer : KerasLayer)
  (grads : option (list (option ndarray))) (theme : Theme) (st : locals)
  : M World (option nat) :=
  layer <- lift (new_layer c keras_layer grads (idx_grads st) theme) ;;
  i <- _process_add_layer layer keras_layer
         (layer_training_props st) (layer_input_props st) ;;
  match c with
  | Layers.Convo2D =>
      strides <- lift (_get_keras_layer_attribute keras_layer "strides" None false) ;;
      (if truthy strides && negb (eq_int_tuple strides [1; 1]%Z) then
         update_layer i (Layers.set_structure_prop "strides" (PStr (py_str E strides))) ;;
         s0 <- lift (py_subscript_int strides 0) ;;
         s1 <- lift (py_subscript_int strides 1) ;;
         update_layer i (Layers.append_sampling_factor (PList [s0; s1; PInt 1; PInt 1]))
       else ret tt) ;;
      padding <- lift (_get_keras_layer_attribute keras_layer "padding" None false) ;;
      (if truthy padding
       then update_layer i (Layers.set_structure_prop "padding" padding)
       else ret tt) ;;
      ret (Some i)
  | _ => ret (Some i)
  end.

Definition flatten_branch (keras_layer : KerasLayer) (theme : Theme)
  (test_data : TestData) (st : locals) : M World (option nat) :=
  w <- get ;;
  match previous_layer st with
  | Some i =>
      match class_at i w with
      | Some Layers.Convo2D =>
          update_layer i (Layers.with_flatten_output true) ;;
          caption <- lift (format_flat (slice_from_1 (output_shape keras_layer))) ;;
          update_layer i (Layers.set_output_prop "shape" (PStr caption)) ;;
          ret (Some i)
      | _ => ret (Some i)
      end
  | None =>
      input_dim <- lift (getitem "tuple" (output_shape_at_0 keras_layer) (-1)) ;;
      let layer :=
        Layers.set_output_prop "shape"
          (shape_value (slice_from_1 (output_shape keras_layer)))
          (Layers.new_Input "input" (dim_value input_dim) theme
             (input_classes test_data)) in
      i <- add_layer layer ;;
      ret (Some i)
  end.

Definition pooling_branch (keras_layer : KerasLayer) (st : locals)
  : M World unit :=
  let layer_class := class_name keras_layer in
  if dict_contains String.eqb _pooling_captions layer_class then
    pool_size <- lift (_get_keras_layer_attribute keras_layer "pool_size" None false) ;;
    pool_size <- (if is_none pool_size
                  then lift (np_shape_ratio E
                               (slice_1_to_last (input_shape keras_layer))
                               (slice_1_to_last (output_shape keras_layer)))
                  else ret pool_size) ;;
    match previous_layer st with
    | None => raise (none_has_no_attribute "output_props")
    | Some i =>
        update_layer i (Layers.set_output_prop "pooling" (PStr (py_str E pool_size))) ;;
        factor <- lift (np_reciprocal E pool_size) ;;
        update_layer i (Layers.append_sampling_factor factor) ;;
        update_layer i (Layers.set_output_prop "shape"
                          (shape_value (slice_from_1 (output_shape keras_layer))))
    end
  else
    modify (emit ERROR ("Unsupported pooling layer: " ++ layer_class)%string).

Definition activation_branch (keras_layer : KerasLayer) (st : locals)
  : M World unit :=
  match previous_layer st with
  | Some i =>
      activation <- lift (_get_keras_layer_attribute keras_layer "activation" None true) ;;
      update_layer i (Layers.set_structure_prop "activation"
                        (get_caption E activation _activation_captions))
  | None => modify (emit ERROR "Unsupported activation layer as first layer")
  end.

(** The result is [next_layer_training_props]. *)
Definition dropout_branch (keras_layer : KerasLayer)
  : M World (dict string pyval) :=
  let layer_class := class_name keras_layer in
  match dict_get String.eqb _dropout_captions layer_class with
  | Some caption =>
      rate <- lift (_get_keras_layer_attribute keras_layer "rate" None true) ;;
      let rate := if is_none rate then PStr "-" else rate in
      ret [("dropout", PStr (caption ++ " (" ++ py_str E rate ++ ")")%string)]
  | None =>
      modify (emit ERROR ("Unsupported dropout layer: " ++ layer_class)%string) ;;
      ret []
  end.

(** One turn of the loop [for keras_layer in self.model.layers]. *)
Definition loop_body (grads : option (list (option ndarray))) (theme : Theme)
  (test_data : TestData) (keras_layer : KerasLayer) (st : locals)
  : M World locals :=
  let layer_class := class_name keras_layer in
  let continue (previous : option nat)
               (next_layer_training_props next_layer_input_props : dict string pyval)
      : M World locals :=
    ret {| previous_layer := previous;
           idx_grads := idx_grads st
                        + Z.of_nat (List.length (trainable_weights keras_layer));
           layer_training_props := next_layer_training_props;
           layer_input_props := next_layer_input_props |} in
  if String.eqb layer_class "Dense" then
    previous <- weighted_branch Layers.Dense keras_layer grads theme st ;;
    continue previous [] []
  else if String.eqb layer_class "Conv2D" then
    previous <- weighted_branch Layers.Convo2D keras_layer grads theme st ;;
    continue previous [] []
  else if String.eqb layer_class "Flatten" then
    previous <- flatten_branch keras_layer theme test_data st ;;
    continue previous [] []
  else if mem layer_class _pooling_layers then
    pooling_branch keras_layer st ;;
    continue (previous_layer st) [] []
  else if String.eqb layer_class "Activation" then
    activation_branch keras_layer st ;;
    continue (previous_layer st) [] []
  else if mem layer_class _dropout_layers then
    next_layer_training_props <- dropout_branch keras_layer ;;
    continue (previous_layer st) next_layer_training_props []
  else if String.eqb layer_class "BatchNormalization" then
    continue (previous_layer st) [] [("batch_normalization", PStr "Enabled")]
  else if mem layer_class _keras_ignored_layers then
    modify (emit INFO ("Ignored " ++ name keras_layer)%string) ;;
    continue (previous_layer st) [] []
  else
    modify (emit ERROR ("Not handled layer " ++ name keras_layer ++ " of type "
                          ++ type_repr keras_layer)%string) ;;
    continue (previous_layer st) [] [].

(** The input placeholder, added when the first layer has weights.  The
    result is the initial [previous_layer]. *)
Definition input_placeholder (model : Model) (theme : Theme)
  (test_data : TestData) : M World (option nat) :=
  first <- lift (getitem "list" (layers model) 0) ;;
  if (0 <? List.length (get_weights first))%nat then
    w0 <- lift (getitem "list" (get_weights first) 0) ;;
    input_dim <- lift (getitem "tuple" (nd_shape w0) (-2)) ;;
    let input_layer :=
      Layers.set_output_prop "shape"
        (shape_value (slice_from_1 (input_shape first)))
        (Layers.new_Input "input" (PInt input_dim) theme (input_classes test_data)) in
    i <- add_layer input_layer ;;
    ret (Some i)
  else ret None.

Definition initial_locals (previous : option nat) : locals :=
  {| previous_layer := previous; idx_grads := 0;
     layer_training_props := []; layer_input_props := [] |}.

(** [self.grapher.layers[-1].unit_names = self.test_data.output_classes] *)
Definition set_output_classes (test_data : TestData) : M World unit :=
  match output_classes test_data with
  | Some classes =>
      w <- get ;;
      let ls := Grapher.layers (grapher w) in
      lift (getitem "list" ls (-1)) ;;
      update_layer (List.length ls - 1) (Layers.with_unit_names (Some classes))
  | None => ret tt
  end.

(** [process] from the input placeholder on, [grads] being the result of
    [compute_gradients]. *)
Definition build_layers (model : Model) (test_data : TestData) (theme : Theme)
  (grads : option (list (option ndarray))) : M World unit :=
  previous <- input_placeholder model theme test_data ;;
  for_each (layers model) (loop_body grads theme test_data)
           (initial_locals previous) ;;
  set_output_classes test_data.

Definition process (model : Model) (test_data : TestData) : M World unit :=
  if negb (is_sequential model) then
    raise (Exn ModelError ("Unexpected model of type '" ++ model_type model
                             ++ "', expecting Sequential model")%string)
  else if (List.length (layers model) =? 0)%nat then
    modify (emit ERROR "Empty model")
  else
    w <- get ;;
    let theme := Grapher.theme (grapher w) in
    modify (with_grapher Grapher.reset) ;;
    grads <- compute_gradients model test_data ;;
    build_layers model test_data theme grads.

End Extractor.

End KerasNetworkExtractor.

(* ================================================================== *)
(** ** bridge/KerasModelSequence.py                                    *)
(* ================================================================== *)

Module KerasModelSequence.

(** The attributes of a [KerasModelSequence] object: those of
    [AbstractModelSequence] and its own. *)
Record t : Type := {
  base : AbstractModelSequence;
  model_paths : list string;
  current_model : option Model;
  test_data : TestData
}.

Definition with_base (f : AbstractModelSequence -> AbstractModelSequence)
  (self : t) : t :=
  {| base := f (base self); model_paths := model_paths self;
     current_model := current_model self; test_data := test_data self |}.

Definition with_model_paths (paths : list string) (self : t) : t :=
  {| base := base self; model_paths := paths;
     current_model := current_model self; test_data := test_data self |}.

Definition with_current_model (m : option Model) (self : t) : t :=
  {| base := base self; model_paths := model_paths self;
     current_model := m; test_data := test_data self |}.

Definition with_test_data (d : TestData) (self : t) : t :=
  {| base := base self; model_paths := model_paths self;
     current_model := current_model self; test_data := d |}.

Definition set_title (v : string) (b : AbstractModelSequence) :=
  {| title := Some v; number_epochs := number_epochs b;
     current_epoch_index := current_epoch_index b |}.

Definition set_number_epochs (n : Z) (b : AbstractModelSequence) :=
  {| title := title b; number_epochs := n;
     current_epoch_index := current_epoch_index b |}.

Definition set_current_epoch_index (i : Z) (b : AbstractModelSequence) :=
  {| title := title b; number_epochs := number_epochs b;
     current_epoch_index := i |}.

(** [regexp.search(path).group(n)]: without a match, [search] gives [None]. *)
Definition search_group (E : External) (pattern path : string) (n : Z)
  : outcome string :=
  match re_search E pattern path with
  | None => Raise (Exn AttributeError "'NoneType' object has no attribute 'group'")
  | Some groups =>
      if (1 <=? n)%Z && (n <=? Z.of_nat (List.length groups))%Z then
        getitem "group" groups (n - 1)
      else Raise (Exn IndexError "no such group")
  end.

Section Sequence.
Context (E : External).

Definition reset : M t unit :=
  modify (fun self =>
            with_current_model None
              (with_model_paths [] (with_base (abstract_reset E) self))).

Definition load_single (file_path : string) : M t unit :=
  reset ;;
  modify (with_base (set_title file_path)) ;;
  modify (with_base (set_number_epochs 1)) ;;
  modify (with_model_paths [file_path]).

(** [int(checkpoint_epoch_regexp.search(path).group(1)): path] *)
Definition checkpoint_entry (pattern path : string) : outcome (Z * string) :=
  g <~ search_group E pattern path 1 ;;
  epoch <~ int g ;;
  Ret (epoch, path).

(** [checkpoints[i]] *)
Definition checkpoint_path (checkpoints : dict Z string) (i : Z) : outcome string :=
  match dict_get Z.eqb checkpoints i with
  | Some p => Ret p
  | None => Raise (Exn KeyError (string_of_Z i))
  end.

Definition load_sequence (dir_path : string) : M t unit :=
  reset ;;
  modify (with_base (set_title dir_path)) ;;
  let checkpoint_glob := replace dir_path "{epoch}" "[0-9]*" in
  let checkpoint_path_list := glob_glob E checkpoint_glob in
  let pattern := replace dir_path "{epoch}" "([0-9]*)" in
  lift (re_compile E pattern) ;;
  entries <- lift (comprehension (checkpoint_entry pattern) checkpoint_path_list) ;;
  let checkpoints := dict_of_pairs Z.eqb entries in
  let checkpoint_epochs := sort Z.leb (keys checkpoints) in
  paths <- lift (comprehension (checkpoint_path checkpoints) checkpoint_epochs) ;;
  modify (with_model_paths paths) ;;
  modify (with_base (set_number_epochs (Z.of_nat (List.length paths)))).

(** The state of [list_models]: the local list [models] and the logger. *)
Definition listing : Type := (list string * list log_record)%type.

Definition extend (paths : list string) : M listing unit :=
  modify (fun s => (fst s ++ paths, snd s)).

Definition warn (lv : log_level) (msg : string) : M listing unit :=
  modify (fun s => (fst s, snd s ++ [Log lv msg])).

(** The body of [for path in directories]. *)
Definition list_directory (model_sequence_pattern seq_pat1 seq_pat2 : string)
  (path : string) (_ : unit) : M listing unit :=
  extend (glob_glob E (path_join E path "*.h5")) ;;
  extend (glob_glob E (path_join E path "*.tf")) ;;
  let model_path_list := glob_glob E (path_join E path seq_pat1) in
  lift (re_compile E seq_pat2) ;;
  seq_model_path_list <-
    lift (comprehension (fun p => search_group E seq_pat2 p 1) model_path_list) ;;
  extend (map (fun m => path_join E path (replace model_sequence_pattern "{model}" m))
              (dedup seq_model_path_list)).

(** [list_models(directories, model_sequence_pattern)]: the result and the
    records logged, the logger starting from [logged]. *)
Definition list_models (directories : list string) (model_sequence_pattern : string)
  (logged : list log_record) : list log_record * outcome (list string) :=
  let seq_pat1 :=
    replace (replace model_sequence_pattern "{model}" "*") "{epoch}" "[0-9]*" in
  let seq_pat2 :=
    replace (replace model_sequence_pattern "{model}" "(\w+)") "{epoch}" "([0-9]+)" in
  let run : M listing (list string) :=
    try_except
      (for_each directories
                (list_directory model_sequence_pattern seq_pat1 seq_pat2) tt)
      (fun e =>
         warn WARNING "Failed to list directories" ;;
         trace <- lift (format_exc (traceback_text E) (LimitExn e)) ;;
         warn DEBUG trace) ;;
    s <- get ;;
    ret (sort string_leb (fst s)) in
  let '(s, r) := run ([], logged) in (snd s, r).

(** The default [model_sequence_pattern]. *)
Definition default_pattern : string := "{model}_{epoch}".

Definition _load_keras_model (self : t) (model_index : Z) : outcome Model :=
  p <~ getitem "list" (model_paths self) model_index ;;
  if path_exists E p then keras_load_model E (path_str E p)
  else Raise (Exn ModelError ("Model path not found '" ++ path_str E p ++ "'")%string).

Definition get_input_geometry (self : t) : outcome (string * shape) :=
  if (number_epochs (base self) =? 0)%Z then
    Raise (Exn ModelError "No model available")
  else
    model <~ _load_keras_model self 0 ;;
    Ret (input_dtype model, input_shape_list model).

(** The body of the [try] of [format_test_data]. *)
Definition format_test_data_body : M t unit :=
  self <- get ;;
  geometry <- lift (get_input_geometry self) ;;
  formatted <- lift (keras_prepare_input E (fst geometry) (snd geometry)
                       (x (test_data self))) ;;
  modify (with_test_data (set_x_format (test_data self) formatted)).

Definition format_test_data : M t unit :=
  try_except format_test_data_body
    (fun e => raise (Exn ModelError
                       ("Error while formatting test data: " ++ message e)%string)).

(** The state of [_load_model]: the sequence, and the grapher and loggers. *)
Definition session : Type := (t * World)%type.

Definition on_self {A} (c : M t A) : M session A :=
  fun s => let '(self', r) := c (fst s) in ((self', snd s), r).

Definition on_world {A} (c : M World A) : M session A :=
  fun s => let '(w', r) := c (snd s) in ((fst s, w'), r).

Definition _load_model (model_index : Z) : M session Z :=
  s <- get ;;
  model <- lift (_load_keras_model (fst s) model_index) ;;
  on_self (modify (with_current_model (Some model))) ;;
  on_world (modify (with_grapher
                      (Grapher.with_properties (keras_model_properties E model)))) ;;
  on_world (KerasNetworkExtractor.process E model (test_data (fst s))) ;;
  on_self (modify (with_base (set_current_epoch_index model_index))) ;;
  ret model_index.

End Sequence.

End KerasModelSequence.

(* ================================================================== *)
(** ** A concrete environment, for the examples                         *)
(* ================================================================== *)

Module Demo.

(** *** [glob] patterns made of literal characters, [*] and [[0-9]] *)
Inductive gtok : Type := GStar | GDigit | GLit (c : ascii).

Fixpoint glob_tokens_from (skip : nat) (p : string) : list gtok :=
  match p with
  | EmptyString => []
  | String c rest =>
      match skip with
      | S k => glob_tokens_from k rest
      | O =>
          if String.prefix "[0-9]" p then GDigit :: glob_tokens_from 4 rest
          else if Ascii.eqb c "*" then GStar :: glob_tokens_from 0 rest
          else GLit c :: glob_tokens_from 0 rest
      end
  end.

(** A [*] matches any run of characters other than the separator. *)
Fixpoint glob_match (toks : list gtok) (s : string) {struct toks} : bool :=
  match toks with
  | [] => String.eqb s ""
  | GLit c :: r =>
      match s with
      | String d s' => Ascii.eqb c d && glob_match r s'
      | EmptyString => false
      end
  | GDigit :: r =>
      match s with
      | String d s' => is_digit d && glob_match r s'
      | EmptyString => false
      end
  | GStar :: r =>
      (fix star (s : string) : bool :=
         glob_match r s
         || match s with
            | String d s' => negb (Ascii.eqb d "/") && star s'
            | EmptyString => false
            end) s
  end.

(** *** Regular expressions made of literal characters, the dot, and the
    three groups of the patterns of the bridge: a non-empty run of word
    characters, a run of digits, a non-empty run of digits *)
Inductive rtok : Type :=
| RLit (c : ascii)
| RAny
| RGroup (word : bool) (least : nat).

Fixpoint re_tokens_from (skip : nat) (p : string) : list rtok :=
  match p with
  | EmptyString => []
  | String c rest =>
      match skip with
      | S k => re_tokens_from k rest
      | O =>
          if String.prefix "(\w+)" p then RGroup true 1 :: re_tokens_from 4 rest
          else if String.prefix "([0-9]*)" p then RGroup false 0 :: re_tokens_from 7 rest
          else if String.prefix "([0-9]+)" p then RGroup false 1 :: re_tokens_from 7 rest
          else if Ascii.eqb c "." then RAny :: re_tokens_from 0 rest
          else RLit c :: re_tokens_from 0 rest
      end
  end.

Definition is_word (c : ascii) : bool :=
  let n := nat_of_ascii c in
  is_digit c || ((65 <=? n)%nat && (n <=? 90)%nat)
  || ((97 <=? n)%nat && (n <=? 122)%nat) || (n =? 95)%nat.

Definition in_class (word : bool) (c : ascii) : bool :=
  if word then is_word c else is_digit c.

(** The length of the longest prefix of [s] made of characters of the class. *)
Fixpoint run (word : bool) (s : string) : nat :=
  match s with
  | String c s' => if in_class word c then S (run word s') else O
  | EmptyString => O
  end.

Definition drop (k : nat) (s : string) : string :=
  substring k (String.length s - k) s.

(** The groups captured when [toks] matches at the start of [s]; a group is
    greedy and gives characters back one at a time. *)
Fixpoint re_match (toks : list rtok) (s : string) {struct toks}
  : option (list string) :=
  match toks with
  | [] => Some []
  | RLit c :: r =>
      match s with
      | String d s' => if Ascii.eqb c d then re_match r s' else None
      | EmptyString => None
      end
  | RAny :: r =>
      match s with
      | String d s' => if (nat_of_ascii d =? 10)%nat then None else re_match r s'
      | EmptyString => None
      end
  | RGroup word least :: r =>
      (fix attempt (k : nat) : option (list string) :=
         match (if (least <=? k)%nat then re_match r (drop k s) else None) with
         | Some groups => Some (substring 0 k s :: groups)
         | None => match k with
                   | O => None
                   | S k' => attempt k'
                   end
         end) (run word s)
  end.

(** [search]: the first position at which the pattern matches. *)
Fixpoint re_search_from (toks : list rtok) (s : string) : option (list string) :=
  match re_match toks s with
  | Some groups => Some groups
  | None =>
      match s with
      | String _ s' => re_search_from toks s'
      | EmptyString => None
      end
  end.

(** *** [str()] of the values shown in the examples *)
Fixpoint show (v : pyval) : string :=
  match v with
  | PNone => "None"
  | PBool b => if b then "True" else "False"
  | PInt z => string_of_Z z
  | PStr s => s
  | PTuple items =>
      ("(" ++ String.concat ", " (map show items) ++ ")")%string
  | PList items =>
      ("[" ++ String.concat ", " (map show items) ++ "]")%string
  | PFloat _ => "<float>"
  | PDict _ => "<dict>"
  | PObj cls _ => ("<" ++ cls ++ " object>")%string
  end.

Definition shape_ratio (a b : shape) : outcome pyval :=
  if (List.length a =? List.length b)%nat then
    Ret (PTuple (map (fun ab =>
                        match ab with
                        | (Some n, Some d) => PFloat (inject_Z n / inject_Z d)%Q
                        | _ => PNone
                        end) (combine a b)))
  else Raise (Exn ValueError "operands could not be broadcast together").

Definition reciprocal (v : pyval) : outcome pyval :=
  match v with
  | PTuple items | PList items =>
      Ret (PList (map (fun i => match num_value i with
                                | Some q => PFloat (1 / q)%Q
                                | None => PNone
                                end) items))
  | _ =>
      match num_value v with
      | Some q => Ret (PFloat (1 / q)%Q)
      | None => Raise (Exn TypeError "unsupported operand type(s) for /")
      end
  end.

Definition caption_of (v : pyval) (captions : dict string string) : pyval :=
  match v with
  | PStr s =>
      match dict_get String.eqb captions s with
      | Some c => PStr c
      | None => v
      end
  | _ => v
  end.

(** The environment of a directory holding [files], of which [saved] are
    Keras models, with the gradient tape [tape]. *)
Definition env (files : list string) (saved : dict string Model)
  (tape : Model -> TestData -> outcome (KVar -> option ndarray)) : External :=
  {| glob_glob := fun p => filter (glob_match (glob_tokens_from 0 p)) files;
     re_compile := fun _ => Ret tt;
     re_search := fun p s => re_search_from (re_tokens_from 0 p) s;
     path_join := fun a b => (a ++ "/" ++ b)%string;
     path_str := fun p => p;
     path_exists := fun p => existsb (String.eqb p) files;
     keras_load_model := fun p =>
       match dict_get String.eqb saved p with
       | Some m => Ret m
       | None => Raise (Exn OSError ("Unable to open file " ++ p)%string)
       end;
     tape_gradient := tape;
     keras_prepare_input := fun _ _ data => Ret data;
     keras_model_properties := fun m => [("name", PStr (model_name m))];
     get_caption := caption_of;
     abstract_reset := fun _ =>
       {| title := None; number_epochs := 0; current_epoch_index := 0 |};
     float_fmt := "%.2g";
     py_str := show;
     py_format := fun fmt _ => Ret fmt;
     np_shape_ratio := shape_ratio;
     np_reciprocal := reciprocal;
     traceback_text := "Traceback (most recent call last)" |}.

Definition no_tape : Model -> TestData -> outcome (KVar -> option ndarray) :=
  fun _ _ => Raise (Exn ValueError "No gradients provided for any variable").

(** *** Layers and models *)
Definition kernel (nm : string) (rows cols : Z) (entries : list Q) : KVar :=
  Var (nm ++ "/kernel:0")%string (NdArray [rows; cols] entries).

Definition bias_var (nm : string) (cols : Z) (entries : list Q) : KVar :=
  Var (nm ++ "/bias:0")%string (NdArray [cols] entries).

Definition dense_layer (nm : string) (n_in n_out : Z) (k b : list Q)
  (trainable : bool) : KerasLayer :=
  {| class_name := "Dense";
     type_repr := "<class 'tensorflow.python.keras.layers.core.Dense'>";
     name := nm;
     weights := [kernel nm n_in n_out k; bias_var nm n_out b];
     trainable_weights :=
       if trainable then [kernel nm n_in n_out k; bias_var nm n_out b] else [];
     input_shape := [None; Some n_in];
     output_shape := [None; Some n_out];
     output_shape_at_0 := [None; Some n_out];
     attributes := [("use_bias", PBool true); ("activation", PStr "relu")];
     bias := Some (bias_var nm n_out b);
     config := Some [("name", PStr nm); ("units", PInt n_out);
                     ("activation", PStr "relu"); ("use_bias", PBool true)] |}.

Definition max_pooling (nm : string) (h w c : Z) : KerasLayer :=
  {| class_name := "MaxPooling2D";
     type_repr := "<class 'tensorflow.python.keras.layers.pooling.MaxPooling2D'>";
     name := nm;
     weights := [];
     trainable_weights := [];
     input_shape := [None; Some h; Some w; Some c];
     output_shape := [None; Some (h / 2)%Z; Some (w / 2)%Z; Some c];
     output_shape_at_0 := [None; Some (h / 2)%Z; Some (w / 2)%Z; Some c];
     attributes := [("pool_size", PTuple [PInt 2; PInt 2]);
                    ("strides", PTuple [PInt 2; PInt 2]);
                    ("padding", PStr "valid")];
     bias := None;
     config := Some [("name", PStr nm);
                     ("pool_size", PTuple [PInt 2; PInt 2])] |}.

Definition flatten (nm : string) (h w c : Z) : KerasLayer :=
  {| class_name := "Flatten";
     type_repr := "<class 'tensorflow.python.keras.layers.core.Flatten'>";
     name := nm;
     weights := [];
     trainable_weights := [];
     input_shape := [None; Some h; Some w; Some c];
     output_shape := [None; Some (h * w * c)%Z];
     output_shape_at_0 := [None; Some (h * w * c)%Z];
     attributes := [];
     bias := None;
     config := Some [("name", PStr nm)] |}.

Definition sequential (nm : string) (ls : list KerasLayer) (input : shape) : Model :=
  {| model_name := nm;
     model_type := "<class 'tensorflow.python.keras.engine.sequential.Sequential'>";
     is_sequential := true;
     layers := ls;
     input_dtype := "float32";
     input_shape_list := input |}.

Definition no_test_data : TestData :=
  {| x := None; y := None; x_format := None; has_test_sample := false;
     input_classes := None; output_classes := None |}.

Definition test_sample : TestData :=
  {| x := Some (NdArray [1; 2]%Z [1; 2]%Q); y := Some (NdArray [1]%Z [0]%Q);
     x_format := Some (NdArray [1; 2]%Z [1; 2]%Q); has_test_sample := true;
     input_classes := None; output_classes := None |}.

(** A test sample with the names of the output classes. *)
Definition classified_sample : TestData :=
  {| x := Some (NdArray [1; 2]%Z [1; 2]%Q); y := Some (NdArray [1]%Z [0]%Q);
     x_format := Some (NdArray [1; 2]%Z [1; 2]%Q); has_test_sample := true;
     input_classes := None; output_classes := Some ["cat"] |}.

(** [Dropout(0.5)] after a layer of [n] units. *)
Definition dropout (nm : string) (n : Z) : KerasLayer :=
  {| class_name := "Dropout";
     type_repr := "<class 'tensorflow.python.keras.layers.core.Dropout'>";
     name := nm;
     weights := [];
     trainable_weights := [];
     input_shape := [None; Some n];
     output_shape := [None; Some n];
     output_shape_at_0 := [None; Some n];
     attributes := [("rate", PFloat (1 # 2))];
     bias := None;
     config := Some [("name", PStr nm); ("rate", PFloat (1 # 2))] |}.

Definition empty_grapher : Grapher.t :=
  {| Grapher.theme := "default"; Grapher.properties := []; Grapher.layers := [] |}.

Definition start (g : Grapher.t) : World := {| grapher := g; log := [] |}.

(** A model whose first layer is a pooling layer:
    [Sequential([MaxPooling2D(input_shape=(4, 4, 1)), Flatten(), Dense(2)])]. *)
Definition pooling_first : Model :=
  sequential "pooling_first"
    [ max_pooling "max_pooling2d" 4 4 1;
      flatten "flatten" 2 2 1;
      dense_layer "dense" 4 2 [1; 2; 3; 4; 5; 6; 7; 8]%Q [0; 0]%Q true ]
    [None; Some 4; Some 4; Some 1]%Z.

(** [Sequential([Dense(2, input_shape=(2,)), Dense(1)])] *)
Definition two_dense (first_trainable : bool) : Model :=
  sequential "two_dense"
    [ dense_layer "dense" 2 2 [1; 2; 3; 4]%Q [0; 0]%Q first_trainable;
      dense_layer "dense_1" 2 1 [5; 6]%Q [0]%Q true ]
    [None; Some 2]%Z.

(** [Sequential([Dense(2, input_shape=(2,)), Dense(2, trainable=False),
                 Dense(1, name='output')])] *)
Definition frozen_middle : Model :=
  sequential "frozen_middle"
    [ dense_layer "dense" 2 2 [1; 2; 3; 4]%Q [0; 0]%Q true;
      dense_layer "dense_1" 2 2 [5; 6; 7; 8]%Q [0; 0]%Q false;
      dense_layer "output" 2 1 [9; 10]%Q [0]%Q true ]
    [None; Some 2]%Z.

(** [Sequential([Dense(2, input_shape=(2,)), Dense(1, trainable=False)])] *)
Definition frozen_last : Model :=
  sequential "frozen_last"
    [ dense_layer "dense" 2 2 [1; 2; 3; 4]%Q [0; 0]%Q true;
      dense_layer "dense_1" 2 1 [5; 6]%Q [0]%Q false ]
    [None; Some 2]%Z.

(** A model without layers: [Sequential()]. *)
Definition empty_model : Model := sequential "sequential" [] [].

(** A model built with the functional API: [Model(inputs, Dense(2)(inputs))]. *)
Definition functional : Model :=
  {| model_name := "functional";
     model_type := "<class 'tensorflow.python.keras.engine.functional.Functional'>";
     is_sequential := false;
     layers := [dense_layer "dense" 2 2 [1; 2; 3; 4]%Q [0; 0]%Q true];
     input_dtype := "float32";
     input_shape_list := [None; Some 2]%Z |}.

(** A tape giving, for a variable, an array of its shape named after it:
    the entries are the lengths of the variable's name. *)
Definition tagged_gradient (v : KVar) : option ndarray :=
  Some (NdArray (nd_shape (var_value v))
                [inject_Z (Z.of_nat (String.length (var_name v)))]).

Definition tagging_tape : Model -> TestData -> outcome (KVar -> option ndarray) :=
  fun _ _ => Ret tagged_gradient.

(** A layer left in the grapher by a model displayed before. *)
Definition old_layer : Layers.AbstractLayer :=
  Layers.new_weighted Layers.Dense "previous_model_dense" (PInt 3)
    (NdArray [1; 3]%Z [9; 9; 9]%Q) None "default".

Definition used_grapher : Grapher.t :=
  {| Grapher.theme := "default"; Grapher.properties := [("name", PStr "previous")];
     Grapher.layers := [old_layer] |}.

Definition sequence_of (paths : list string) : KerasModelSequence.t :=
  {| KerasModelSequence.base :=
       {| title := None; number_epochs := Z.of_nat (List.length paths);
          current_epoch_index := 0 |};
     KerasModelSequence.model_paths := paths;
     KerasModelSequence.current_model := None;
     KerasModelSequence.test_data := no_test_data |}.

End Demo.

(* ================================================================== *)
(** ** Notions used in the statements                                   *)
(* ================================================================== *)

(** The checkpoint kept for an epoch by the dictionary of [load_sequence]:
    the last matched path with that epoch. *)
Definition last_checkpoint (entries : list (Z * string)) (epoch : Z)
  : option string :=
  dict_get Z.eqb (rev entries) epoch.

(** A world whose UI layers have [None] in place of their gradient arrays. *)
Definition erase_grads (w : World) : World :=
  with_grapher
    (fun g => Grapher.with_layers
                (map (Layers.with_grads None) (Grapher.layers g)) g) w.

Definition erase_run {A} (r : World * outcome A) : World * outcome A :=
  (erase_grads (fst r), snd r).

(** [c1] does to a world without gradient arrays what [c2] does to the world
    with them, and ends the same way. *)
Definition same_but_gradients {A} (c1 c2 : M World A) : Prop :=
  forall w, c1 (erase_grads w) = erase_run (c2 w).

(** [f (x)] for the result [x] of a computation that may raise. *)
Definition omap {A B} (f : A -> B) (o : outcome A) : outcome B :=
  match o with
  | Ret a => Ret (f a)
  | Raise e => Raise e
  end.

(** What the grapher shows of the layers with weights: for each [Dense] and
    [Convo2D] object, in the order of the layer list, its class, its name and
    its weight array. *)
Definition ui_weighted (l : Layers.AbstractLayer) : bool :=
  negb (Layers.layer_class_eqb (Layers.class l) Layers.Input).

Definition ui_summary (l : Layers.AbstractLayer)
  : Layers.layer_class * string * option ndarray :=
  (Layers.class l, Layers.name l, Layers.weights l).

Definition shown (w : World) : list (Layers.layer_class * string * option ndarray) :=
  map ui_summary (filter ui_weighted (Grapher.layers (grapher w))).

(** What a ['Dense'] or ['Conv2D'] layer of the model is to show: the UI class
    matching its class name, its name, and a copy of its first weight. *)
Definition keras_summary (keras_layer : KerasLayer)
  : Layers.layer_class * string * option ndarray :=
  (if String.eqb (class_name keras_layer) "Dense" then Layers.Dense
   else Layers.Convo2D,
   name keras_layer,
   option_map numpy (hd_error (weights keras_layer))).

(** A computation that leaves what the grapher shows as it is. *)
Definition keeps_shown {A} (c : M World A) : Prop :=
  forall w w' r, c w = (w', r) -> shown w' = shown w.

Definition weighted_class (keras_layer : KerasLayer) : bool :=
  String.eqb (class_name keras_layer) "Dense"
  || String.eqb (class_name keras_layer) "Conv2D".

(** The gradient list [g] has an array at the cursor of every ['Dense'] and
    ['Conv2D'] layer of [ls], the cursor starting at [idx]. *)
Fixpoint gradients_usable (g : list (option ndarray)) (idx : Z)
  (ls : list KerasLayer) : bool :=
  match ls with
  | [] => true
  | keras_layer :: rest =>
      (if weighted_class keras_layer then
         match KerasNetworkExtractor.grads_arg (Some g) idx with
         | Ret _ => true
         | Raise _ => false
         end
       else true)
      && gradients_usable g
           (idx + Z.of_nat (List.length (trainable_weights keras_layer))) rest
  end.

(** The number of trainable weights of a run of layers. *)
Definition count_trainable (ls : list KerasLayer) : Z :=
  Z.of_nat (List.length (List.concat (map trainable_weights ls))).

(** The last sentence of the claim on the gradient cursor, as it is written:
    whenever the walk reaches a ['Dense'] or ['Conv2D'] layer and hands a
    gradient array to the new UI layer, that array is the gradient of the
    first trainable weight of that very layer. *)
Definition passes_own_gradient (E : External) (model : Model) : Prop :=
  forall test_data theme gradient previous pre keras_layer post w w' st t,
    layers model = pre ++ keras_layer :: post ->
    weighted_class keras_layer = true ->
    for_each pre
      (KerasNetworkExtractor.loop_body E
         (Some (map gradient (trainable_variables model))) theme test_data)
      (KerasNetworkExtractor.initial_locals previous) w = (w', Ret st) ->
    KerasNetworkExtractor.grads_arg
      (Some (map gradient (trainable_variables model)))
      (KerasNetworkExtractor.idx_grads st) = Ret (Some t) ->
    exists v, hd_error (trainable_weights keras_layer) = Some v
              /\ gradient v = Some t.

(* ================================================================== *)
(** ** bridge/KerasModelSequence.py: the activation mapper              *)
(* ================================================================== *)

Module KerasActivation.

(** [s.split(sep)] with a one-character separator: the pieces between the
    separators, empty pieces included. *)
Fixpoint split (sep : ascii) (s : string) : list string :=
  match s with
  | EmptyString => [EmptyString]
  | String c rest =>
      if Ascii.eqb c sep then EmptyString :: split sep rest
      else match split sep rest with
           | seg :: segs => String c seg :: segs
           | [] => [String c EmptyString]
           end
  end.

(** [filter(lambda s: s, segments)] *)
Definition non_empty (s : string) : bool := negb (String.eqb s "").

(** [except ValueError] *)
Definition is_ValueError (e : exn) : bool := exn_kind_eqb (kind e) ValueError.

Section Walk.
(** The Keras models and layers, and [cur_layer.get_layer(name=...)], are
    those of Keras: any type and any function will do. *)
Context {KLayer : Type} (get_layer : KLayer -> string -> outcome KLayer).

(** The loop over the path segments; [layers] is the list being appended to.
    [Ret None] is the [return None] of the handler. *)
Fixpoint walk_segments (path : string) (segments : list string)
  (cur_layer : KLayer) (layers : list KLayer)
  : M (list log_record) (option (KLayer * list KLayer)) :=
  match segments with
  | [] => ret (Some (cur_layer, layers))
  | segment :: rest =>
      match get_layer cur_layer segment with
      | Ret l => walk_segments path rest l (layers ++ [l])
      | Raise e =>
          if is_ValueError e then
            modify (fun lg =>
                      lg ++ [Log ERROR ("Fail to find layer path segment " ++ segment
                                          ++ " within path " ++ path)%string]) ;;
            ret None
          else raise e
      end
  end.

Definition _get_keras_layer (model : KLayer) (name path : string)
  : M (list log_record) (option (KLayer * list KLayer)) :=
  let segments := split "/" path in
  found <- walk_segments path (filter non_empty segments) model [model] ;;
  match found with
  | None => ret None
  | Some (cur_layer, layers) =>
      match get_layer cur_layer name with
      | Ret l => ret (Some (l, layers))
      | Raise e =>
          if is_ValueError e then
            modify (fun lg =>
                      lg ++ [Log ERROR ("Fail to find layer " ++ name
                                          ++ " within path " ++ path)%string]) ;;
            ret None
          else raise e
      end
  end.

(** What [get_activation] asks of Keras and numpy: the prediction of the
    partial model from the input of [current_model] to the output node
    [node] of the layer found, for the mini-batch made of one image (its
    first and only element), and the slice [maps[:, :, unit]]. *)
Context (predict : KLayer -> KLayer -> Z -> ndarray -> outcome ndarray)
        (unit_slice : ndarray -> Z -> outcome ndarray).

(** [get_activation(img, layer, unit)], [layer] given by its name and path.
    The pair returned by [_get_keras_layer] is unpacked at once. *)
Definition get_activation (current_model : KLayer) (img : ndarray)
  (layer_name layer_path : string) (unit : option Z)
  : M (list log_record) (option ndarray) :=
  found <- _get_keras_layer current_model layer_name layer_path ;;
  match found with
  | None => raise (Exn TypeError "cannot unpack non-iterable NoneType object")
  | Some (keras_layer, access_layers) =>
      match predict current_model keras_layer
              (Z.of_nat (List.length access_layers) - 1) img with
      | Raise e =>
          if is_ValueError e then
            modify (fun lg =>
                      lg ++ [Log ERROR ("Fail to predict from input to partial output: "
                                          ++ message e)%string]) ;;
            ret None
          else raise e
      | Ret maps =>
          match unit with
          | None => ret (Some maps)
          | Some u => m <- lift (unit_slice maps u) ;; ret (Some m)
          end
      end
  end.

(** [chain] holds the layers that [get_layer] gives for the [segments], one
    after the other, starting from [top]. *)
Fixpoint follows (top : KLayer) (segments : list string) (chain : list KLayer)
  : Prop :=
  match segments, chain with
  | [], [] => True
  | segment :: rest, n :: chain' =>
      get_layer top segment = Ret n /\ follows n rest chain'
  | _, _ => False
  end.

End Walk.

(** A model for the examples, its layers given by their names: the model
    [net] holds the model [block], which holds the layer [conv]. *)
Definition net_get_layer (cur name : string) : outcome string :=
  if String.eqb cur "net" && String.eqb name "block" then Ret "block"
  else if String.eqb cur "block" && String.eqb name "conv" then Ret "conv"
  else Raise (Exn ValueError ("No such layer: " ++ name)%string).

End KerasActivation.

(* ================================================================== *)
(** ** Further notions used in the statements                           *)
(* ================================================================== *)

(** The classes of the UI layers of the grapher, in order. *)
Definition classes (w : World) : list Layers.layer_class :=
  map Layers.class (Grapher.layers (grapher w)).

(** A computation that leaves the observation [f] of the world alone,
    whether it returns or raises. *)
Definition keeps {X} (f : World -> X) {A} (c : M World A) : Prop :=
  forall w w' r, c w = (w', r) -> f w' = f w.

(** What a computation returns, when it returns, satisfies [P]. *)
Definition yields {A} (c : M World A) (P : A -> Prop) : Prop :=
  forall w w' a, c w = (w', Ret a) -> P a.

(** What the extractor never assigns: the theme and the top-level
    properties of the grapher. *)
Definition frame (w : World) : Theme * dict string pyval :=
  (Grapher.theme (grapher w), Grapher.properties (grapher w)).

(** [previous_layer] refers to the last layer of the grapher, and is [None]
    only while the grapher holds no layer. *)
Definition refers_to_last (st : KerasNetworkExtractor.locals) (w : World) : Prop :=
  match KerasNetworkExtractor.previous_layer st with
  | None => classes w = []
  | Some i => S i = List.length (classes w)
  end.

(** No [Input] object after the first position. *)
Definition input_only_first (cs : list Layers.layer_class) : Prop :=
  Forall (fun c => c <> Layers.Input) (tl cs).

(* ================================================================== *)
(** ** Properties                                                       *)
(* ================================================================== *)

(** *** Dictionaries and comprehensions *)

Lemma comprehension_Ret_Forall2 {X Y} (f : X -> outcome Y) (xs : list X)
  (ys : list Y) :
  comprehension f xs = Ret ys <-> Forall2 (fun a b => f a = Ret b) xs ys.
Proof.
  revert ys; induction xs as [|a xs IH]; intros ys; simpl.
  - split; intros H.
    + injection H as <-; constructor.
    + inversion H; reflexivity.
  - destruct (f a) as [b|e] eqn:Hf; simpl.
    + destruct (comprehension f xs) as [bs|e] eqn:Hc; simpl.
      * split; intros H.
        -- injection H as <-. constructor; [assumption | now apply IH].
        -- inversion H as [|? b' ? bs' Hb Hr]; subst.
           rewrite Hf in Hb; injection Hb as <-.
           apply IH in Hr. injection Hr as <-. reflexivity.
      * split; intros H; [discriminate|].
        inversion H as [|? b' ? bs' Hb Hr]; subst.
        apply IH in Hr; discriminate.
    + split; intros H; [discriminate|].
      inversion H as [|? b' ? bs' Hb Hr]; subst. rewrite Hf in Hb; discriminate.
Qed.

Lemma comprehension_map {X Y} (f : X -> outcome Y) (g : X -> Y) (xs : list X) :
  (forall a, In a xs -> f a = Ret (g a)) ->
  comprehension f xs = Ret (map g xs).
Proof.
  induction xs as [|a xs IH]; intros H; simpl; [reflexivity|].
  rewrite (H a (or_introl eq_refl)); simpl.
  rewrite IH; [reflexivity|]. intros b Hb; apply H; now right.
Qed.

Lemma comprehension_Raise {X Y} (f : X -> outcome Y) (xs : list X) (a : X) (e : exn) :
  In a xs -> f a = Raise e ->
  exists a' e', In a' xs /\ f a' = Raise e' /\ comprehension f xs = Raise e'.
Proof.
  induction xs as [|b xs IH]; intros Hin Hf; [destruct Hin|].
  simpl. destruct (f b) as [y|e0] eqn:Hb; simpl.
  - destruct Hin as [->|Hin]; [rewrite Hf in Hb; discriminate|].
    destruct (IH Hin Hf) as (a' & e' & Ha' & Hfa' & Hc).
    exists a', e'. rewrite Hc. simpl.
    split; [now right|]. split; [assumption|reflexivity].
  - exists b, e0. split; [now left|]. split; [assumption|reflexivity].
Qed.

Lemma dict_get_In_keys {V} (d : dict string V) (k : string) :
  In k (keys d) -> exists v, dict_get String.eqb d k = Some v.
Proof.
  induction d as [|[k' v'] d IH]; simpl; intros H; [destruct H|].
  destruct (String.eqb_spec k' k) as [->|Hne].
  - now exists v'.
  - destruct H as [H|H]; [contradiction|]. now apply IH.
Qed.

(** *** C9: the property-list widget *)

Section WidgetFacts.
Context {L V : Type} (str_label : L -> string) (str_value : V -> string).

Lemma item_Ret (labels : dict string L) (values : dict string V) (p : string)
  (l : L) (v : V) :
  dict_get String.eqb labels p = Some l ->
  dict_get String.eqb values p = Some v ->
  property_list.item str_label str_value labels values p
  = Ret (property_list.Li (str_label l ++ ": " ++ str_value v)%string).
Proof.
  intros Hl Hv. unfold property_list.item, getitem_str.
  rewrite Hl; simpl. rewrite Hv; reflexivity.
Qed.

Lemma item_KeyError (labels : dict string L) (values : dict string V) (p : string) :
  dict_get String.eqb labels p = None ->
  property_list.item str_label str_value labels values p
  = Raise (Exn KeyError ("'" ++ p ++ "'")%string).
Proof.
  intros Hl. unfold property_list.item, getitem_str. rewrite Hl; reflexivity.
Qed.

Lemma item_raises_KeyError (labels : dict string L) (values : dict string V)
  (p : string) (e : exn) :
  property_list.item str_label str_value labels values p = Raise e ->
  kind e = KeyError.
Proof.
  unfold property_list.item, getitem_str.
  destruct (dict_get String.eqb labels p); simpl;
    [destruct (dict_get String.eqb values p); simpl|];
    intros H; inversion H; reflexivity.
Qed.

End WidgetFacts.

(** C9. [widget(title, labels, values)] is the empty list when [values] is
    empty.  When [values] is not empty and each of its keys is a key of
    [labels], it is the two-element list made of the heading [H6(title)] and
    of a [Ul] holding, for each key of [values] in order, exactly one [Li]
    with the text "label: value".  When a key of [values] is missing from
    [labels], the call raises a [KeyError]. *)
Theorem widget_property_list {L V : Type} (str_label : L -> string)
  (str_value : V -> string) (title : string) (labels : dict string L)
  (values : dict string V) :
  (values = [] ->
   property_list.widget str_label str_value title labels values = Ret [])
  /\ (values <> [] ->
      (forall p, In p (keys values) -> dict_get String.eqb labels p <> None) ->
      exists items,
        property_list.widget str_label str_value title labels values
        = Ret [property_list.H6 title; property_list.Ul items]
        /\ List.length items = List.length (keys values)
        /\ Forall2
             (fun p it =>
                exists l v,
                  dict_get String.eqb labels p = Some l
                  /\ dict_get String.eqb values p = Some v
                  /\ it = property_list.Li (str_label l ++ ": " ++ str_value v)%string)
             (keys values) items)
  /\ (forall p, In p (keys values) -> dict_get String.eqb labels p = None ->
      exists e,
        property_list.widget str_label str_value title labels values = Raise e
        /\ kind e = KeyError).
Proof.
  split; [|split].
  - intros ->; reflexivity.
  - intros Hne Hall.
    unfold property_list.widget.
    destruct values as [|kv values']; [contradiction|].
    cbn [List.length Nat.ltb Nat.leb].
    set (vals := kv :: values') in *.
    set (text := fun p =>
           match dict_get String.eqb labels p, dict_get String.eqb vals p with
           | Some l, Some v => property_list.Li (str_label l ++ ": " ++ str_value v)%string
           | _, _ => property_list.Li ""
           end).
    assert (Hitem : forall p, In p (keys vals) ->
              property_list.item str_label str_value labels vals p = Ret (text p)).
    { intros p Hp. destruct (dict_get_In_keys vals p Hp) as [v Hv].
      destruct (dict_get String.eqb labels p) as [l|] eqn:Hl;
        [|exfalso; now apply (Hall p Hp)].
      rewrite (item_Ret _ _ _ _ _ l v Hl Hv). unfold text. now rewrite Hl, Hv. }
    rewrite (comprehension_map _ text _ Hitem). simpl.
    exists (map text (keys vals)). split; [reflexivity|]. split.
    + now rewrite length_map.
    + assert (Hsub : forall ks, (forall p, In p ks -> In p (keys vals)) ->
                Forall2
                  (fun p it =>
                     exists l v,
                       dict_get String.eqb labels p = Some l
                       /\ dict_get String.eqb vals p = Some v
                       /\ it = property_list.Li (str_label l ++ ": " ++ str_value v)%string)
                  ks (map text ks)).
      { induction ks as [|k ks IH]; intros Hks; simpl; constructor.
        - assert (Hk : In k (keys vals)) by (apply Hks; now left).
          destruct (dict_get_In_keys vals k Hk) as [v Hv].
          destruct (dict_get String.eqb labels k) as [l|] eqn:Hl;
            [|exfalso; now apply (Hall k Hk)].
          exists l, v. unfold text. now rewrite Hl, Hv.
        - apply IH. intros p Hp; apply Hks; now right. }
      apply Hsub; auto.
  - intros p Hp Hmiss.
    unfold property_list.widget.
    destruct values as [|kv values']; [destruct Hp|].
    cbn [List.length Nat.ltb Nat.leb].
    destruct (comprehension_Raise
                (property_list.item str_label str_value labels (kv :: values'))
                (keys (kv :: values')) p _ Hp
                (item_KeyError str_label str_value labels (kv :: values') p Hmiss))
      as (p' & e' & _ & Hp' & Hc).
    exists e'. rewrite Hc. split; [reflexivity|].
    eapply item_raises_KeyError; eassumption.
Qed.

(** The widget of a layer with two properties. *)
Lemma widget_property_list_witness :
  exists items,
    property_list.widget (fun s : string => s) Demo.show "Structure"
      [("units", "Units"); ("activation", "Activation")]
      [("units", PInt 10); ("activation", PStr "relu")]
    = Ret [property_list.H6 "Structure"; property_list.Ul items]
    /\ List.length items = 2%nat.
Proof.
  destruct (widget_property_list (fun s : string => s) Demo.show "Structure"
              [("units", "Units"); ("activation", "Activation")]
              [("units", PInt 10); ("activation", PStr "relu")])
    as (_ & H & _).
  destruct H as (items & Hw & Hlen & _).
  - discriminate.
  - intros p [<-|[<-|[]]]; discriminate.
  - exists items. split; [exact Hw | exact Hlen].
Defined.

(** *** C7: the life cycle of a model sequence *)

(** C7. [reset()] leaves [model_paths] empty and [current_model] set to
    [None]; [load_single(file_path)], which begins by resetting, leaves
    [title] equal to [file_path], [number_epochs] equal to 1 and
    [model_paths] equal to the one-element list [[file_path]].  Neither
    raises. *)
Theorem reset_and_load_single (E : External) (self : KerasModelSequence.t)
  (file_path : string) :
  (snd (KerasModelSequence.reset E self) = Ret tt
   /\ KerasModelSequence.model_paths (fst (KerasModelSequence.reset E self)) = []
   /\ KerasModelSequence.current_model (fst (KerasModelSequence.reset E self)) = None)
  /\ (snd (KerasModelSequence.load_single E file_path self) = Ret tt
      /\ title (KerasModelSequence.base
                  (fst (KerasModelSequence.load_single E file_path self)))
         = Some file_path
      /\ number_epochs (KerasModelSequence.base
                          (fst (KerasModelSequence.load_single E file_path self)))
         = 1%Z
      /\ KerasModelSequence.model_paths
           (fst (KerasModelSequence.load_single E file_path self))
         = [file_path]
      /\ KerasModelSequence.current_model
           (fst (KerasModelSequence.load_single E file_path self))
         = None).
Proof.
  repeat split.
Qed.

(** *** C4: failures of model access become [ModelError] *)

Lemma format_test_data_outcome (E : External) (self : KerasModelSequence.t) :
  match KerasModelSequence.format_test_data_body E self with
  | (self', Ret _) => KerasModelSequence.format_test_data E self = (self', Ret tt)
  | (self', Raise e) =>
      KerasModelSequence.format_test_data E self
      = (self', Raise (Exn ModelError
                         ("Error while formatting test data: " ++ message e)%string))
  end.
Proof.
  unfold KerasModelSequence.format_test_data, try_except.
  destruct (KerasModelSequence.format_test_data_body E self) as [self' [[]|e]];
    reflexivity.
Qed.

(** C4. [get_input_geometry] raises [ModelError] when [number_epochs] is 0;
    otherwise, the first model of the sequence being there and loaded, it
    returns the input dtype and shape of that model.  [format_test_data]
    raises a [ModelError] carrying the text of whatever exception its body
    raised, and raises nothing else.  [_load_keras_model] raises [ModelError]
    when the model path does not exist. *)
Theorem model_access_errors (E : External) (self : KerasModelSequence.t) :
  (number_epochs (KerasModelSequence.base self) = 0%Z ->
   KerasModelSequence.get_input_geometry E self
   = Raise (Exn ModelError "No model available"))
  /\ (forall p model,
        number_epochs (KerasModelSequence.base self) <> 0%Z ->
        getitem "list" (KerasModelSequence.model_paths self) 0 = Ret p ->
        path_exists E p = true ->
        keras_load_model E (path_str E p) = Ret model ->
        KerasModelSequence.get_input_geometry E self
        = Ret (input_dtype model, input_shape_list model))
  /\ (forall self' e,
        KerasModelSequence.format_test_data_body E self = (self', Raise e) ->
        KerasModelSequence.format_test_data E self
        = (self', Raise (Exn ModelError
                           ("Error while formatting test data: " ++ message e)%string)))
  /\ (forall e,
        snd (KerasModelSequence.format_test_data E self) = Raise e ->
        kind e = ModelError)
  /\ (forall model_index p,
        getitem "list" (KerasModelSequence.model_paths self) model_index = Ret p ->
        path_exists E p = false ->
        KerasModelSequence._load_keras_model E self model_index
        = Raise (Exn ModelError
                   ("Model path not found '" ++ path_str E p ++ "'")%string)).
Proof.
  split; [|split; [|split; [|split]]].
  - intros H0. unfold KerasModelSequence.get_input_geometry.
    rewrite H0; reflexivity.
  - intros p model Hne Hp Hex Hload.
    unfold KerasModelSequence.get_input_geometry.
    destruct (Z.eqb_spec (number_epochs (KerasModelSequence.base self)) 0);
      [contradiction|].
    unfold KerasModelSequence._load_keras_model.
    rewrite Hp; simpl. rewrite Hex, Hload. reflexivity.
  - intros self' e Hb.
    pose proof (format_test_data_outcome E self) as H. now rewrite Hb in H.
  - intros e He.
    pose proof (format_test_data_outcome E self) as H.
    destruct (KerasModelSequence.format_test_data_body E self) as [self' [[]|e']];
      rewrite H in He; simpl in He; [discriminate|].
    injection He as <-. reflexivity.
  - intros model_index p Hp Hex.
    unfold KerasModelSequence._load_keras_model.
    rewrite Hp; simpl. now rewrite Hex.
Qed.

(** A sequence of one saved model, and a sequence whose only file is gone. *)
Lemma model_access_errors_witness :
  KerasModelSequence.get_input_geometry
    (Demo.env ["m.h5"] [("m.h5", Demo.two_dense true)] Demo.no_tape)
    (Demo.sequence_of [])
  = Raise (Exn ModelError "No model available")
  /\ KerasModelSequence.get_input_geometry
       (Demo.env ["m.h5"] [("m.h5", Demo.two_dense true)] Demo.no_tape)
       (Demo.sequence_of ["m.h5"])
     = Ret ("float32", [None; Some 2%Z])
  /\ KerasModelSequence._load_keras_model
       (Demo.env [] [] Demo.no_tape) (Demo.sequence_of ["gone.h5"]) 0
     = Raise (Exn ModelError "Model path not found 'gone.h5'")
  /\ KerasModelSequence.format_test_data
       (Demo.env [] [] Demo.no_tape) (Demo.sequence_of ["gone.h5"])
     = (Demo.sequence_of ["gone.h5"],
        Raise (Exn ModelError
                 "Error while formatting test data: Model path not found 'gone.h5'")).
Proof.
  split; [|split; [|split]].
  - apply (model_access_errors
             (Demo.env ["m.h5"] [("m.h5", Demo.two_dense true)] Demo.no_tape)
             (Demo.sequence_of [])).
    reflexivity.
  - apply (proj1 (proj2 (model_access_errors
             (Demo.env ["m.h5"] [("m.h5", Demo.two_dense true)] Demo.no_tape)
             (Demo.sequence_of ["m.h5"]))) "m.h5" (Demo.two_dense true));
      [discriminate | reflexivity | reflexivity | reflexivity].
  - apply (proj2 (proj2 (proj2 (proj2 (model_access_errors
             (Demo.env [] [] Demo.no_tape) (Demo.sequence_of ["gone.h5"])))))
             0%Z "gone.h5"); reflexivity.
  - apply (proj1 (proj2 (proj2 (model_access_errors
             (Demo.env [] [] Demo.no_tape) (Demo.sequence_of ["gone.h5"]))))
             (Demo.sequence_of ["gone.h5"])
             (Exn ModelError "Model path not found 'gone.h5'")).
    reflexivity.
Defined.

(** *** C8: a model without layers leaves the grapher alone *)

(** C8. For a Sequential model with no layer, [process()] logs the error
    "Empty model" and returns; the grapher, with the layer list built from
    the model loaded before, is what it was. *)
Theorem process_empty_model (E : External) (model : Model)
  (test_data : TestData) (w : World) :
  is_sequential model = true ->
  layers model = [] ->
  KerasNetworkExtractor.process E model test_data w
  = ({| grapher := grapher w; log := log w ++ [Log ERROR "Empty model"] |}, Ret tt).
Proof.
  intros Hseq Hl. unfold KerasNetworkExtractor.process.
  rewrite Hseq, Hl. reflexivity.
Qed.

Lemma process_empty_model_witness :
  KerasNetworkExtractor.process (Demo.env [] [] Demo.tagging_tape)
    Demo.empty_model Demo.test_sample (Demo.start Demo.used_grapher)
  = ({| grapher := Demo.used_grapher; log := [Log ERROR "Empty model"] |}, Ret tt).
Proof.
  apply (process_empty_model (Demo.env [] [] Demo.tagging_tape)
           Demo.empty_model Demo.test_sample (Demo.start Demo.used_grapher));
    reflexivity.
Defined.

(** *** C6: [list_models] and the exception raised inside its handler *)

(** Whatever the directories hold, an exception met while listing them is
    replaced by the [TypeError] of [traceback.format_exc(e)]: the warning is
    logged, the debug trace is not, and nothing is returned. *)
Lemma list_models_handler_raises (E : External) (directories : list string)
  (pattern : string) (logged : list log_record) (s : KerasModelSequence.listing)
  (e : exn) :
  for_each directories
    (KerasModelSequence.list_directory E pattern
       (replace (replace pattern "{model}" "*") "{epoch}" "[0-9]*")
       (replace (replace pattern "{model}" "(\w+)") "{epoch}" "([0-9]+)"))
    tt ([], logged) = (s, Raise e) ->
  KerasModelSequence.list_models E directories pattern logged
  = (snd s ++ [Log WARNING "Failed to list directories"],
     Raise (Exn TypeError
              ("'>=' not supported between instances of '"
                 ++ class_name_of (kind e) ++ "' and 'int'")%string)).
Proof.
  intros H. unfold KerasModelSequence.list_models, bind, try_except.
  rewrite H. destruct s as [models lg]. reflexivity.
Qed.

(** C6, at a failing input.  The directory [models] holds one file, [_1]:
    the glob of the sequence pattern matches it, the regular expression does
    not, and [search(...).group(1)] raises [AttributeError] inside the [try].
    The handler logs the warning, then [traceback.format_exc(e)] raises
    [TypeError]: [list_models] returns no list and the caller receives an
    exception. *)
Theorem list_models_propagates_exception :
  KerasModelSequence.list_models (Demo.env ["models/_1"] [] Demo.no_tape)
    ["models"] KerasModelSequence.default_pattern []
  = ([Log WARNING "Failed to list directories"],
     Raise (Exn TypeError
              "'>=' not supported between instances of 'AttributeError' and 'int'")).
Proof.
  vm_compute. reflexivity.
Qed.

(** *** C1: a pooling layer met first stops the walk *)

(** C1, at a failing input.  For the Sequential model
    [MaxPooling2D, Flatten, Dense], the first layer has no weights, so no
    input placeholder is added and [previous_layer] is [None] when the pooling
    branch assigns [previous_layer.output_props]: [process()] raises
    [AttributeError] after the reset of the grapher, and the ['Dense'] layer
    of the model never gets its UI layer. *)
Theorem process_pooling_first_raises :
  KerasNetworkExtractor.process (Demo.env [] [] Demo.no_tape)
    Demo.pooling_first Demo.no_test_data (Demo.start Demo.empty_grapher)
  = (Demo.start Demo.empty_grapher,
     Raise (Exn AttributeError "'NoneType' object has no attribute 'output_props'")).
Proof.
  vm_compute. reflexivity.
Qed.

(** *** C2: the grapher after a model switch *)

(** For a Sequential model with at least one layer, [process()] does not
    depend on the layer list the grapher held. *)
Lemma process_forgets_layers (E : External) (model : Model) (test_data : TestData)
  (w : World) (old : list Layers.AbstractLayer) :
  is_sequential model = true ->
  layers model <> [] ->
  KerasNetworkExtractor.process E model test_data
    (with_grapher (Grapher.with_layers old) w)
  = KerasNetworkExtractor.process E model test_data
      (with_grapher Grapher.reset w).
Proof.
  intros Hseq Hne. unfold KerasNetworkExtractor.process.
  rewrite Hseq. destruct (layers model) as [|kl ls]; [contradiction|].
  reflexivity.
Qed.

(** C2, as written, fails on a checkpoint without layers: [_load_model]
    returns normally and records the model as the current one, but the layer
    built from the model displayed before is still in the grapher. *)
Lemma load_model_keeps_previous_layers :
  snd (KerasModelSequence._load_model
         (Demo.env ["empty.h5"] [("empty.h5", Demo.empty_model)] Demo.no_tape) 0
         (Demo.sequence_of ["empty.h5"], Demo.start Demo.used_grapher))
  = Ret 0%Z
  /\ KerasModelSequence.current_model
       (fst (fst (KerasModelSequence._load_model
                    (Demo.env ["empty.h5"] [("empty.h5", Demo.empty_model)] Demo.no_tape) 0
                    (Demo.sequence_of ["empty.h5"], Demo.start Demo.used_grapher))))
     = Some Demo.empty_model
  /\ Grapher.layers
       (grapher (snd (fst (KerasModelSequence._load_model
                             (Demo.env ["empty.h5"] [("empty.h5", Demo.empty_model)] Demo.no_tape) 0
                             (Demo.sequence_of ["empty.h5"], Demo.start Demo.used_grapher)))))
     = [Demo.old_layer].
Proof.
  vm_compute. repeat split.
Qed.

(** *** C3: the checkpoints of a sequence, by epoch *)

Lemma dict_get_app {V} (l1 l2 : dict Z V) (k : Z) :
  dict_get Z.eqb (l1 ++ l2) k
  = match dict_get Z.eqb l1 k with
    | Some v => Some v
    | None => dict_get Z.eqb l2 k
    end.
Proof.
  induction l1 as [|[k1 v1] l1 IH]; simpl; [reflexivity|].
  destruct (k1 =? k)%Z; [reflexivity | exact IH].
Qed.

Lemma dict_get_set {V} (d : dict Z V) (k k' : Z) (v : V) :
  dict_get Z.eqb (dict_set Z.eqb d k v) k'
  = if (k =? k')%Z then Some v else dict_get Z.eqb d k'.
Proof.
  induction d as [|[k0 v0] d IH]; simpl; [reflexivity|].
  destruct (Z.eqb_spec k0 k) as [->|Hne]; simpl.
  - destruct (Z.eqb_spec k k'); reflexivity.
  - rewrite IH. destruct (Z.eqb_spec k0 k') as [->|Hne']; [|reflexivity].
    destruct (Z.eqb_spec k k'); [congruence | reflexivity].
Qed.

Lemma keys_dict_set {V} (d : dict Z V) (k : Z) (v : V) (a : Z) :
  In a (keys (dict_set Z.eqb d k v)) <-> a = k \/ In a (keys d).
Proof.
  induction d as [|[k0 v0] d IH]; simpl.
  - intuition.
  - destruct (Z.eqb_spec k0 k) as [->|Hne]; simpl.
    + intuition.
    + rewrite IH. intuition.
Qed.

Lemma NoDup_keys_dict_set {V} (d : dict Z V) (k : Z) (v : V) :
  NoDup (keys d) -> NoDup (keys (dict_set Z.eqb d k v)).
Proof.
  induction d as [|[k0 v0] d IH]; simpl; intros H.
  - constructor; [intros [] | constructor].
  - inversion H as [|? ? Hnin Hnd]; subst.
    destruct (Z.eqb_spec k0 k) as [->|Hne]; simpl.
    + constructor; assumption.
    + constructor; [|now apply IH].
      rewrite keys_dict_set. intros [->|Hin]; [now apply Hne | now apply Hnin].
Qed.

Lemma dict_get_update {V} (kvs : list (Z * V)) (d : dict Z V) (k : Z) :
  dict_get Z.eqb (dict_update Z.eqb d kvs) k
  = match dict_get Z.eqb (rev kvs) k with
    | Some v => Some v
    | None => dict_get Z.eqb d k
    end.
Proof.
  revert d; induction kvs as [|[k1 v1] kvs IH]; intros d; [reflexivity|].
  change (dict_update Z.eqb d ((k1, v1) :: kvs))
    with (dict_update Z.eqb (dict_set Z.eqb d k1 v1) kvs).
  rewrite IH. simpl rev. rewrite dict_get_app, dict_get_set. simpl.
  destruct (dict_get Z.eqb (rev kvs) k); [reflexivity|].
  destruct (k1 =? k)%Z; reflexivity.
Qed.

Lemma keys_dict_update {V} (kvs : list (Z * V)) (d : dict Z V) (a : Z) :
  In a (keys (dict_update Z.eqb d kvs)) <-> In a (keys d) \/ In a (map fst kvs).
Proof.
  revert d; induction kvs as [|[k1 v1] kvs IH]; intros d.
  - simpl. intuition.
  - change (dict_update Z.eqb d ((k1, v1) :: kvs))
      with (dict_update Z.eqb (dict_set Z.eqb d k1 v1) kvs).
    rewrite IH, keys_dict_set. simpl. intuition.
Qed.

Lemma NoDup_keys_dict_update {V} (kvs : list (Z * V)) (d : dict Z V) :
  NoDup (keys d) -> NoDup (keys (dict_update Z.eqb d kvs)).
Proof.
  revert d; induction kvs as [|[k1 v1] kvs IH]; intros d H; [exact H|].
  change (dict_update Z.eqb d ((k1, v1) :: kvs))
    with (dict_update Z.eqb (dict_set Z.eqb d k1 v1) kvs).
  apply IH. now apply NoDup_keys_dict_set.
Qed.

Lemma dict_get_In_fst {V} (l : list (Z * V)) (k : Z) :
  In k (map fst l) -> exists v, dict_get Z.eqb l k = Some v.
Proof.
  induction l as [|[k0 v0] l IH]; simpl; intros H; [destruct H|].
  destruct (Z.eqb_spec k0 k) as [->|Hne]; [now exists v0|].
  destruct H as [H|H]; [contradiction | now apply IH].
Qed.

Lemma dict_get_NoDup_In {V} (l : list (Z * V)) (k : Z) (v : V) :
  NoDup (map fst l) -> In (k, v) l -> dict_get Z.eqb l k = Some v.
Proof.
  induction l as [|[k0 v0] l IH]; simpl; intros Hnd Hin; [destruct Hin|].
  inversion Hnd as [|? ? Hnin Hnd']; subst.
  destruct Hin as [Heq|Hin].
  - injection Heq as -> ->. now rewrite Z.eqb_refl.
  - destruct (Z.eqb_spec k0 k) as [->|Hne]; [|now apply IH].
    exfalso. apply Hnin. change k with (fst (k, v)). now apply in_map.
Qed.

(** Insertion sort on integers: a sorted permutation. *)
Lemma insert_sorted_perm (a : Z) (l : list Z) :
  Permutation (insert_sorted Z.leb a l) (a :: l).
Proof.
  induction l as [|b l IH]; simpl; [reflexivity|].
  destruct (a <=? b)%Z; [reflexivity|].
  rewrite IH. apply perm_swap.
Qed.

Lemma sort_perm (l : list Z) : Permutation (sort Z.leb l) l.
Proof.
  induction l as [|a l IH]; simpl; [reflexivity|].
  rewrite insert_sorted_perm. now constructor.
Qed.

Lemma insert_sorted_sorted (a : Z) (l : list Z) :
  StronglySorted Z.le l -> StronglySorted Z.le (insert_sorted Z.leb a l).
Proof.
  induction l as [|b l IH]; simpl; intros H.
  - constructor; constructor.
  - inversion H as [|? ? Hs Hf]; subst.
    destruct (Z.leb_spec a b) as [Hle|Hgt].
    + constructor; [assumption|].
      constructor; [assumption|].
      eapply Forall_impl; [|exact Hf]. intros c Hc; simpl in Hc. lia.
    + constructor; [now apply IH|].
      eapply Permutation_Forall; [symmetry; apply insert_sorted_perm|].
      constructor; [lia | assumption].
Qed.

Lemma sort_sorted (l : list Z) : StronglySorted Z.le (sort Z.leb l).
Proof.
  induction l as [|a l IH]; simpl; [constructor|].
  now apply insert_sorted_sorted.
Qed.

Lemma sorted_NoDup_strict (l : list Z) :
  StronglySorted Z.le l -> NoDup l -> StronglySorted Z.lt l.
Proof.
  induction l as [|a l IH]; intros Hs Hnd; [constructor|].
  inversion Hs as [|? ? Hs' Hf]; subst.
  inversion Hnd as [|? ? Hnin Hnd']; subst.
  constructor; [now apply IH|].
  rewrite Forall_forall in *. intros b Hb.
  specialize (Hf b Hb). assert (a <> b) by (intros ->; contradiction). lia.
Qed.

Lemma checkpoint_entry_path (E : External) (pattern path : string)
  (entry : Z * string) :
  KerasModelSequence.checkpoint_entry E pattern path = Ret entry ->
  snd entry = path.
Proof.
  unfold KerasModelSequence.checkpoint_entry.
  destruct (KerasModelSequence.search_group E pattern path 1) as [g|e]; simpl;
    [|discriminate].
  destruct (int g) as [z|e]; simpl; [|discriminate].
  intros H; injection H as <-. reflexivity.
Qed.

(** C3, as written, fails when two matched checkpoints bear the same epoch
    number: with the files [model_01.h5] and [model_1.h5], both matched by
    the glob of the pattern and both of epoch 1, [number_epochs] is 1 while
    two checkpoints were matched. *)
Lemma load_sequence_counts_epochs_not_files :
  List.length
    (glob_glob (Demo.env ["model_01.h5"; "model_1.h5"] [] Demo.no_tape)
       (replace "model_{epoch}.h5" "{epoch}" "[0-9]*")) = 2%nat
  /\ snd (KerasModelSequence.load_sequence
            (Demo.env ["model_01.h5"; "model_1.h5"] [] Demo.no_tape)
            "model_{epoch}.h5" (Demo.sequence_of [])) = Ret tt
  /\ number_epochs
       (KerasModelSequence.base
          (fst (KerasModelSequence.load_sequence
                  (Demo.env ["model_01.h5"; "model_1.h5"] [] Demo.no_tape)
                  "model_{epoch}.h5" (Demo.sequence_of []))))
     <> Z.of_nat
          (List.length
             (glob_glob (Demo.env ["model_01.h5"; "model_1.h5"] [] Demo.no_tape)
                (replace "model_{epoch}.h5" "{epoch}" "[0-9]*"))).
Proof.
  vm_compute. repeat split. discriminate.
Qed.

(** C3, amended.  [load_sequence(dir_path)] takes the files returned by the
    glob of [dir_path] with the tag replaced by [[0-9]*]; when the pattern
    with the tag replaced by the group compiles and the regular expression
    yields an integer epoch for each of these files ([entries]: the epoch
    and the path of each file, in the order of the glob), it returns with
    [title] set to [dir_path] and [model_paths] holding one path per distinct
    epoch, in strictly ascending order of epoch, the path kept for an epoch
    being the last matched file bearing it; [number_epochs] is the number of
    distinct epochs.  It is the number of matched checkpoints, and
    [model_paths] holds them all, when no two of them share an epoch. *)
Theorem load_sequence_by_epoch (E : External) (dir_path : string)
  (self : KerasModelSequence.t) (entries : list (Z * string)) :
  re_compile E (replace dir_path "{epoch}" "([0-9]*)") = Ret tt ->
  Forall2
    (fun path entry =>
       KerasModelSequence.checkpoint_entry E
         (replace dir_path "{epoch}" "([0-9]*)") path = Ret entry)
    (glob_glob E (replace dir_path "{epoch}" "[0-9]*")) entries ->
  exists epochs,
    snd (KerasModelSequence.load_sequence E dir_path self) = Ret tt
    /\ title (KerasModelSequence.base
                (fst (KerasModelSequence.load_sequence E dir_path self)))
       = Some dir_path
    /\ StronglySorted Z.lt epochs
    /\ (forall e, In e epochs <-> In e (map fst entries))
    /\ Forall2 (fun e path => last_checkpoint entries e = Some path) epochs
         (KerasModelSequence.model_paths
            (fst (KerasModelSequence.load_sequence E dir_path self)))
    /\ number_epochs (KerasModelSequence.base
                        (fst (KerasModelSequence.load_sequence E dir_path self)))
       = Z.of_nat (List.length epochs)
    /\ (NoDup (map fst entries) ->
        number_epochs (KerasModelSequence.base
                         (fst (KerasModelSequence.load_sequence E dir_path self)))
        = Z.of_nat (List.length (glob_glob E (replace dir_path "{epoch}" "[0-9]*")))
        /\ Permutation
             (KerasModelSequence.model_paths
                (fst (KerasModelSequence.load_sequence E dir_path self)))
             (glob_glob E (replace dir_path "{epoch}" "[0-9]*"))).
Proof.
  intros Hcompile Hentries.
  set (pattern := replace dir_path "{epoch}" "([0-9]*)") in *.
  set (paths := glob_glob E (replace dir_path "{epoch}" "[0-9]*")) in *.
  set (checkpoints := dict_of_pairs Z.eqb entries).
  set (epochs := sort Z.leb (keys checkpoints)).
  set (kept := fun e => match last_checkpoint entries e with
                        | Some path => path
                        | None => ""
                        end).
  assert (Hcomp : comprehension (KerasModelSequence.checkpoint_entry E pattern) paths
                  = Ret entries) by now apply comprehension_Ret_Forall2.
  assert (Hkeys : forall e, In e (keys checkpoints) <-> In e (map fst entries)).
  { intros e. unfold checkpoints, dict_of_pairs.
    rewrite keys_dict_update. simpl. intuition. }
  assert (Hnd : NoDup (keys checkpoints)).
  { unfold checkpoints, dict_of_pairs. apply NoDup_keys_dict_update. constructor. }
  assert (Hin : forall e, In e epochs <-> In e (map fst entries)).
  { intros e. rewrite <- Hkeys. unfold epochs. split; intros H.
    - eapply Permutation_in; [apply sort_perm | exact H].
    - eapply Permutation_in; [symmetry; apply sort_perm | exact H]. }
  assert (Hlast : forall e, In e epochs -> last_checkpoint entries e = Some (kept e)).
  { intros e He. apply Hin in He. unfold kept, last_checkpoint.
    destruct (dict_get_In_fst (rev entries) e) as [v Hv].
    - rewrite map_rev. now apply -> in_rev.
    - now rewrite Hv. }
  assert (Hget : forall e, In e epochs ->
            KerasModelSequence.checkpoint_path checkpoints e = Ret (kept e)).
  { intros e He. unfold KerasModelSequence.checkpoint_path, checkpoints, dict_of_pairs.
    rewrite dict_get_update. fold (last_checkpoint entries e).
    now rewrite (Hlast e He). }
  assert (Hpaths : comprehension (KerasModelSequence.checkpoint_path checkpoints) epochs
                   = Ret (map kept epochs)) by now apply comprehension_map.
  assert (Hrun : KerasModelSequence.load_sequence E dir_path self
                 = (KerasModelSequence.with_base
                      (KerasModelSequence.set_number_epochs
                         (Z.of_nat (List.length (map kept epochs))))
                      (KerasModelSequence.with_model_paths (map kept epochs)
                         (KerasModelSequence.with_base
                            (KerasModelSequence.set_title dir_path)
                            (fst (KerasModelSequence.reset E self)))),
                    Ret tt)).
  { unfold KerasModelSequence.load_sequence, bind, lift, modify.
    cbn [KerasModelSequence.reset modify fst snd].
    fold pattern. fold paths. rewrite Hcompile, Hcomp.
    fold checkpoints. fold epochs. rewrite Hpaths. reflexivity. }
  exists epochs. rewrite Hrun. cbn [fst snd].
  split; [reflexivity|]. split; [reflexivity|].
  split; [apply sorted_NoDup_strict;
          [apply sort_sorted
          | eapply Permutation_NoDup; [symmetry; apply sort_perm | exact Hnd]]|].
  split; [exact Hin|].
  split.
  { cbn. clear Hpaths Hget Hrun.
    assert (H : forall es, (forall e, In e es -> In e epochs) ->
              Forall2 (fun e path => last_checkpoint entries e = Some path)
                      es (map kept es)).
    { induction es as [|e es IH]; intros Hes; simpl; constructor.
      - apply Hlast, Hes. now left.
      - apply IH. intros e' He'. apply Hes. now right. }
    apply H. auto. }
  split.
  { cbn. now rewrite length_map. }
  intros Hdistinct.
  assert (Hperm : Permutation epochs (map fst entries)).
  { apply NoDup_Permutation; [|exact Hdistinct | exact Hin].
    eapply Permutation_NoDup; [symmetry; apply sort_perm | exact Hnd]. }
  assert (Hsnd : map snd entries = paths).
  { clear - Hentries. induction Hentries as [|path entry ps es Hpe _ IH]; simpl;
      [reflexivity|].
    rewrite IH. f_equal. eapply checkpoint_entry_path; eassumption. }
  assert (Hkept : map kept (map fst entries) = map snd entries).
  { rewrite map_map. apply map_ext_in. intros [e path] Hep. simpl.
    unfold kept, last_checkpoint.
    rewrite (dict_get_NoDup_In (rev entries) e path); [reflexivity | |].
    - rewrite map_rev. eapply Permutation_NoDup; [apply Permutation_rev | exact Hdistinct].
    - now apply -> in_rev. }
  cbn. split.
  - rewrite length_map. rewrite (Permutation_length Hperm), length_map.
    rewrite <- Hsnd. now rewrite length_map.
  - rewrite <- Hsnd, <- Hkept. now apply Permutation_map.
Qed.

(** Three checkpoints of distinct epochs, listed by the glob out of order. *)
Lemma load_sequence_by_epoch_witness :
  exists epochs,
    snd (KerasModelSequence.load_sequence
           (Demo.env ["model_10.h5"; "model_2.h5"; "model_1.h5"] [] Demo.no_tape)
           "model_{epoch}.h5" (Demo.sequence_of [])) = Ret tt
    /\ StronglySorted Z.lt epochs
    /\ Forall2
         (fun e path =>
            last_checkpoint
              [(10%Z, "model_10.h5"); (2%Z, "model_2.h5"); (1%Z, "model_1.h5")] e
            = Some path)
         epochs ["model_1.h5"; "model_2.h5"; "model_10.h5"].
Proof.
  destruct (load_sequence_by_epoch
              (Demo.env ["model_10.h5"; "model_2.h5"; "model_1.h5"] [] Demo.no_tape)
              "model_{epoch}.h5" (Demo.sequence_of [])
              [(10%Z, "model_10.h5"); (2%Z, "model_2.h5"); (1%Z, "model_1.h5")])
    as (epochs & Hret & _ & Hsorted & _ & Hpaths & _).
  - reflexivity.
  - repeat constructor.
  - exists epochs. split; [exact Hret|]. split; [exact Hsorted|]. exact Hpaths.
Defined.

(** *** C10: the gradient cursor *)

Lemma bind_ret_inv {S A B} (c : M S A) (F : A -> B) (w w' : S) (b : B) :
  bind c (fun a => ret (F a)) w = (w', Ret b) -> exists a, b = F a.
Proof.
  unfold bind, ret. destruct (c w) as [w1 [a|e]]; intros H; [|discriminate].
  injection H as _ <-. now exists a.
Qed.

(** After a turn of the loop that does not raise, the cursor has moved by the
    number of trainable weights of the layer. *)
Lemma loop_body_idx_grads (E : External) (grads : option (list (option ndarray)))
  (theme : Theme) (test_data : TestData) (keras_layer : KerasLayer)
  (st st' : KerasNetworkExtractor.locals) (w w' : World) :
  KerasNetworkExtractor.loop_body E grads theme test_data keras_layer st w
  = (w', Ret st') ->
  KerasNetworkExtractor.idx_grads st'
  = (KerasNetworkExtractor.idx_grads st
     + Z.of_nat (List.length (trainable_weights keras_layer)))%Z.
Proof.
  unfold KerasNetworkExtractor.loop_body. cbv zeta.
  repeat match goal with
         | |- context [if ?b then _ else _] => destruct b
         end;
    intros H;
    first [ apply bind_ret_inv in H; destruct H as [a ->]; reflexivity
          | injection H as _ <-; reflexivity ].
Qed.

Lemma walk_idx_grads (E : External) (grads : option (list (option ndarray)))
  (theme : Theme) (test_data : TestData) (pre : list KerasLayer) :
  forall (st st' : KerasNetworkExtractor.locals) (w w' : World),
    for_each pre (KerasNetworkExtractor.loop_body E grads theme test_data) st w
    = (w', Ret st') ->
    KerasNetworkExtractor.idx_grads st'
    = (KerasNetworkExtractor.idx_grads st + count_trainable pre)%Z.
Proof.
  unfold count_trainable.
  induction pre as [|kl pre IH]; intros st st' w w' H.
  - injection H as _ <-. simpl. lia.
  - cbn [for_each] in H. unfold bind in H.
    destruct (KerasNetworkExtractor.loop_body E grads theme test_data kl st w)
      as [w1 [st1|e]] eqn:Hbody; [|discriminate].
    apply IH in H. apply loop_body_idx_grads in Hbody.
    rewrite H, Hbody. cbn [map List.concat]. rewrite length_app. lia.
Qed.

Lemma getitem_middle {A} (what : string) (l1 l2 : list A) (a : A) :
  getitem what (l1 ++ a :: l2) (Z.of_nat (List.length l1)) = Ret a.
Proof.
  unfold getitem.
  destruct (Z.ltb_spec (Z.of_nat (List.length l1)) 0) as [Hneg|_]; [lia|].
  rewrite length_app. cbn [List.length].
  destruct (Z.leb_spec 0 (Z.of_nat (List.length l1))) as [_|Hneg]; [|lia].
  destruct (Z.ltb_spec (Z.of_nat (List.length l1))
              (Z.of_nat (List.length l1 + S (List.length l2)))) as [_|Hge]; [|lia].
  cbn [andb]. rewrite Nat2Z.id.
  rewrite nth_error_app2 by lia. now rewrite Nat.sub_diag.
Qed.

(** The last sentence on the gradient cursor does not hold for a model with
    a layer whose weights are frozen.
    In [Sequential([Dense(2), Dense(1)])] with the first layer not trainable,
    the gradient list holds the gradients of the second layer only; the walk
    reaches the first ['Dense'] layer with the cursor at 0 and hands it
    [grads[0]], the gradient of the kernel of the second layer, while the
    first layer has no trainable weight. *)
Lemma frozen_layer_gets_foreign_gradient :
  ~ passes_own_gradient (Demo.env [] [] Demo.tagging_tape) (Demo.two_dense false).
Proof.
  intros H.
  destruct (H Demo.test_sample "default" Demo.tagged_gradient None []
              (Demo.dense_layer "dense" 2 2 [1; 2; 3; 4]%Q [0; 0]%Q false)
              [Demo.dense_layer "dense_1" 2 1 [5; 6]%Q [0]%Q true]
              (Demo.start Demo.empty_grapher) (Demo.start Demo.empty_grapher)
              (KerasNetworkExtractor.initial_locals None)
              (NdArray [2; 1]%Z [16]%Q)
              eq_refl eq_refl eq_refl eq_refl) as (v & Hhd & _).
  discriminate Hhd.
Qed.

(** The cursor itself.  Before each Keras layer is handled, [idx_grads] is the
    number of trainable weights of the layers visited before it, and a turn
    of the loop that returns moves it by [len(keras_layer.trainable_weights)].
    So, when the gradients are those of the tape, for a layer that has at
    least one trainable weight whose gradient is defined, the expression
    [grads[idx_grads].numpy()] is the gradient of the first trainable weight
    of that very layer, and it is the array given to the new [Dense] or
    [Convo2D] object. *)
Theorem gradient_cursor_aligned (E : External) (model : Model)
  (test_data : TestData) (theme : Theme)
  (grads : option (list (option ndarray))) (previous : option nat)
  (pre post : list KerasLayer) (keras_layer : KerasLayer)
  (w w' : World) (st : KerasNetworkExtractor.locals) :
  layers model = pre ++ keras_layer :: post ->
  for_each pre (KerasNetworkExtractor.loop_body E grads theme test_data)
    (KerasNetworkExtractor.initial_locals previous) w = (w', Ret st) ->
  KerasNetworkExtractor.idx_grads st = count_trainable pre
  /\ (forall w'' st',
        KerasNetworkExtractor.loop_body E grads theme test_data keras_layer st w'
        = (w'', Ret st') ->
        KerasNetworkExtractor.idx_grads st'
        = count_trainable (pre ++ [keras_layer]))
  /\ (forall gradient v vs t,
        grads = Some (map gradient (trainable_variables model)) ->
        trainable_weights keras_layer = v :: vs ->
        gradient v = Some t ->
        KerasNetworkExtractor.grads_arg grads (KerasNetworkExtractor.idx_grads st)
        = Ret (Some t)
        /\ forall c n k,
             getitem "tuple" (output_shape keras_layer) (-1) = Ret n ->
             getitem "list" (weights keras_layer) 0 = Ret k ->
             KerasNetworkExtractor.new_layer c keras_layer grads
               (KerasNetworkExtractor.idx_grads st) theme
             = Ret (Layers.new_weighted c (name keras_layer) (dim_value n)
                      (numpy k) (Some t) theme)).
Proof.
  intros Hlayers Hwalk.
  assert (Hidx : KerasNetworkExtractor.idx_grads st = count_trainable pre).
  { apply walk_idx_grads in Hwalk. rewrite Hwalk. simpl. lia. }
  split; [exact Hidx|]. split.
  - intros w'' st' Hbody. apply loop_body_idx_grads in Hbody.
    rewrite Hbody, Hidx. unfold count_trainable.
    rewrite map_app, concat_app, length_app. cbn [map List.concat].
    rewrite app_nil_r. lia.
  - intros gradient v vs t -> Htw Hg.
    assert (Harg : KerasNetworkExtractor.grads_arg
                     (Some (map gradient (trainable_variables model)))
                     (KerasNetworkExtractor.idx_grads st) = Ret (Some t)).
    { unfold trainable_variables. rewrite Hlayers, map_app, concat_app.
      cbn [map List.concat]. rewrite Htw, map_app. cbn [app map].
      rewrite Hidx. unfold count_trainable.
      rewrite <- (length_map gradient
                    (List.concat (map trainable_weights pre))).
      unfold KerasNetworkExtractor.grads_arg.
      destruct (map gradient (List.concat (map trainable_weights pre))
                  ++ gradient v
                       :: map gradient (vs ++ List.concat (map trainable_weights post)))
        as [|g0 gs] eqn:Hlist.
      { exfalso. symmetry in Hlist. now apply app_cons_not_nil in Hlist. }
      rewrite <- Hlist, getitem_middle. simpl. now rewrite Hg. }
    split; [exact Harg|].
    intros c n k Hn Hk. unfold KerasNetworkExtractor.new_layer.
    rewrite Hn. cbn [obind]. rewrite Hk. cbn [obind]. rewrite Harg. reflexivity.
Qed.

(** The second layer of a trainable two-layer model receives the gradient of
    its own kernel. *)
Lemma gradient_cursor_aligned_witness :
  KerasNetworkExtractor.grads_arg
    (Some (map Demo.tagged_gradient (trainable_variables (Demo.two_dense true)))) 2
  = Ret (Demo.tagged_gradient (Demo.kernel "dense_1" 2 1 [5; 6]%Q)).
Proof.
  destruct (gradient_cursor_aligned (Demo.env [] [] Demo.tagging_tape)
              (Demo.two_dense true) Demo.test_sample "default"
              (Some (map Demo.tagged_gradient (trainable_variables (Demo.two_dense true))))
              (Some 0%nat)
              [Demo.dense_layer "dense" 2 2 [1; 2; 3; 4]%Q [0; 0]%Q true] []
              (Demo.dense_layer "dense_1" 2 1 [5; 6]%Q [0]%Q true)
              (fst (KerasNetworkExtractor.input_placeholder
                      (Demo.two_dense true) "default" Demo.test_sample
                      (Demo.start Demo.empty_grapher)))
              (fst (for_each [Demo.dense_layer "dense" 2 2 [1; 2; 3; 4]%Q [0; 0]%Q true]
                      (KerasNetworkExtractor.loop_body (Demo.env [] [] Demo.tagging_tape)
                         (Some (map Demo.tagged_gradient
                                  (trainable_variables (Demo.two_dense true))))
                         "default" Demo.test_sample)
                      (KerasNetworkExtractor.initial_locals (Some 0%nat))
                      (fst (KerasNetworkExtractor.input_placeholder
                              (Demo.two_dense true) "default" Demo.test_sample
                              (Demo.start Demo.empty_grapher)))))
              {| KerasNetworkExtractor.previous_layer := Some 1%nat;
                 KerasNetworkExtractor.idx_grads := 2;
                 KerasNetworkExtractor.layer_training_props := [];
                 KerasNetworkExtractor.layer_input_props := [] |}
              eq_refl eq_refl) as (_ & _ & H).
  exact (proj1 (H Demo.tagged_gradient
                  (Demo.kernel "dense_1" 2 1 [5; 6]%Q)
                  [Demo.bias_var "dense_1" 1 [0]%Q]
                  (NdArray [2; 1]%Z [16]%Q)
                  eq_refl eq_refl eq_refl)).
Defined.

(** C10, at a failing input.  In
    [Sequential([Dense(2, input_shape=(2,)), Dense(2, trainable=False),
                 Dense(1, name='output')])]
    the gradient list holds the gradients of the trainable weights only: the
    kernel and the bias of [dense], then the kernel and the bias of [output].
    The cursor is at 2 when the walk reaches the frozen layer [dense_1], which
    has no trainable weight, and [process()] gives its UI layer [grads[2]],
    the gradient of the kernel of [output]: the 2x2 weight array of [dense_1]
    is shown with a 2x1 gradient array that is not its own.  When the frozen
    layer is the last one, the cursor is past the end of the gradient list
    and [process()] raises [IndexError]. *)
Theorem process_frozen_layer_foreign_gradient :
  snd (KerasNetworkExtractor.process (Demo.env [] [] Demo.tagging_tape)
         Demo.frozen_middle Demo.test_sample (Demo.start Demo.empty_grapher))
  = Ret tt
  /\ map (fun l => (Layers.name l, Layers.weights l, Layers.grads l))
       (Grapher.layers
          (grapher
             (fst (KerasNetworkExtractor.process (Demo.env [] [] Demo.tagging_tape)
                     Demo.frozen_middle Demo.test_sample
                     (Demo.start Demo.empty_grapher)))))
     = [ ("input", None, None);
         ("dense", Some (NdArray [2; 2]%Z [1; 2; 3; 4]%Q),
          Demo.tagged_gradient (Demo.kernel "dense" 2 2 [1; 2; 3; 4]%Q));
         ("dense_1", Some (NdArray [2; 2]%Z [5; 6; 7; 8]%Q),
          Demo.tagged_gradient (Demo.kernel "output" 2 1 [9; 10]%Q));
         ("output", Some (NdArray [2; 1]%Z [9; 10]%Q),
          Demo.tagged_gradient (Demo.kernel "output" 2 1 [9; 10]%Q)) ]
  /\ snd (KerasNetworkExtractor.process (Demo.env [] [] Demo.tagging_tape)
            Demo.frozen_last Demo.test_sample (Demo.start Demo.empty_grapher))
     = Raise (Exn IndexError "list index out of range").
Proof.
  vm_compute. repeat split.
Qed.

(** *** C5: gradient failures do not reach the layer walk *)

Lemma sbg_ret {A} (a : A) : same_but_gradients (ret a) (ret a).
Proof. intros w; reflexivity. Qed.

Lemma sbg_raise {A} (e : exn) : same_but_gradients (@raise World A e) (raise e).
Proof. intros w; reflexivity. Qed.

Lemma sbg_lift {A} (o : outcome A) : same_but_gradients (lift o) (lift o).
Proof. intros w; reflexivity. Qed.

Lemma sbg_emit (lv : log_level) (msg : string) :
  same_but_gradients (modify (emit lv msg)) (modify (emit lv msg)).
Proof. intros w; reflexivity. Qed.

Lemma sbg_bind_post {A B} (P : A -> Prop) (c1 c2 : M World A)
  (k1 k2 : A -> M World B) :
  same_but_gradients c1 c2 ->
  (forall w w' a, c2 w = (w', Ret a) -> P a) ->
  (forall a, P a -> same_but_gradients (k1 a) (k2 a)) ->
  same_but_gradients (bind c1 k1) (bind c2 k2).
Proof.
  intros Hc HP Hk w. unfold bind. rewrite (Hc w). unfold erase_run.
  destruct (c2 w) as [w' [a|e]] eqn:Hc2; cbn [fst snd].
  - apply (Hk a). eapply HP; eassumption.
  - reflexivity.
Qed.

Lemma sbg_bind {A B} (c1 c2 : M World A) (k1 k2 : A -> M World B) :
  same_but_gradients c1 c2 ->
  (forall a, same_but_gradients (k1 a) (k2 a)) ->
  same_but_gradients (bind c1 k1) (bind c2 k2).
Proof.
  intros Hc Hk. apply (sbg_bind_post (fun _ => True)); auto.
Qed.

Lemma update_nth_map {A} (f g : A -> A) (i : nat) (l : list A) :
  (forall a, f (g a) = g (f a)) ->
  KerasNetworkExtractor.update_nth i f (map g l)
  = map g (KerasNetworkExtractor.update_nth i f l).
Proof.
  intros Hfg. revert i; induction l as [|a l IH]; intros i;
    [destruct i; reflexivity|].
  destruct i as [|i]; simpl; [now rewrite Hfg | now rewrite IH].
Qed.

Lemma sbg_update_layer (i : nat)
  (f : Layers.AbstractLayer -> Layers.AbstractLayer) :
  (forall l, f (Layers.with_grads None l) = Layers.with_grads None (f l)) ->
  same_but_gradients (KerasNetworkExtractor.update_layer i f)
                     (KerasNetworkExtractor.update_layer i f).
Proof.
  intros Hf w.
  unfold KerasNetworkExtractor.update_layer, modify, erase_run, erase_grads,
    with_grapher, Grapher.with_layers.
  cbn [fst snd grapher log Grapher.layers Grapher.theme Grapher.properties].
  now rewrite update_nth_map.
Qed.

Lemma sbg_add_layer (l1 l2 : Layers.AbstractLayer) :
  l1 = Layers.with_grads None l2 ->
  same_but_gradients (KerasNetworkExtractor.add_layer l1)
                     (KerasNetworkExtractor.add_layer l2).
Proof.
  intros -> w.
  unfold KerasNetworkExtractor.add_layer, erase_run, erase_grads, with_grapher,
    Grapher.add_layer, Grapher.with_layers.
  cbn [fst snd grapher log Grapher.layers Grapher.theme Grapher.properties].
  now rewrite map_app, length_map.
Qed.

Lemma regularizers_erase (E : External) (keras_layer : KerasLayer)
  (reg_attrs : list string) :
  forall layer,
    KerasNetworkExtractor.regularizers E keras_layer reg_attrs
      (Layers.with_grads None layer)
    = omap (Layers.with_grads None)
        (KerasNetworkExtractor.regularizers E keras_layer reg_attrs layer).
Proof.
  induction reg_attrs as [|a rest IH]; intros layer; [reflexivity|].
  cbn [KerasNetworkExtractor.regularizers].
  destruct (KerasNetworkExtractor._get_keras_layer_attribute keras_layer a
              (Some ["l1"; "l2"]) true) as [reg|e]; [|reflexivity].
  cbn [obind].
  destruct (KerasNetworkExtractor.regularizer_value E reg) as [value|e];
    [|reflexivity].
  cbn [obind]. destruct (truthy value); [|apply IH].
  rewrite <- IH. reflexivity.
Qed.

Lemma prepare_layer_erase (E : External) (layer : Layers.AbstractLayer)
  (keras_layer : KerasLayer) (tp ip : dict string pyval) :
  KerasNetworkExtractor.prepare_layer E (Layers.with_grads None layer)
    keras_layer tp ip
  = omap (Layers.with_grads None)
      (KerasNetworkExtractor.prepare_layer E layer keras_layer tp ip).
Proof.
  unfold KerasNetworkExtractor.prepare_layer. cbv zeta.
  match goal with
  | |- obind (KerasNetworkExtractor.regularizers E keras_layer ?attrs ?l1) _
       = omap _ (obind (KerasNetworkExtractor.regularizers E keras_layer ?attrs ?l2) _) =>
      change l1 with (Layers.with_grads None l2);
      rewrite (regularizers_erase E keras_layer attrs l2);
      destruct (KerasNetworkExtractor.regularizers E keras_layer attrs l2)
        as [layer'|e]; [|reflexivity]
  end.
  cbn [omap obind].
  destruct (KerasNetworkExtractor._get_keras_layer_attribute keras_layer
              "activation" None true) as [activation|e]; [|reflexivity].
  cbn [omap obind].
  destruct (is_none activation);
    destruct (match dict_get String.eqb (attributes keras_layer) "use_bias" with
              | Some b => truthy b
              | None => true
              end);
    destruct (bias keras_layer); reflexivity.
Qed.

Lemma sbg_process_add_layer (E : External) (l1 l2 : Layers.AbstractLayer)
  (keras_layer : KerasLayer) (tp ip : dict string pyval) :
  l1 = Layers.with_grads None l2 ->
  same_but_gradients
    (KerasNetworkExtractor._process_add_layer E l1 keras_layer tp ip)
    (KerasNetworkExtractor._process_add_layer E l2 keras_layer tp ip).
Proof.
  intros ->. unfold KerasNetworkExtractor._process_add_layer.
  rewrite prepare_layer_erase.
  destruct (KerasNetworkExtractor.prepare_layer E l2 keras_layer tp ip)
    as [layer|e]; cbn [omap].
  - intros w. unfold bind, lift. cbn [fst snd].
    now apply sbg_add_layer.
  - intros w. reflexivity.
Qed.

Lemma sbg_get {B} (k1 k2 : World -> M World B) :
  (forall w, k1 (erase_grads w) (erase_grads w) = erase_run (k2 w w)) ->
  same_but_gradients (bind get k1) (bind get k2).
Proof.
  intros H w. unfold bind, get. apply H.
Qed.

Ltac sbg_step :=
  first
    [ apply sbg_ret
    | apply sbg_raise
    | apply sbg_lift
    | apply sbg_emit
    | apply sbg_update_layer; intros ?; reflexivity
    | apply sbg_add_layer; reflexivity
    | apply sbg_bind; [| intros ?]
    | match goal with
      | |- same_but_gradients (if ?b then _ else _) _ => destruct b
      | |- same_but_gradients (match ?x with _ => _ end) _ => destruct x
      end ].

Lemma class_at_erase (i : nat) (w : World) :
  KerasNetworkExtractor.class_at i (erase_grads w)
  = KerasNetworkExtractor.class_at i w.
Proof.
  unfold KerasNetworkExtractor.class_at, erase_grads, with_grapher,
    Grapher.with_layers.
  cbn [grapher Grapher.layers]. rewrite nth_error_map.
  destruct (nth_error (Grapher.layers (grapher w)) i); reflexivity.
Qed.

Lemma getitem_map {A B} (f : A -> B) (what : string) (l : list A) (i : Z) :
  getitem what (map f l) i = omap f (getitem what l i).
Proof.
  unfold getitem. rewrite length_map.
  destruct ((0 <=? (if (i <? 0)%Z then (i + Z.of_nat (List.length l))%Z else i))%Z
            && ((if (i <? 0)%Z then (i + Z.of_nat (List.length l))%Z else i)
                <? Z.of_nat (List.length l))%Z); [|reflexivity].
  rewrite nth_error_map.
  destruct (nth_error l _); reflexivity.
Qed.

Lemma sbg_bind_lift_ret {A B} (a1 a2 : A) (k1 k2 : A -> M World B) :
  same_but_gradients (k1 a1) (k2 a2) ->
  same_but_gradients (bind (lift (Ret a1)) k1) (bind (lift (Ret a2)) k2).
Proof.
  intros H w. unfold bind, lift. apply H.
Qed.

Lemma sbg_weighted_branch (E : External) (c : Layers.layer_class)
  (keras_layer : KerasLayer) (g : list (option ndarray)) (theme : Theme)
  (st : KerasNetworkExtractor.locals) (a : option ndarray) :
  KerasNetworkExtractor.grads_arg (Some g) (KerasNetworkExtractor.idx_grads st)
  = Ret a ->
  same_but_gradients
    (KerasNetworkExtractor.weighted_branch E c keras_layer None theme st)
    (KerasNetworkExtractor.weighted_branch E c keras_layer (Some g) theme st).
Proof.
  intros Harg.
  unfold KerasNetworkExtractor.weighted_branch, KerasNetworkExtractor.new_layer.
  rewrite Harg.
  destruct (getitem "tuple" (output_shape keras_layer) (-1)) as [n|e];
    [|intros w; reflexivity].
  destruct (getitem "list" (weights keras_layer) 0) as [k|e];
    [|intros w; reflexivity].
  cbn [obind KerasNetworkExtractor.grads_arg].
  apply sbg_bind_lift_ret.
  apply sbg_bind; [apply sbg_process_add_layer; reflexivity|].
  intros i. destruct c; repeat sbg_step.
Qed.

Lemma sbg_flatten_branch (E : External) (keras_layer : KerasLayer)
  (theme : Theme) (test_data : TestData) (st : KerasNetworkExtractor.locals) :
  same_but_gradients
    (KerasNetworkExtractor.flatten_branch E keras_layer theme test_data st)
    (KerasNetworkExtractor.flatten_branch E keras_layer theme test_data st).
Proof.
  unfold KerasNetworkExtractor.flatten_branch.
  apply sbg_get. intros w.
  destruct (KerasNetworkExtractor.previous_layer st) as [i|].
  - rewrite class_at_erase.
    destruct (KerasNetworkExtractor.class_at i w) as [[]|];
      refine ((_ : same_but_gradients _ _) w); repeat sbg_step.
  - refine ((_ : same_but_gradients _ _) w); repeat sbg_step.
Qed.

Lemma sbg_pooling_branch (E : External) (keras_layer : KerasLayer)
  (st : KerasNetworkExtractor.locals) :
  same_but_gradients (KerasNetworkExtractor.pooling_branch E keras_layer st)
                     (KerasNetworkExtractor.pooling_branch E keras_layer st).
Proof.
  unfold KerasNetworkExtractor.pooling_branch. cbv zeta. repeat sbg_step.
Qed.

Lemma sbg_activation_branch (E : External) (keras_layer : KerasLayer)
  (st : KerasNetworkExtractor.locals) :
  same_but_gradients (KerasNetworkExtractor.activation_branch E keras_layer st)
                     (KerasNetworkExtractor.activation_branch E keras_layer st).
Proof.
  unfold KerasNetworkExtractor.activation_branch. repeat sbg_step.
Qed.

Lemma sbg_dropout_branch (E : External) (keras_layer : KerasLayer) :
  same_but_gradients (KerasNetworkExtractor.dropout_branch E keras_layer)
                     (KerasNetworkExtractor.dropout_branch E keras_layer).
Proof.
  unfold KerasNetworkExtractor.dropout_branch. cbv zeta. repeat sbg_step.
Qed.

Lemma sbg_loop_body (E : External) (g : list (option ndarray)) (theme : Theme)
  (test_data : TestData) (keras_layer : KerasLayer)
  (st : KerasNetworkExtractor.locals) :
  (weighted_class keras_layer = true ->
   exists a, KerasNetworkExtractor.grads_arg (Some g)
               (KerasNetworkExtractor.idx_grads st) = Ret a) ->
  same_but_gradients
    (KerasNetworkExtractor.loop_body E None theme test_data keras_layer st)
    (KerasNetworkExtractor.loop_body E (Some g) theme test_data keras_layer st).
Proof.
  intros Husable.
  unfold KerasNetworkExtractor.loop_body. cbv zeta.
  unfold weighted_class in Husable.
  destruct (String.eqb (class_name keras_layer) "Dense").
  { destruct (Husable eq_refl) as [a Ha].
    apply sbg_bind; [eapply sbg_weighted_branch; exact Ha | intros ?; apply sbg_ret]. }
  destruct (String.eqb (class_name keras_layer) "Conv2D").
  { destruct (Husable eq_refl) as [a Ha].
    apply sbg_bind; [eapply sbg_weighted_branch; exact Ha | intros ?; apply sbg_ret]. }
  destruct (String.eqb (class_name keras_layer) "Flatten").
  { apply sbg_bind; [apply sbg_flatten_branch | intros ?; apply sbg_ret]. }
  destruct (KerasNetworkExtractor.mem (class_name keras_layer)
              KerasNetworkExtractor._pooling_layers).
  { apply sbg_bind; [apply sbg_pooling_branch | intros ?; apply sbg_ret]. }
  destruct (String.eqb (class_name keras_layer) "Activation").
  { apply sbg_bind; [apply sbg_activation_branch | intros ?; apply sbg_ret]. }
  destruct (KerasNetworkExtractor.mem (class_name keras_layer)
              KerasNetworkExtractor._dropout_layers).
  { apply sbg_bind; [apply sbg_dropout_branch | intros ?; apply sbg_ret]. }
  repeat sbg_step.
Qed.

Lemma sbg_walk (E : External) (g : list (option ndarray)) (theme : Theme)
  (test_data : TestData) (ls : list KerasLayer) :
  forall st,
    gradients_usable g (KerasNetworkExtractor.idx_grads st) ls = true ->
    same_but_gradients
      (for_each ls (KerasNetworkExtractor.loop_body E None theme test_data) st)
      (for_each ls (KerasNetworkExtractor.loop_body E (Some g) theme test_data) st).
Proof.
  induction ls as [|kl ls IH]; intros st Hu; [apply sbg_ret|].
  cbn [for_each]. cbn [gradients_usable] in Hu.
  apply andb_prop in Hu. destruct Hu as [Hhere Hrest].
  apply (sbg_bind_post
           (fun st' => KerasNetworkExtractor.idx_grads st'
                       = (KerasNetworkExtractor.idx_grads st
                          + Z.of_nat (List.length (trainable_weights kl)))%Z)).
  - apply sbg_loop_body. intros Hw. rewrite Hw in Hhere.
    destruct (KerasNetworkExtractor.grads_arg (Some g)
                (KerasNetworkExtractor.idx_grads st)) as [a|e];
      [now exists a | discriminate].
  - intros w w' st' Hbody. eapply loop_body_idx_grads; eassumption.
  - intros st' Hidx. apply IH. now rewrite Hidx.
Qed.

Lemma sbg_input_placeholder (model : Model) (theme : Theme) (test_data : TestData) :
  same_but_gradients
    (KerasNetworkExtractor.input_placeholder model theme test_data)
    (KerasNetworkExtractor.input_placeholder model theme test_data).
Proof.
  unfold KerasNetworkExtractor.input_placeholder. cbv zeta. repeat sbg_step.
Qed.

Lemma sbg_set_output_classes (test_data : TestData) :
  same_but_gradients (KerasNetworkExtractor.set_output_classes test_data)
                     (KerasNetworkExtractor.set_output_classes test_data).
Proof.
  unfold KerasNetworkExtractor.set_output_classes.
  destruct (output_classes test_data) as [classes|]; [|apply sbg_ret].
  apply sbg_get. intros w. cbv zeta.
  change (Grapher.layers (grapher (erase_grads w)))
    with (map (Layers.with_grads None) (Grapher.layers (grapher w))).
  rewrite getitem_map, length_map.
  unfold bind at 1 2. unfold lift at 1 2.
  destruct (getitem "list" (Grapher.layers (grapher w)) (-1)) as [l|e];
    cbn [omap]; [|reflexivity].
  refine ((_ : same_but_gradients _ _) w). repeat sbg_step.
Qed.

Lemma sbg_build_layers (E : External) (model : Model) (test_data : TestData)
  (theme : Theme) (g : list (option ndarray)) :
  gradients_usable g 0 (layers model) = true ->
  same_but_gradients
    (KerasNetworkExtractor.build_layers E model test_data theme None)
    (KerasNetworkExtractor.build_layers E model test_data theme (Some g)).
Proof.
  intros Hu. unfold KerasNetworkExtractor.build_layers.
  apply sbg_bind; [apply sbg_input_placeholder|]. intros previous.
  apply sbg_bind; [now apply sbg_walk|]. intros _.
  apply sbg_set_output_classes.
Qed.

(** [compute_gradients] never raises.  It returns [None] when no test
    sample is available and, after logging the error, when the gradient-tape
    computation raises.  [process()] then goes on with [None] for the
    gradients, and builds all the layer objects: what it does from there is
    what it does with a list of gradients holding an array at the cursor of
    each ['Dense'] and ['Conv2D'] layer, layer object for layer object and
    with the same outcome, with [None] in place of the gradient arrays. *)
Theorem gradient_errors_not_propagated (E : External) (model : Model)
  (test_data : TestData) (w : World) :
  (exists grads,
     snd (KerasNetworkExtractor.compute_gradients E model test_data w) = Ret grads)
  /\ (has_test_sample test_data = false ->
      KerasNetworkExtractor.compute_gradients E model test_data w = (w, Ret None))
  /\ (forall e,
        has_test_sample test_data = true ->
        tape_gradient E model test_data = Raise e ->
        KerasNetworkExtractor.compute_gradients E model test_data w
        = (emit ERROR ("Unable to compute gradients for model "
                         ++ model_name model ++ ": " ++ message e)%string w,
           Ret None))
  /\ (is_sequential model = true ->
      layers model <> [] ->
      snd (KerasNetworkExtractor.compute_gradients E model test_data
             (with_grapher Grapher.reset w)) = Ret None ->
      KerasNetworkExtractor.process E model test_data w
      = KerasNetworkExtractor.build_layers E model test_data
          (Grapher.theme (grapher w)) None
          (fst (KerasNetworkExtractor.compute_gradients E model test_data
                  (with_grapher Grapher.reset w))))
  /\ (forall theme g w0,
        gradients_usable g 0 (layers model) = true ->
        KerasNetworkExtractor.build_layers E model test_data theme None
          (erase_grads w0)
        = erase_run (KerasNetworkExtractor.build_layers E model test_data theme
                       (Some g) w0)).
Proof.
  split; [|split; [|split; [|split]]].
  - unfold KerasNetworkExtractor.compute_gradients, try_except, bind, lift, ret,
      modify.
    destruct (has_test_sample test_data); [|now exists None].
    destruct (tape_gradient E model test_data) as [gradient|e];
      cbn [fst snd]; eexists; reflexivity.
  - intros Hno. unfold KerasNetworkExtractor.compute_gradients, try_except.
    rewrite Hno. reflexivity.
  - intros e Hyes Htape.
    unfold KerasNetworkExtractor.compute_gradients, try_except, bind, lift.
    rewrite Hyes, Htape. reflexivity.
  - intros Hseq Hne Hnone. unfold KerasNetworkExtractor.process.
    rewrite Hseq. destruct (layers model) as [|kl ls] eqn:Hl; [contradiction|].
    cbn [negb List.length Nat.eqb]. unfold bind at 1 2 3. unfold get, modify.
    destruct (KerasNetworkExtractor.compute_gradients E model test_data
                (with_grapher Grapher.reset w)) as [w1 [grads|e]];
      cbn [fst snd] in *; [|discriminate].
    injection Hnone as ->. reflexivity.
  - intros theme g w0 Hu. now apply sbg_build_layers.
Qed.

(** A two-layer model whose gradient tape raises: the error is logged, and
    the layers built without gradients are those built with the gradients of
    a working tape, the gradient arrays erased. *)
Lemma gradient_errors_not_propagated_witness :
  KerasNetworkExtractor.compute_gradients (Demo.env [] [] Demo.no_tape)
    (Demo.two_dense true) Demo.test_sample (Demo.start Demo.empty_grapher)
  = (emit ERROR
       "Unable to compute gradients for model two_dense: No gradients provided for any variable"
       (Demo.start Demo.empty_grapher),
     Ret None)
  /\ KerasNetworkExtractor.build_layers (Demo.env [] [] Demo.no_tape)
       (Demo.two_dense true) Demo.test_sample "default" None
       (erase_grads (Demo.start Demo.empty_grapher))
     = erase_run
         (KerasNetworkExtractor.build_layers (Demo.env [] [] Demo.no_tape)
            (Demo.two_dense true) Demo.test_sample "default"
            (Some (map Demo.tagged_gradient
                     (trainable_variables (Demo.two_dense true))))
            (Demo.start Demo.empty_grapher)).
Proof.
  split.
  - apply (proj1 (proj2 (proj2 (gradient_errors_not_propagated
             (Demo.env [] [] Demo.no_tape) (Demo.two_dense true)
             Demo.test_sample (Demo.start Demo.empty_grapher))))
             (Exn ValueError "No gradients provided for any variable"));
      reflexivity.
  - apply (proj2 (proj2 (proj2 (proj2 (gradient_errors_not_propagated
             (Demo.env [] [] Demo.no_tape) (Demo.two_dense true)
             Demo.test_sample (Demo.start Demo.empty_grapher)))))
             "default"
             (map Demo.tagged_gradient (trainable_variables (Demo.two_dense true)))
             (Demo.start Demo.empty_grapher)).
    reflexivity.
Defined.

(** C5, at a failing input.  For the Sequential model
    [MaxPooling2D, Flatten, Dense] and a test sample on which the gradient
    tape raises, [compute_gradients] logs the error and returns [None], as
    the claim says; but [process()] does not build the layer objects from
    there: [previous_layer] is [None] when the pooling branch assigns
    [previous_layer.output_props], [process()] raises [AttributeError] and
    the grapher is left without any layer, the ['Dense'] layer of the model
    included. *)
Theorem process_without_gradients_pooling_first_raises :
  KerasNetworkExtractor.compute_gradients (Demo.env [] [] Demo.no_tape)
    Demo.pooling_first Demo.test_sample (Demo.start Demo.empty_grapher)
  = (emit ERROR
       "Unable to compute gradients for model pooling_first: No gradients provided for any variable"
       (Demo.start Demo.empty_grapher),
     Ret None)
  /\ KerasNetworkExtractor.process (Demo.env [] [] Demo.no_tape)
       Demo.pooling_first Demo.test_sample (Demo.start Demo.empty_grapher)
     = (emit ERROR
          "Unable to compute gradients for model pooling_first: No gradients provided for any variable"
          (Demo.start Demo.empty_grapher),
        Raise (Exn AttributeError
                 "'NoneType' object has no attribute 'output_props'"))
  /\ Grapher.layers
       (grapher (fst (KerasNetworkExtractor.process (Demo.env [] [] Demo.no_tape)
                        Demo.pooling_first Demo.test_sample
                        (Demo.start Demo.empty_grapher))))
     = [].
Proof.
  vm_compute. repeat split.
Qed.

(** *** The layers with weights, in the order of the model *)

Lemma ks_ret {A} (a : A) : keeps_shown (@ret World A a).
Proof. intros w w' r H; injection H as <- _; reflexivity. Qed.

Lemma ks_raise {A} (e : exn) : keeps_shown (@raise World A e).
Proof. intros w w' r H; injection H as <- _; reflexivity. Qed.

Lemma ks_lift {A} (o : outcome A) : keeps_shown (@lift World A o).
Proof. intros w w' r H; injection H as <- _; reflexivity. Qed.

Lemma ks_emit (lv : log_level) (msg : string) : keeps_shown (modify (emit lv msg)).
Proof. intros w w' r H; injection H as <- _; reflexivity. Qed.

Lemma ks_bind {A B} (c : M World A) (k : A -> M World B) :
  keeps_shown c -> (forall a, keeps_shown (k a)) -> keeps_shown (bind c k).
Proof.
  intros Hc Hk w w' r. unfold bind.
  destruct (c w) as [w1 [a|e]] eqn:Hcw; intros H.
  - rewrite (Hk a _ _ _ H). eapply Hc; eassumption.
  - injection H as <- _. eapply Hc; eassumption.
Qed.

Lemma ks_get {B} (k : World -> M World B) :
  (forall w0, keeps_shown (k w0)) -> keeps_shown (bind get k).
Proof.
  intros Hk w w' r H. unfold bind, get in H. eapply Hk; eassumption.
Qed.

Lemma shown_update_nth (f : Layers.AbstractLayer -> Layers.AbstractLayer)
  (i : nat) (l : list Layers.AbstractLayer) :
  (forall a, ui_summary (f a) = ui_summary a) ->
  map ui_summary (filter ui_weighted (KerasNetworkExtractor.update_nth i f l))
  = map ui_summary (filter ui_weighted l).
Proof.
  intros Hf.
  assert (Hw : forall a, ui_weighted (f a) = ui_weighted a).
  { intros a. unfold ui_weighted. specialize (Hf a). unfold ui_summary in Hf.
    injection Hf as -> _ _. reflexivity. }
  revert i; induction l as [|a l IH]; intros i; [destruct i; reflexivity|].
  destruct i as [|i]; simpl.
  - rewrite Hw. destruct (ui_weighted a); simpl; [now rewrite Hf | reflexivity].
  - destruct (ui_weighted a); simpl; now rewrite IH.
Qed.

Lemma ks_update_layer (i : nat)
  (f : Layers.AbstractLayer -> Layers.AbstractLayer) :
  (forall a, ui_summary (f a) = ui_summary a) ->
  keeps_shown (KerasNetworkExtractor.update_layer i f).
Proof.
  intros Hf w w' r H. injection H as <- _.
  unfold shown. cbn [grapher with_grapher Grapher.layers Grapher.with_layers].
  now apply shown_update_nth.
Qed.

Lemma shown_add_layer (l : Layers.AbstractLayer) (w : World) :
  shown (fst (KerasNetworkExtractor.add_layer l w))
  = shown w ++ (if ui_weighted l then [ui_summary l] else []).
Proof.
  unfold shown, KerasNetworkExtractor.add_layer.
  cbn [fst grapher with_grapher Grapher.layers Grapher.add_layer Grapher.with_layers].
  rewrite filter_app, map_app. cbn [filter].
  destruct (ui_weighted l); reflexivity.
Qed.

Lemma ks_add_input (l : Layers.AbstractLayer) :
  ui_weighted l = false -> keeps_shown (KerasNetworkExtractor.add_layer l).
Proof.
  intros Hl w w' r H.
  pose proof (shown_add_layer l w) as Hs. rewrite H in Hs. cbn [fst] in Hs.
  rewrite Hs, Hl. apply app_nil_r.
Qed.

Ltac ks_step :=
  first
    [ apply ks_ret
    | apply ks_raise
    | apply ks_lift
    | apply ks_emit
    | apply ks_update_layer; intros ?; reflexivity
    | apply ks_add_input; reflexivity
    | apply ks_bind; [| intros ?]
    | match goal with
      | |- keeps_shown (if ?b then _ else _) => destruct b
      | |- keeps_shown (match ?x with _ => _ end) => destruct x
      end ].

Lemma regularizers_summary (E : External) (keras_layer : KerasLayer)
  (reg_attrs : list string) :
  forall layer layer',
    KerasNetworkExtractor.regularizers E keras_layer reg_attrs layer = Ret layer' ->
    ui_summary layer' = ui_summary layer.
Proof.
  induction reg_attrs as [|a rest IH]; intros layer layer' H.
  - injection H as <-. reflexivity.
  - cbn [KerasNetworkExtractor.regularizers] in H.
    destruct (KerasNetworkExtractor._get_keras_layer_attribute keras_layer a
                (Some ["l1"; "l2"]) true) as [reg|e]; [|discriminate].
    cbn [obind] in H.
    destruct (KerasNetworkExtractor.regularizer_value E reg) as [value|e];
      [|discriminate].
    cbn [obind] in H. apply IH in H. rewrite H.
    destruct (truthy value); reflexivity.
Qed.

Lemma prepare_layer_summary (E : External) (layer layer' : Layers.AbstractLayer)
  (keras_layer : KerasLayer) (tp ip : dict string pyval) :
  KerasNetworkExtractor.prepare_layer E layer keras_layer tp ip = Ret layer' ->
  ui_summary layer' = ui_summary layer.
Proof.
  unfold KerasNetworkExtractor.prepare_layer. cbv zeta.
  match goal with
  | |- obind (KerasNetworkExtractor.regularizers E keras_layer ?attrs ?l0) _ = _ -> _ =>
      destruct (KerasNetworkExtractor.regularizers E keras_layer attrs l0)
        as [l1|e] eqn:Hreg; [|discriminate]
  end.
  apply regularizers_summary in Hreg. cbn [obind].
  destruct (KerasNetworkExtractor._get_keras_layer_attribute keras_layer
              "activation" None true) as [activation|e]; [|discriminate].
  cbn [obind]. intros H. injection H as <-.
  transitivity (ui_summary l1); [|exact Hreg].
  destruct (is_none activation);
    destruct (match dict_get String.eqb (attributes keras_layer) "use_bias" with
              | Some b => truthy b
              | None => true
              end);
    destruct (bias keras_layer); reflexivity.
Qed.

Lemma getitem_0_hd_error {A} (what : string) (l : list A) (a : A) :
  getitem what l 0 = Ret a -> hd_error l = Some a.
Proof.
  unfold getitem. cbn [Z.ltb Z.compare Z.leb Z.to_nat andb].
  destruct (0 <? Z.of_nat (List.length l))%Z; [|discriminate].
  destruct l as [|b l]; simpl; [discriminate|].
  intros H; injection H as <-. reflexivity.
Qed.

(** The branch of a ['Dense'] or ['Conv2D'] layer adds the summary of the
    layer to what is shown, or raises and leaves what is shown as it was or
    with that summary added. *)
Lemma weighted_branch_shown (E : External) (c : Layers.layer_class)
  (keras_layer : KerasLayer) (grads : option (list (option ndarray)))
  (theme : Theme) (st : KerasNetworkExtractor.locals) (w w' : World)
  (r : outcome (option nat)) :
  c <> Layers.Input ->
  KerasNetworkExtractor.weighted_branch E c keras_layer grads theme st w = (w', r) ->
  shown w' = shown w
                ++ [(c, name keras_layer, option_map numpy (hd_error (weights keras_layer)))]
  \/ (shown w' = shown w /\ exists e, r = Raise e).
Proof.
  intros Hc. unfold KerasNetworkExtractor.weighted_branch.
  unfold bind at 1. unfold lift at 1.
  destruct (KerasNetworkExtractor.new_layer c keras_layer grads
              (KerasNetworkExtractor.idx_grads st) theme) as [layer|e] eqn:Hnew.
  2:{ intros H; injection H as <- <-. right. split; [reflexivity | now exists e]. }
  assert (Hsum : ui_summary layer
                 = (c, name keras_layer,
                    option_map numpy (hd_error (weights keras_layer)))).
  { revert Hnew. unfold KerasNetworkExtractor.new_layer.
    destruct (getitem "tuple" (output_shape keras_layer) (-1)) as [n|e0];
      [|discriminate].
    cbn [obind].
    destruct (getitem "list" (weights keras_layer) 0) as [k|e0] eqn:Hk;
      [|discriminate].
    cbn [obind].
    destruct (KerasNetworkExtractor.grads_arg grads
                (KerasNetworkExtractor.idx_grads st)) as [g|e0]; [|discriminate].
    cbn [obind]. intros H; injection H as <-.
    apply getitem_0_hd_error in Hk. rewrite Hk. reflexivity. }
  unfold bind at 1. unfold KerasNetworkExtractor._process_add_layer.
  unfold bind at 1. unfold lift at 1.
  destruct (KerasNetworkExtractor.prepare_layer E layer keras_layer
              (KerasNetworkExtractor.layer_training_props st)
              (KerasNetworkExtractor.layer_input_props st)) as [layer1|e] eqn:Hprep.
  2:{ intros H; injection H as <- <-. right. split; [reflexivity | now exists e]. }
  apply prepare_layer_summary in Hprep. rewrite Hsum in Hprep.
  assert (Hadd : shown (fst (KerasNetworkExtractor.add_layer layer1 w))
                 = shown w ++ [(c, name keras_layer,
                                option_map numpy (hd_error (weights keras_layer)))]).
  { rewrite shown_add_layer, <- Hprep.
    assert (Hw : ui_weighted layer1 = true).
    { unfold ui_weighted. unfold ui_summary in Hprep. injection Hprep as -> _ _.
      destruct c; [contradiction | reflexivity | reflexivity]. }
    now rewrite Hw. }
  destruct (KerasNetworkExtractor.add_layer layer1 w) as [w1 [i|e]] eqn:Hw1;
    [|discriminate Hw1].
  cbn [fst] in Hadd. intros H. left. rewrite <- Hadd.
  assert (Hrest : keeps_shown
                    (match c with
                     | Layers.Convo2D =>
                         strides <- lift (KerasNetworkExtractor._get_keras_layer_attribute
                                            keras_layer "strides" None false) ;;
                         (if truthy strides && negb (eq_int_tuple strides [1; 1]%Z)
                          then
                            KerasNetworkExtractor.update_layer i
                              (Layers.set_structure_prop "strides"
                                 (PStr (py_str E strides))) ;;
                            s0 <- lift (py_subscript_int strides 0) ;;
                            s1 <- lift (py_subscript_int strides 1) ;;
                            KerasNetworkExtractor.update_layer i
                              (Layers.append_sampling_factor
                                 (PList [s0; s1; PInt 1; PInt 1]))
                          else ret tt) ;;
                         padding <- lift (KerasNetworkExtractor._get_keras_layer_attribute
                                            keras_layer "padding" None false) ;;
                         (if truthy padding
                          then KerasNetworkExtractor.update_layer i
                                 (Layers.set_structure_prop "padding" padding)
                          else ret tt) ;;
                         ret (Some i)
                     | _ => ret (Some i)
                     end)).
  { destruct c; repeat ks_step. }
  eapply Hrest. exact H.
Qed.

Lemma ks_flatten_branch (E : External) (keras_layer : KerasLayer)
  (theme : Theme) (test_data : TestData) (st : KerasNetworkExtractor.locals) :
  keeps_shown (KerasNetworkExtractor.flatten_branch E keras_layer theme test_data st).
Proof.
  unfold KerasNetworkExtractor.flatten_branch.
  apply ks_get. intros w0.
  destruct (KerasNetworkExtractor.previous_layer st) as [i|].
  - destruct (KerasNetworkExtractor.class_at i w0) as [[]|]; repeat ks_step.
  - repeat ks_step.
Qed.

Lemma ks_pooling_branch (E : External) (keras_layer : KerasLayer)
  (st : KerasNetworkExtractor.locals) :
  keeps_shown (KerasNetworkExtractor.pooling_branch E keras_layer st).
Proof.
  unfold KerasNetworkExtractor.pooling_branch. cbv zeta. repeat ks_step.
Qed.

Lemma ks_activation_branch (E : External) (keras_layer : KerasLayer)
  (st : KerasNetworkExtractor.locals) :
  keeps_shown (KerasNetworkExtractor.activation_branch E keras_layer st).
Proof.
  unfold KerasNetworkExtractor.activation_branch. repeat ks_step.
Qed.

Lemma ks_dropout_branch (E : External) (keras_layer : KerasLayer) :
  keeps_shown (KerasNetworkExtractor.dropout_branch E keras_layer).
Proof.
  unfold KerasNetworkExtractor.dropout_branch. cbv zeta. repeat ks_step.
Qed.

Lemma ks_input_placeholder (model : Model) (theme : Theme) (test_data : TestData) :
  keeps_shown (KerasNetworkExtractor.input_placeholder model theme test_data).
Proof.
  unfold KerasNetworkExtractor.input_placeholder. cbv zeta. repeat ks_step.
Qed.

Lemma ks_set_output_classes (test_data : TestData) :
  keeps_shown (KerasNetworkExtractor.set_output_classes test_data).
Proof.
  unfold KerasNetworkExtractor.set_output_classes.
  destruct (output_classes test_data) as [classes|]; [|apply ks_ret].
  apply ks_get. intros w0. cbv zeta. repeat ks_step.
Qed.

Lemma ks_compute_gradients (E : External) (model : Model) (test_data : TestData) :
  keeps_shown (KerasNetworkExtractor.compute_gradients E model test_data).
Proof.
  intros w w' r.
  unfold KerasNetworkExtractor.compute_gradients, try_except, bind, lift, ret,
    modify.
  destruct (has_test_sample test_data).
  - destruct (tape_gradient E model test_data) as [gradient|e];
      intros H; injection H as <- _; reflexivity.
  - intros H; injection H as <- _; reflexivity.
Qed.

(** One turn of the loop: a ['Dense'] or ['Conv2D'] layer adds its summary to
    what is shown (always, when the turn returns); any other layer leaves what
    is shown as it is. *)
Lemma loop_body_shown (E : External) (grads : option (list (option ndarray)))
  (theme : Theme) (test_data : TestData) (keras_layer : KerasLayer)
  (st : KerasNetworkExtractor.locals) (w w' : World)
  (r : outcome KerasNetworkExtractor.locals) :
  KerasNetworkExtractor.loop_body E grads theme test_data keras_layer st w
  = (w', r) ->
  if weighted_class keras_layer then
    shown w' = shown w ++ [keras_summary keras_layer]
    \/ (shown w' = shown w /\ exists e, r = Raise e)
  else shown w' = shown w.
Proof.
  unfold KerasNetworkExtractor.loop_body, weighted_class, keras_summary. cbv zeta.
  destruct (String.eqb (class_name keras_layer) "Dense").
  { cbn [orb]. unfold bind at 1.
    destruct (KerasNetworkExtractor.weighted_branch E Layers.Dense keras_layer
                grads theme st w) as [w1 [previous|e]] eqn:Hb; intros H;
      apply weighted_branch_shown in Hb; try discriminate;
      injection H as <- <-.
    - destruct Hb as [Hb|[_ [e He]]]; [now left | discriminate].
    - destruct Hb as [Hb|[Hb _]]; [now left|].
      right. split; [exact Hb | now exists e]. }
  destruct (String.eqb (class_name keras_layer) "Conv2D").
  { cbn [orb]. unfold bind at 1.
    destruct (KerasNetworkExtractor.weighted_branch E Layers.Convo2D keras_layer
                grads theme st w) as [w1 [previous|e]] eqn:Hb; intros H;
      apply weighted_branch_shown in Hb; try discriminate;
      injection H as <- <-.
    - destruct Hb as [Hb|[_ [e He]]]; [now left | discriminate].
    - destruct Hb as [Hb|[Hb _]]; [now left|].
      right. split; [exact Hb | now exists e]. }
  cbn [orb].
  assert (Hks : keeps_shown
            (if String.eqb (class_name keras_layer) "Flatten" then
               previous <- KerasNetworkExtractor.flatten_branch E keras_layer
                             theme test_data st ;;
               ret {| KerasNetworkExtractor.previous_layer := previous;
                      KerasNetworkExtractor.idx_grads :=
                        KerasNetworkExtractor.idx_grads st
                        + Z.of_nat (List.length (trainable_weights keras_layer));
                      KerasNetworkExtractor.layer_training_props := [];
                      KerasNetworkExtractor.layer_input_props := [] |}
             else if KerasNetworkExtractor.mem (class_name keras_layer)
                       KerasNetworkExtractor._pooling_layers then
               KerasNetworkExtractor.pooling_branch E keras_layer st ;;
               ret {| KerasNetworkExtractor.previous_layer :=
                        KerasNetworkExtractor.previous_layer st;
                      KerasNetworkExtractor.idx_grads :=
                        KerasNetworkExtractor.idx_grads st
                        + Z.of_nat (List.length (trainable_weights keras_layer));
                      KerasNetworkExtractor.layer_training_props := [];
                      KerasNetworkExtractor.layer_input_props := [] |}
             else if String.eqb (class_name keras_layer) "Activation" then
               KerasNetworkExtractor.activation_branch E keras_layer st ;;
               ret {| KerasNetworkExtractor.previous_layer :=
                        KerasNetworkExtractor.previous_layer st;
                      KerasNetworkExtractor.idx_grads :=
                        KerasNetworkExtractor.idx_grads st
                        + Z.of_nat (List.length (trainable_weights keras_layer));
                      KerasNetworkExtractor.layer_training_props := [];
                      KerasNetworkExtractor.layer_input_props := [] |}
             else if KerasNetworkExtractor.mem (class_name keras_layer)
                       KerasNetworkExtractor._dropout_layers then
               next_layer_training_props <-
                 KerasNetworkExtractor.dropout_branch E keras_layer ;;
               ret {| KerasNetworkExtractor.previous_layer :=
                        KerasNetworkExtractor.previous_layer st;
                      KerasNetworkExtractor.idx_grads :=
                        KerasNetworkExtractor.idx_grads st
                        + Z.of_nat (List.length (trainable_weights keras_layer));
                      KerasNetworkExtractor.layer_training_props :=
                        next_layer_training_props;
                      KerasNetworkExtractor.layer_input_props := [] |}
             else if String.eqb (class_name keras_layer) "BatchNormalization" then
               ret {| KerasNetworkExtractor.previous_layer :=
                        KerasNetworkExtractor.previous_layer st;
                      KerasNetworkExtractor.idx_grads :=
                        KerasNetworkExtractor.idx_grads st
                        + Z.of_nat (List.length (trainable_weights keras_layer));
                      KerasNetworkExtractor.layer_training_props := [];
                      KerasNetworkExtractor.layer_input_props :=
                        [("batch_normalization", PStr "Enabled")] |}
             else if KerasNetworkExtractor.mem (class_name keras_layer)
                       KerasNetworkExtractor._keras_ignored_layers then
               modify (emit INFO ("Ignored " ++ name keras_layer)%string) ;;
               ret {| KerasNetworkExtractor.previous_layer :=
                        KerasNetworkExtractor.previous_layer st;
                      KerasNetworkExtractor.idx_grads :=
                        KerasNetworkExtractor.idx_grads st
                        + Z.of_nat (List.length (trainable_weights keras_layer));
                      KerasNetworkExtractor.layer_training_props := [];
                      KerasNetworkExtractor.layer_input_props := [] |}
             else
               modify (emit ERROR ("Not handled layer " ++ name keras_layer
                                     ++ " of type " ++ type_repr keras_layer)%string) ;;
               ret {| KerasNetworkExtractor.previous_layer :=
                        KerasNetworkExtractor.previous_layer st;
                      KerasNetworkExtractor.idx_grads :=
                        KerasNetworkExtractor.idx_grads st
                        + Z.of_nat (List.length (trainable_weights keras_layer));
                      KerasNetworkExtractor.layer_training_props := [];
                      KerasNetworkExtractor.layer_input_props := [] |})).
  { destruct (String.eqb (class_name keras_layer) "Flatten").
    { apply ks_bind; [apply ks_flatten_branch | intros ?; apply ks_ret]. }
    destruct (KerasNetworkExtractor.mem (class_name keras_layer)
                KerasNetworkExtractor._pooling_layers).
    { apply ks_bind; [apply ks_pooling_branch | intros ?; apply ks_ret]. }
    destruct (String.eqb (class_name keras_layer) "Activation").
    { apply ks_bind; [apply ks_activation_branch | intros ?; apply ks_ret]. }
    destruct (KerasNetworkExtractor.mem (class_name keras_layer)
                KerasNetworkExtractor._dropout_layers).
    { apply ks_bind; [apply ks_dropout_branch | intros ?; apply ks_ret]. }
    repeat ks_step. }
  intros H. eapply Hks. exact H.
Qed.

Lemma walk_shown (E : External) (grads : option (list (option ndarray)))
  (theme : Theme) (test_data : TestData) (ls : list KerasLayer) :
  forall st w w' r,
    for_each ls (KerasNetworkExtractor.loop_body E grads theme test_data) st w
    = (w', r) ->
    (exists k, shown w'
               = shown w ++ map keras_summary (firstn k (filter weighted_class ls)))
    /\ (forall st', r = Ret st' ->
        shown w' = shown w ++ map keras_summary (filter weighted_class ls)).
Proof.
  induction ls as [|kl ls IH]; intros st w w' r H.
  - injection H as <- _. split.
    + exists 0%nat. simpl. now rewrite app_nil_r.
    + intros _ _. simpl. now rewrite app_nil_r.
  - cbn [for_each] in H. unfold bind in H.
    destruct (KerasNetworkExtractor.loop_body E grads theme test_data kl st w)
      as [w1 [st1|e]] eqn:Hbody;
      apply loop_body_shown in Hbody; cbn [filter];
      destruct (weighted_class kl).
    + destruct Hbody as [Hbody|[_ [e He]]]; [|discriminate].
      destruct (IH _ _ _ _ H) as [[k Hk] Hall]. split.
      * exists (S k). rewrite Hk, Hbody, <- app_assoc. reflexivity.
      * intros st' Hr. rewrite (Hall st' Hr), Hbody, <- app_assoc. reflexivity.
    + destruct (IH _ _ _ _ H) as [[k Hk] Hall]. split.
      * exists k. now rewrite Hk, Hbody.
      * intros st' Hr. now rewrite (Hall st' Hr), Hbody.
    + injection H as <- <-. split; [|discriminate].
      destruct Hbody as [Hbody|[Hbody _]].
      * exists 1%nat. rewrite Hbody. reflexivity.
      * exists 0%nat. rewrite Hbody. simpl. now rewrite app_nil_r.
    + injection H as <- <-. split; [|discriminate].
      exists 0%nat. rewrite Hbody. simpl. now rewrite app_nil_r.
Qed.

Lemma build_layers_shown (E : External) (model : Model) (test_data : TestData)
  (theme : Theme) (grads : option (list (option ndarray))) (w w' : World)
  (r : outcome unit) :
  KerasNetworkExtractor.build_layers E model test_data theme grads w = (w', r) ->
  (exists k, shown w'
             = shown w ++ map keras_summary
                            (firstn k (filter weighted_class (layers model))))
  /\ (r = Ret tt ->
      shown w' = shown w ++ map keras_summary (filter weighted_class (layers model))).
Proof.
  unfold KerasNetworkExtractor.build_layers. unfold bind at 1.
  destruct (KerasNetworkExtractor.input_placeholder model theme test_data w)
    as [w1 [previous|e]] eqn:Hin; apply ks_input_placeholder in Hin.
  2:{ intros H; injection H as <- <-. split; [|discriminate].
      exists 0%nat. rewrite Hin. simpl. now rewrite app_nil_r. }
  unfold bind at 1.
  destruct (for_each (layers model)
              (KerasNetworkExtractor.loop_body E grads theme test_data)
              (KerasNetworkExtractor.initial_locals previous) w1)
    as [w2 [st|e]] eqn:Hwalk; apply walk_shown in Hwalk;
    destruct Hwalk as [[k Hk] Hall]; rewrite Hin in *.
  - intros H. apply ks_set_output_classes in H. rewrite H.
    split.
    + now exists k.
    + intros _. now apply (Hall st).
  - intros H; injection H as <- <-. split; [now exists k | discriminate].
Qed.

(** What [process()] leaves in the grapher for a Sequential model with at
    least one layer, whether it returns or raises: the [Dense] and [Convo2D]
    objects of the grapher are, in order, those of the first ['Dense'] and
    ['Conv2D'] layers of the model, each of the UI class matching the class
    name of its layer, bearing its name and holding a copy of its first
    weight; when [process()] returns, none of these layers is missing. *)
Lemma process_shows_weighted_layers_in_order (E : External) (model : Model)
  (test_data : TestData) (w : World) :
  is_sequential model = true ->
  layers model <> [] ->
  (exists k,
     shown (fst (KerasNetworkExtractor.process E model test_data w))
     = map keras_summary (firstn k (filter weighted_class (layers model))))
  /\ (snd (KerasNetworkExtractor.process E model test_data w) = Ret tt ->
      shown (fst (KerasNetworkExtractor.process E model test_data w))
      = map keras_summary (filter weighted_class (layers model))).
Proof.
  intros Hseq Hne.
  assert (Hrun : KerasNetworkExtractor.process E model test_data w
                 = match KerasNetworkExtractor.compute_gradients E model test_data
                           (with_grapher Grapher.reset w) with
                   | (w1, Ret grads) =>
                       KerasNetworkExtractor.build_layers E model test_data
                         (Grapher.theme (grapher w)) grads w1
                   | (w1, Raise e) => (w1, Raise e)
                   end).
  { unfold KerasNetworkExtractor.process.
    rewrite Hseq. destruct (layers model) as [|kl ls]; [contradiction|].
    reflexivity. }
  rewrite Hrun.
  destruct (KerasNetworkExtractor.compute_gradients E model test_data
              (with_grapher Grapher.reset w)) as [w1 [grads|e]] eqn:Hg;
    apply ks_compute_gradients in Hg.
  - destruct (KerasNetworkExtractor.build_layers E model test_data
                (Grapher.theme (grapher w)) grads w1) as [w2 r] eqn:Hb.
    apply build_layers_shown in Hb. rewrite Hg in Hb.
    change (shown (with_grapher Grapher.reset w))
      with (@nil (Layers.layer_class * string * option ndarray)) in Hb.
    cbn [app] in Hb. cbn [fst snd]. exact Hb.
  - cbn [fst snd]. split; [|discriminate].
    exists 0%nat. rewrite Hg. reflexivity.
Qed.

(** *** What a computation leaves alone *)

Lemma keeps_ret {X A} (f : World -> X) (a : A) : keeps f (@ret World A a).
Proof. intros w w' r H; injection H as <- _; reflexivity. Qed.

Lemma keeps_raise {X A} (f : World -> X) (e : exn) : keeps f (@raise World A e).
Proof. intros w w' r H; injection H as <- _; reflexivity. Qed.

Lemma keeps_lift {X A} (f : World -> X) (o : outcome A) : keeps f (@lift World A o).
Proof. intros w w' r H; injection H as <- _; reflexivity. Qed.

Lemma keeps_modify {X} (f : World -> X) (g : World -> World) :
  (forall w, f (g w) = f w) -> keeps f (modify g).
Proof. intros Hg w w' r H; injection H as <- _; apply Hg. Qed.

Lemma keeps_add_layer {X} (f : World -> X) (l : Layers.AbstractLayer) :
  (forall w, f (with_grapher (Grapher.add_layer l) w) = f w) ->
  keeps f (KerasNetworkExtractor.add_layer l).
Proof. intros Hg w w' r H; injection H as <- _; apply Hg. Qed.

Lemma keeps_bind {X A B} (f : World -> X) (c : M World A) (k : A -> M World B) :
  keeps f c -> (forall a, keeps f (k a)) -> keeps f (bind c k).
Proof.
  intros Hc Hk w w' r. unfold bind.
  destruct (c w) as [w1 [a|e]] eqn:Hcw; intros H.
  - rewrite (Hk a _ _ _ H). eapply Hc; eassumption.
  - injection H as <- _. eapply Hc; eassumption.
Qed.

Lemma keeps_get {X B} (f : World -> X) (k : World -> M World B) :
  (forall w0, keeps f (k w0)) -> keeps f (bind get k).
Proof.
  intros Hk w w' r H. unfold bind, get in H. eapply Hk; eassumption.
Qed.

Lemma keeps_try_except {X A} (f : World -> X) (body : M World A)
  (handler : exn -> M World A) :
  keeps f body -> (forall e, keeps f (handler e)) -> keeps f (try_except body handler).
Proof.
  intros Hb Hh w w' r. unfold try_except.
  destruct (body w) as [w1 [a|e]] eqn:Hbw; intros H.
  - injection H as <- _. eapply Hb; eassumption.
  - rewrite (Hh e _ _ _ H). eapply Hb; eassumption.
Qed.

Lemma keeps_for_each {X Y L} (f : World -> X) (body : Y -> L -> M World L)
  (xs : list Y) :
  (forall x acc, keeps f (body x acc)) -> forall acc, keeps f (for_each xs body acc).
Proof.
  intros Hb. induction xs as [|x xs IH]; intros acc.
  - apply keeps_ret.
  - cbn [for_each]. apply keeps_bind; [apply Hb | exact IH].
Qed.

Lemma yields_ret {A} (P : A -> Prop) (a : A) : P a -> yields (ret a) P.
Proof. intros Ha w w' b H; injection H as _ <-; exact Ha. Qed.

Lemma yields_bind {A B} (P : B -> Prop) (c : M World A) (k : A -> M World B) :
  (forall a, yields (k a) P) -> yields (bind c k) P.
Proof.
  intros Hk w w' b. unfold bind.
  destruct (c w) as [w1 [a|e]]; [apply Hk | discriminate].
Qed.

(** One step through a computation made of [bind], [lift], [modify] and
    conditionals; [tac] proves that a modification leaves the observation
    alone. *)
Ltac keeps_step tac :=
  first
    [ apply keeps_ret
    | apply keeps_raise
    | apply keeps_lift
    | apply keeps_modify; intros ?; tac
    | apply keeps_add_layer; intros ?; tac
    | match goal with
      | |- keeps _ (bind get _) => apply keeps_get; intros ?
      end
    | apply keeps_bind; [| intros ?]
    | match goal with
      | |- keeps _ (if ?b then _ else _) => destruct b
      | |- keeps _ (match ?x with _ => _ end) => destruct x
      end ].

Ltac yields_step :=
  first
    [ apply yields_ret; reflexivity
    | apply yields_bind; intros ?
    | match goal with
      | |- yields (if ?b then _ else _) _ => destruct b
      | |- yields (match ?x with _ => _ end) _ => destruct x
      end ].

(** *** [process] and the theme and properties of the grapher *)

Lemma keeps_frame_loop_body (E : External) (grads : option (list (option ndarray)))
  (theme : Theme) (test_data : TestData) (keras_layer : KerasLayer)
  (st : KerasNetworkExtractor.locals) :
  keeps frame (KerasNetworkExtractor.loop_body E grads theme test_data keras_layer st).
Proof.
  unfold KerasNetworkExtractor.loop_body, KerasNetworkExtractor.weighted_branch,
    KerasNetworkExtractor._process_add_layer, KerasNetworkExtractor.flatten_branch,
    KerasNetworkExtractor.pooling_branch, KerasNetworkExtractor.activation_branch,
    KerasNetworkExtractor.dropout_branch, KerasNetworkExtractor.update_layer.
  cbv zeta.
  repeat keeps_step ltac:(reflexivity).
Qed.

(** [process()] never assigns the theme or the top-level properties of the
    grapher. *)
Lemma keeps_frame_process (E : External) (model : Model) (test_data : TestData) :
  keeps frame (KerasNetworkExtractor.process E model test_data).
Proof.
  unfold KerasNetworkExtractor.process.
  destruct (negb (is_sequential model)); [apply keeps_raise|].
  destruct (List.length (layers model) =? 0)%nat;
    [apply keeps_modify; reflexivity|].
  apply keeps_get; intros w0. cbv zeta.
  apply keeps_bind; [apply keeps_modify; reflexivity | intros _].
  apply keeps_bind.
  { unfold KerasNetworkExtractor.compute_gradients.
    apply keeps_try_except; [|intros e]; repeat keeps_step ltac:(reflexivity). }
  intros grads. unfold KerasNetworkExtractor.build_layers.
  apply keeps_bind.
  { unfold KerasNetworkExtractor.input_placeholder. cbv zeta.
    repeat keeps_step ltac:(reflexivity). }
  intros previous. apply keeps_bind.
  { apply keeps_for_each. intros kl st. apply keeps_frame_loop_body. }
  intros st. unfold KerasNetworkExtractor.set_output_classes,
    KerasNetworkExtractor.update_layer. cbv zeta.
  repeat keeps_step ltac:(reflexivity).
Qed.

(** *** [process] and the classes of the UI layers *)

Lemma classes_update_nth (f : Layers.AbstractLayer -> Layers.AbstractLayer)
  (i : nat) (l : list Layers.AbstractLayer) :
  (forall a, Layers.class (f a) = Layers.class a) ->
  map Layers.class (KerasNetworkExtractor.update_nth i f l) = map Layers.class l.
Proof.
  intros Hf. revert i; induction l as [|a l IH]; intros i; [destruct i; reflexivity|].
  destruct i as [|i]; simpl; [now rewrite Hf | now rewrite IH].
Qed.

Lemma classes_update_layer (f : Layers.AbstractLayer -> Layers.AbstractLayer)
  (i : nat) (w : World) :
  (forall a, Layers.class (f a) = Layers.class a) ->
  classes (with_grapher
             (fun g => Grapher.with_layers
                         (KerasNetworkExtractor.update_nth i f (Grapher.layers g)) g)
             w)
  = classes w.
Proof. intros Hf. now apply classes_update_nth. Qed.

Ltac classes_kept :=
  first [ reflexivity | apply classes_update_layer; intros ?; reflexivity ].

Lemma classes_add_layer (l : Layers.AbstractLayer) (w : World) :
  classes (with_grapher (Grapher.add_layer l) w) = classes w ++ [Layers.class l].
Proof.
  unfold classes. cbn [grapher with_grapher Grapher.layers Grapher.add_layer
                         Grapher.with_layers].
  now rewrite map_app.
Qed.

Lemma length_classes (w : World) :
  List.length (classes w) = List.length (Grapher.layers (grapher w)).
Proof. unfold classes. apply length_map. Qed.

(** The branch of a ['Dense'] or ['Conv2D'] layer adds one object of the
    matching class at the end of the layer list and makes it the previous
    layer; when it raises, the object is there or not. *)
Lemma weighted_branch_classes (E : External) (c : Layers.layer_class)
  (keras_layer : KerasLayer) (grads : option (list (option ndarray)))
  (theme : Theme) (st : KerasNetworkExtractor.locals) (w w' : World)
  (r : outcome (option nat)) :
  KerasNetworkExtractor.weighted_branch E c keras_layer grads theme st w = (w', r) ->
  match r with
  | Ret p => p = Some (List.length (classes w)) /\ classes w' = classes w ++ [c]
  | Raise _ => classes w' = classes w \/ classes w' = classes w ++ [c]
  end.
Proof.
  unfold KerasNetworkExtractor.weighted_branch.
  unfold bind at 1. unfold lift at 1.
  destruct (KerasNetworkExtractor.new_layer c keras_layer grads
              (KerasNetworkExtractor.idx_grads st) theme) as [layer|e] eqn:Hnew.
  2:{ intros H; injection H as <- <-. now left. }
  assert (Hc : Layers.class layer = c).
  { revert Hnew. unfold KerasNetworkExtractor.new_layer.
    destruct (getitem "tuple" (output_shape keras_layer) (-1)) as [n|e0];
      [|discriminate].
    cbn [obind].
    destruct (getitem "list" (weights keras_layer) 0) as [k|e0]; [|discriminate].
    cbn [obind].
    destruct (KerasNetworkExtractor.grads_arg grads
                (KerasNetworkExtractor.idx_grads st)) as [g|e0]; [|discriminate].
    cbn [obind]. intros H; injection H as <-. reflexivity. }
  unfold bind at 1. unfold KerasNetworkExtractor._process_add_layer.
  unfold bind at 1. unfold lift at 1.
  destruct (KerasNetworkExtractor.prepare_layer E layer keras_layer
              (KerasNetworkExtractor.layer_training_props st)
              (KerasNetworkExtractor.layer_input_props st)) as [layer1|e] eqn:Hprep.
  2:{ intros H; injection H as <- <-. now left. }
  apply prepare_layer_summary in Hprep.
  assert (Hc1 : Layers.class layer1 = c).
  { unfold ui_summary in Hprep. injection Hprep as Hcl _ _. congruence. }
  destruct (KerasNetworkExtractor.add_layer layer1 w) as [w1 [i|e]] eqn:Hw1;
    [|discriminate Hw1].
  unfold KerasNetworkExtractor.add_layer in Hw1. injection Hw1 as Hw1 Hi.
  assert (Hcls : classes w1 = classes w ++ [c]).
  { rewrite <- Hw1, classes_add_layer, Hc1. reflexivity. }
  rewrite <- length_classes in Hi.
  intros H.
  match type of H with
  | ?rest _ = _ =>
      assert (Hk : keeps classes rest)
        by (destruct c; unfold KerasNetworkExtractor.update_layer;
            repeat keeps_step ltac:(classes_kept));
      assert (Hy : yields rest (fun p => p = Some i))
        by (destruct c; repeat yields_step)
  end.
  destruct r as [p|e].
  - split.
    + rewrite (Hy _ _ _ H), Hi. reflexivity.
    + rewrite (Hk _ _ _ H). exact Hcls.
  - right. rewrite (Hk _ _ _ H). exact Hcls.
Qed.

(** The branch of a ['Flatten'] layer met first adds the [Input] object to
    an empty layer list; met later, it adds nothing. *)
Lemma flatten_branch_classes (E : External) (keras_layer : KerasLayer)
  (theme : Theme) (test_data : TestData) (st : KerasNetworkExtractor.locals)
  (w w' : World) (r : outcome (option nat)) :
  KerasNetworkExtractor.flatten_branch E keras_layer theme test_data st w = (w', r) ->
  refers_to_last st w ->
  (classes w' = classes w \/ (classes w = [] /\ classes w' = [Layers.Input]))
  /\ (forall p, r = Ret p -> exists i, p = Some i /\ S i = List.length (classes w')).
Proof.
  unfold KerasNetworkExtractor.flatten_branch, refers_to_last.
  destruct (KerasNetworkExtractor.previous_layer st) as [i|].
  - intros H Hlast.
    match type of H with
    | ?c0 _ = _ =>
        assert (Hk : keeps classes c0)
          by (unfold KerasNetworkExtractor.update_layer;
              repeat keeps_step ltac:(classes_kept));
        assert (Hy : yields c0 (fun p => p = Some i))
          by (repeat yields_step)
    end.
    split; [left; exact (Hk _ _ _ H)|].
    intros p ->. exists i. split; [exact (Hy _ _ _ H)|].
    now rewrite (Hk _ _ _ H).
  - unfold bind, get, lift, ret, KerasNetworkExtractor.add_layer.
    destruct (getitem "tuple" (output_shape_at_0 keras_layer) (-1)) as [d|e];
      intros H Hlast; injection H as <- <-.
    + rewrite classes_add_layer, Hlast. split; [right; now split|].
      intros p Hp; injection Hp as <-. eexists. split; [reflexivity|].
      rewrite <- length_classes, Hlast. reflexivity.
    + split; [now left | discriminate].
Qed.

Lemma keeps_classes_pooling_branch (E : External) (keras_layer : KerasLayer)
  (st : KerasNetworkExtractor.locals) :
  keeps classes (KerasNetworkExtractor.pooling_branch E keras_layer st).
Proof.
  unfold KerasNetworkExtractor.pooling_branch, KerasNetworkExtractor.update_layer.
  cbv zeta. repeat keeps_step ltac:(classes_kept).
Qed.

Lemma keeps_classes_activation_branch (E : External) (keras_layer : KerasLayer)
  (st : KerasNetworkExtractor.locals) :
  keeps classes (KerasNetworkExtractor.activation_branch E keras_layer st).
Proof.
  unfold KerasNetworkExtractor.activation_branch, KerasNetworkExtractor.update_layer.
  repeat keeps_step ltac:(classes_kept).
Qed.

Lemma keeps_classes_dropout_branch (E : External) (keras_layer : KerasLayer) :
  keeps classes (KerasNetworkExtractor.dropout_branch E keras_layer).
Proof.
  unfold KerasNetworkExtractor.dropout_branch. cbv zeta.
  repeat keeps_step ltac:(classes_kept).
Qed.

(** A turn of the loop that adds no layer and keeps [previous_layer]. *)
Lemma plain_turn_classes {A} (c : M World A) (F : A -> KerasNetworkExtractor.locals)
  (st : KerasNetworkExtractor.locals) (w w' : World)
  (r : outcome KerasNetworkExtractor.locals) :
  keeps classes c ->
  (forall a, KerasNetworkExtractor.previous_layer (F a)
             = KerasNetworkExtractor.previous_layer st) ->
  bind c (fun a => ret (F a)) w = (w', r) ->
  classes w' = classes w
  /\ (forall st', r = Ret st' ->
      KerasNetworkExtractor.previous_layer st'
      = KerasNetworkExtractor.previous_layer st).
Proof.
  intros Hk HF. unfold bind, ret.
  destruct (c w) as [w1 [a|e]] eqn:Hc; intros H; injection H as <- <-;
    (split; [exact (Hk _ _ _ Hc)|]).
  - intros st' Hst; injection Hst as <-. apply HF.
  - discriminate.
Qed.

(** One turn of the loop adds at most one object to the layer list, an
    [Input] object only to an empty list, and leaves [previous_layer] on the
    last object of the list. *)
Lemma loop_body_classes (E : External) (grads : option (list (option ndarray)))
  (theme : Theme) (test_data : TestData) (keras_layer : KerasLayer)
  (st : KerasNetworkExtractor.locals) (w w' : World)
  (r : outcome KerasNetworkExtractor.locals) :
  KerasNetworkExtractor.loop_body E grads theme test_data keras_layer st w
  = (w', r) ->
  refers_to_last st w ->
  (classes w' = classes w
   \/ exists c, classes w' = classes w ++ [c]
                /\ (c = Layers.Input -> classes w = []))
  /\ (forall st', r = Ret st' -> refers_to_last st' w').
Proof.
  assert (Hplain : forall A (c : M World A) (F : A -> KerasNetworkExtractor.locals),
             keeps classes c ->
             (forall a, KerasNetworkExtractor.previous_layer (F a)
                        = KerasNetworkExtractor.previous_layer st) ->
             bind c (fun a => ret (F a)) w = (w', r) ->
             refers_to_last st w ->
             (classes w' = classes w
              \/ exists c, classes w' = classes w ++ [c]
                           /\ (c = Layers.Input -> classes w = []))
             /\ (forall st', r = Ret st' -> refers_to_last st' w')).
  { intros A c F Hk HF H Hlast.
    destruct (plain_turn_classes c F st w w' r Hk HF H) as [Hcls Hprev].
    split; [now left|].
    intros st' Hr. unfold refers_to_last in *.
    rewrite (Hprev st' Hr), Hcls. exact Hlast. }
  assert (Hweighted : forall c, c <> Layers.Input ->
             bind (KerasNetworkExtractor.weighted_branch E c keras_layer grads theme st)
               (fun previous =>
                  ret {| KerasNetworkExtractor.previous_layer := previous;
                         KerasNetworkExtractor.idx_grads :=
                           KerasNetworkExtractor.idx_grads st
                           + Z.of_nat (List.length (trainable_weights keras_layer));
                         KerasNetworkExtractor.layer_training_props := [];
                         KerasNetworkExtractor.layer_input_props := [] |}) w
             = (w', r) ->
             (classes w' = classes w
              \/ exists c, classes w' = classes w ++ [c]
                           /\ (c = Layers.Input -> classes w = []))
             /\ (forall st', r = Ret st' -> refers_to_last st' w')).
  { intros c Hc. unfold bind.
    destruct (KerasNetworkExtractor.weighted_branch E c keras_layer grads theme st w)
      as [w1 [previous|e]] eqn:Hb; apply weighted_branch_classes in Hb;
      intros H; injection H as <- <-.
    - destruct Hb as [-> Hcls]. split.
      + right. exists c. split; [exact Hcls | intros Heq; contradiction].
      + intros st' Hr; injection Hr as <-. unfold refers_to_last.
        cbn [KerasNetworkExtractor.previous_layer].
        rewrite Hcls, length_app. cbn [List.length]. lia.
    - split; [|discriminate].
      destruct Hb as [Hb|Hb]; [now left|].
      right. exists c. split; [exact Hb | intros Heq; contradiction]. }
  unfold KerasNetworkExtractor.loop_body. cbv zeta.
  destruct (String.eqb (class_name keras_layer) "Dense").
  { intros H _. apply (Hweighted Layers.Dense); [discriminate | exact H]. }
  destruct (String.eqb (class_name keras_layer) "Conv2D").
  { intros H _. apply (Hweighted Layers.Convo2D); [discriminate | exact H]. }
  destruct (String.eqb (class_name keras_layer) "Flatten").
  { unfold bind.
    destruct (KerasNetworkExtractor.flatten_branch E keras_layer theme test_data st w)
      as [w1 [previous|e]] eqn:Hb; intros H Hlast;
      destruct (flatten_branch_classes _ _ _ _ _ _ _ _ Hb Hlast) as [Hcls Hret];
      injection H as <- <-.
    - split.
      + destruct Hcls as [Hcls|[Hnil Hcls]]; [now left|].
        right. exists Layers.Input. rewrite Hcls, Hnil. split; [reflexivity|].
        intros _. reflexivity.
      + intros st' Hr; injection Hr as <-.
        destruct (Hret previous eq_refl) as (i & -> & Hi). exact Hi.
    - split; [|discriminate].
      destruct Hcls as [Hcls|[Hnil Hcls]]; [now left|].
      right. exists Layers.Input. rewrite Hcls, Hnil. split; [reflexivity|].
      intros _. reflexivity. }
  destruct (KerasNetworkExtractor.mem (class_name keras_layer)
              KerasNetworkExtractor._pooling_layers).
  { apply Hplain; [apply keeps_classes_pooling_branch | reflexivity]. }
  destruct (String.eqb (class_name keras_layer) "Activation").
  { apply Hplain; [apply keeps_classes_activation_branch | reflexivity]. }
  destruct (KerasNetworkExtractor.mem (class_name keras_layer)
              KerasNetworkExtractor._dropout_layers).
  { apply Hplain; [apply keeps_classes_dropout_branch | reflexivity]. }
  destruct (String.eqb (class_name keras_layer) "BatchNormalization").
  { intros H Hlast. injection H as <- <-. split; [now left|].
    intros st' Hr; injection Hr as <-. exact Hlast. }
  destruct (KerasNetworkExtractor.mem (class_name keras_layer)
              KerasNetworkExtractor._keras_ignored_layers).
  { apply Hplain; [apply keeps_modify; reflexivity | reflexivity]. }
  apply Hplain; [apply keeps_modify; reflexivity | reflexivity].
Qed.

Lemma input_only_first_grows (cs cs' : list Layers.layer_class) :
  input_only_first cs ->
  (cs' = cs \/ exists c, cs' = cs ++ [c] /\ (c = Layers.Input -> cs = [])) ->
  input_only_first cs'.
Proof.
  intros Hcs [->|(c & -> & Hc)]; [exact Hcs|].
  unfold input_only_first in *. destruct cs as [|a cs]; [constructor|].
  cbn [app tl] in *. apply Forall_app. split; [exact Hcs|].
  constructor; [|constructor]. intros Heq. specialize (Hc Heq). discriminate.
Qed.

Lemma walk_classes (E : External) (grads : option (list (option ndarray)))
  (theme : Theme) (test_data : TestData) (ls : list KerasLayer) :
  forall st w w' r,
    for_each ls (KerasNetworkExtractor.loop_body E grads theme test_data) st w
    = (w', r) ->
    refers_to_last st w ->
    input_only_first (classes w) ->
    input_only_first (classes w').
Proof.
  induction ls as [|kl ls IH]; intros st w w' r H Hlast Hin.
  - injection H as <- _. exact Hin.
  - cbn [for_each] in H. unfold bind in H.
    destruct (KerasNetworkExtractor.loop_body E grads theme test_data kl st w)
      as [w1 [st1|e]] eqn:Hbody;
      destruct (loop_body_classes _ _ _ _ _ _ _ _ _ Hbody Hlast) as [Hcls Hret];
      pose proof (input_only_first_grows _ _ Hin Hcls) as Hin1.
    + apply (IH st1 w1 w' r H); [now apply Hret | exact Hin1].
    + injection H as <- _. exact Hin1.
Qed.

Lemma build_layers_classes (E : External) (model : Model) (test_data : TestData)
  (theme : Theme) (grads : option (list (option ndarray))) (w w' : World)
  (r : outcome unit) :
  KerasNetworkExtractor.build_layers E model test_data theme grads w = (w', r) ->
  classes w = [] ->
  input_only_first (classes w').
Proof.
  unfold KerasNetworkExtractor.build_layers. intros H Hnil.
  unfold bind at 1 in H.
  destruct (KerasNetworkExtractor.input_placeholder model theme test_data w)
    as [w1 [previous|e]] eqn:Hin.
  - assert (Hstart : refers_to_last (KerasNetworkExtractor.initial_locals previous) w1
                     /\ input_only_first (classes w1)).
    { revert Hin. unfold KerasNetworkExtractor.input_placeholder. cbv zeta.
      unfold bind, lift, ret, KerasNetworkExtractor.add_layer.
      destruct (getitem "list" (layers model) 0) as [first|e]; [|discriminate].
      destruct (0 <? List.length (get_weights first))%nat.
      + destruct (getitem "list" (get_weights first) 0) as [w0|e]; [|discriminate].
        destruct (getitem "tuple" (nd_shape w0) (-2)) as [d|e]; [|discriminate].
        intros Hin; injection Hin as <- <-.
        unfold refers_to_last. cbn [KerasNetworkExtractor.previous_layer
                                      KerasNetworkExtractor.initial_locals].
        rewrite classes_add_layer, Hnil, <- length_classes, Hnil.
        split; [reflexivity | constructor].
      + intros Hin; injection Hin as <- <-.
        unfold refers_to_last. cbn [KerasNetworkExtractor.previous_layer
                                      KerasNetworkExtractor.initial_locals].
        rewrite Hnil. split; [reflexivity | constructor]. }
    destruct Hstart as [Hlast Hfirst].
    unfold bind at 1 in H.
    destruct (for_each (layers model)
                (KerasNetworkExtractor.loop_body E grads theme test_data)
                (KerasNetworkExtractor.initial_locals previous) w1)
      as [w2 [st|e]] eqn:Hwalk;
      pose proof (walk_classes _ _ _ _ _ _ _ _ _ Hwalk Hlast Hfirst) as Hin2.
    + assert (Hk : keeps classes (KerasNetworkExtractor.set_output_classes test_data)).
      { unfold KerasNetworkExtractor.set_output_classes,
          KerasNetworkExtractor.update_layer. cbv zeta.
        repeat keeps_step ltac:(classes_kept). }
      now rewrite (Hk _ _ _ H).
    + injection H as <- _. exact Hin2.
  - injection H as <- _.
    revert Hin. unfold KerasNetworkExtractor.input_placeholder. cbv zeta.
    unfold bind, lift, ret, KerasNetworkExtractor.add_layer.
    unfold input_only_first.
    destruct (getitem "list" (layers model) 0) as [first|e0];
      [|intros Hin; injection Hin as <- _; rewrite Hnil; constructor].
    destruct (0 <? List.length (get_weights first))%nat; [|discriminate].
    destruct (getitem "list" (get_weights first) 0) as [w0|e0];
      [|intros Hin; injection Hin as <- _; rewrite Hnil; constructor].
    destruct (getitem "tuple" (nd_shape w0) (-2)) as [d|e0];
      [discriminate|intros Hin; injection Hin as <- _; rewrite Hnil; constructor].
Qed.

(** After [process()] on a Sequential model with at least one layer, whether
    it returns or raises, no [Input] object stands after the first position
    of the layer list. *)
Lemma process_input_only_first (E : External) (model : Model)
  (test_data : TestData) (w : World) :
  is_sequential model = true ->
  layers model <> [] ->
  input_only_first
    (classes (fst (KerasNetworkExtractor.process E model test_data w))).
Proof.
  intros Hseq Hne.
  assert (Hrun : KerasNetworkExtractor.process E model test_data w
                 = match KerasNetworkExtractor.compute_gradients E model test_data
                           (with_grapher Grapher.reset w) with
                   | (w1, Ret grads) =>
                       KerasNetworkExtractor.build_layers E model test_data
                         (Grapher.theme (grapher w)) grads w1
                   | (w1, Raise e) => (w1, Raise e)
                   end).
  { unfold KerasNetworkExtractor.process.
    rewrite Hseq. destruct (layers model) as [|kl ls]; [contradiction|].
    reflexivity. }
  rewrite Hrun.
  assert (Hk : keeps classes (KerasNetworkExtractor.compute_gradients E model test_data)).
  { unfold KerasNetworkExtractor.compute_gradients.
    apply keeps_try_except; [|intros e]; repeat keeps_step ltac:(classes_kept). }
  destruct (KerasNetworkExtractor.compute_gradients E model test_data
              (with_grapher Grapher.reset w)) as [w1 [grads|e]] eqn:Hg;
    apply Hk in Hg; change (classes (with_grapher Grapher.reset w))
                        with (@nil Layers.layer_class) in Hg.
  - destruct (KerasNetworkExtractor.build_layers E model test_data
                (Grapher.theme (grapher w)) grads w1) as [w2 r] eqn:Hb.
    cbn [fst]. eapply build_layers_classes; eassumption.
  - cbn [fst]. rewrite Hg. constructor.
Qed.

(** A layer list without [Input] object after the first position is an
    optional [Input] placeholder followed by the [Dense] and [Convo2D]
    objects. *)
Lemma placeholder_then_weighted (L : list Layers.AbstractLayer) :
  input_only_first (map Layers.class L) ->
  exists placeholder,
    L = placeholder ++ filter ui_weighted L
    /\ (placeholder = []
        \/ exists l, placeholder = [l] /\ Layers.class l = Layers.Input).
Proof.
  unfold input_only_first. destruct L as [|a T]; intros H.
  - exists []. split; [reflexivity | now left].
  - cbn [map tl] in H.
    assert (HT : filter ui_weighted T = T).
    { clear a. induction T as [|b T IH]; [reflexivity|].
      cbn [map] in H. inversion H as [|? ? Hb HT']; subst.
      cbn [filter]. unfold ui_weighted at 1.
      destruct (Layers.class b); [contradiction| |]; cbn; now rewrite IH. }
    cbn [filter]. rewrite HT. unfold ui_weighted.
    destruct (Layers.class a) eqn:Ha; cbn.
    + exists [a]. split; [reflexivity|]. right. exists a. now split.
    + exists []. split; [reflexivity | now left].
    + exists []. split; [reflexivity | now left].
Qed.

(** *** C2: what the grapher holds after a model switch *)

(** C2, amended.  When model [i] of the sequence loads as a Sequential model
    with at least one layer, [_load_model(grapher, i)] makes it the current
    model and rebuilds the grapher from it.  The state reached is the one
    [process()] reaches from the grapher with an emptied layer list (and the
    top-level properties of model [i]), so it is the same whatever layer list
    [old] the grapher held before; the call returns [i], with
    [current_epoch_index] set to [i], exactly when [process()] returns.
    After the call the top-level properties of the grapher are those of
    model [i], and its layer list is an optional [Input] placeholder followed
    by the [Dense] and [Convo2D] objects of the ['Dense'] and ['Conv2D']
    layers of model [i], in the order of the model, each of the class
    matching the class name of its layer, bearing its name and holding a copy
    of its first weight: all of them when the call returns, the first of
    them when [process()] raises. *)
Theorem load_model_rebuilds_grapher (E : External) (self : KerasModelSequence.t)
  (w : World) (i : Z) (p : string) (model : Model) :
  getitem "list" (KerasModelSequence.model_paths self) i = Ret p ->
  path_exists E p = true ->
  keras_load_model E (path_str E p) = Ret model ->
  is_sequential model = true ->
  layers model <> [] ->
  (forall old,
     KerasModelSequence._load_model E i (self, with_grapher (Grapher.with_layers old) w)
     = KerasModelSequence._load_model E i (self, with_grapher Grapher.reset w))
  /\ KerasModelSequence.current_model
       (fst (fst (KerasModelSequence._load_model E i (self, w)))) = Some model
  /\ snd (fst (KerasModelSequence._load_model E i (self, w)))
     = fst (KerasNetworkExtractor.process E model (KerasModelSequence.test_data self)
              (with_grapher
                 (fun g => Grapher.reset
                             (Grapher.with_properties (keras_model_properties E model) g))
                 w))
  /\ match snd (KerasNetworkExtractor.process E model
                  (KerasModelSequence.test_data self)
                  (with_grapher
                     (fun g => Grapher.reset
                                 (Grapher.with_properties (keras_model_properties E model) g))
                     w)) with
     | Ret _ =>
         snd (KerasModelSequence._load_model E i (self, w)) = Ret i
         /\ current_epoch_index
              (KerasModelSequence.base
                 (fst (fst (KerasModelSequence._load_model E i (self, w))))) = i
     | Raise e => snd (KerasModelSequence._load_model E i (self, w)) = Raise e
     end
  /\ Grapher.properties
       (grapher (snd (fst (KerasModelSequence._load_model E i (self, w)))))
     = keras_model_properties E model
  /\ exists placeholder ws k,
       Grapher.layers
         (grapher (snd (fst (KerasModelSequence._load_model E i (self, w)))))
       = placeholder ++ ws
       /\ (placeholder = []
           \/ exists l, placeholder = [l] /\ Layers.class l = Layers.Input)
       /\ map ui_summary ws
          = map keras_summary (firstn k (filter weighted_class (layers model)))
       /\ (forall j,
             snd (KerasModelSequence._load_model E i (self, w)) = Ret j ->
             map ui_summary ws
             = map keras_summary (filter weighted_class (layers model))).
Proof.
  intros Hp Hex Hload Hseq Hne.
  assert (Hkm : KerasModelSequence._load_keras_model E self i = Ret model).
  { unfold KerasModelSequence._load_keras_model. rewrite Hp; simpl.
    now rewrite Hex. }
  assert (Hrun : forall w0,
    KerasModelSequence._load_model E i (self, w0)
    = match KerasNetworkExtractor.process E model (KerasModelSequence.test_data self)
              (with_grapher
                 (Grapher.with_properties (keras_model_properties E model)) w0) with
      | (w', Ret _) =>
          ((KerasModelSequence.with_base
              (KerasModelSequence.set_current_epoch_index i)
              (KerasModelSequence.with_current_model (Some model) self), w'), Ret i)
      | (w', Raise e) =>
          ((KerasModelSequence.with_current_model (Some model) self, w'), Raise e)
      end).
  { intros w0.
    unfold KerasModelSequence._load_model, bind, get, lift, modify,
      KerasModelSequence.on_self, KerasModelSequence.on_world.
    cbn [fst snd]. rewrite Hkm. cbn [fst snd].
    destruct (KerasNetworkExtractor.process E model
                (KerasModelSequence.test_data self)
                (with_grapher
                   (Grapher.with_properties (keras_model_properties E model)) w0))
      as [w' [[]|e]]; reflexivity. }
  assert (Hsame : forall ls,
    KerasNetworkExtractor.process E model (KerasModelSequence.test_data self)
      (with_grapher (Grapher.with_properties (keras_model_properties E model))
         (with_grapher (Grapher.with_layers ls) w))
    = KerasNetworkExtractor.process E model (KerasModelSequence.test_data self)
        (with_grapher
           (fun g => Grapher.reset
                       (Grapher.with_properties (keras_model_properties E model) g))
           w)).
  { intros ls. unfold KerasNetworkExtractor.process.
    rewrite Hseq. destruct (layers model) as [|kl rest]; [contradiction|].
    reflexivity. }
  assert (Hw : KerasNetworkExtractor.process E model (KerasModelSequence.test_data self)
      (with_grapher (Grapher.with_properties (keras_model_properties E model)) w)
    = KerasNetworkExtractor.process E model (KerasModelSequence.test_data self)
        (with_grapher
           (fun g => Grapher.reset
                       (Grapher.with_properties (keras_model_properties E model) g))
           w)).
  { unfold KerasNetworkExtractor.process.
    rewrite Hseq. destruct (layers model) as [|kl rest]; [contradiction|].
    reflexivity. }
  pose proof (keeps_frame_process E model (KerasModelSequence.test_data self)
                (with_grapher
                   (fun g => Grapher.reset
                               (Grapher.with_properties
                                  (keras_model_properties E model) g)) w)
                _ _ (surjective_pairing _)) as Hframe.
  pose proof (process_input_only_first E model (KerasModelSequence.test_data self)
                (with_grapher
                   (fun g => Grapher.reset
                               (Grapher.with_properties
                                  (keras_model_properties E model) g)) w)
                Hseq Hne) as Hfirst.
  pose proof (process_shows_weighted_layers_in_order E model
                (KerasModelSequence.test_data self)
                (with_grapher
                   (fun g => Grapher.reset
                               (Grapher.with_properties
                                  (keras_model_properties E model) g)) w)
                Hseq Hne) as [[k Hk] Hall].
  split; [|split; [|split; [|split; [|split]]]].
  - intros old. rewrite !Hrun.
    rewrite (Hsame old).
    change (with_grapher Grapher.reset w)
      with (with_grapher (Grapher.with_layers []) w).
    now rewrite (Hsame []).
  - rewrite Hrun, Hw.
    destruct (KerasNetworkExtractor.process E model _ _) as [w' [[]|e]];
      reflexivity.
  - rewrite Hrun, Hw.
    destruct (KerasNetworkExtractor.process E model _ _) as [w' [[]|e]];
      reflexivity.
  - rewrite Hrun, Hw.
    destruct (KerasNetworkExtractor.process E model _ _) as [w' [[]|e]];
      [split|]; reflexivity.
  - rewrite Hrun, Hw.
    destruct (KerasNetworkExtractor.process E model _ _) as [w' [[]|e]];
      cbn [fst snd] in *; unfold frame in Hframe;
      injection Hframe as _ Hprops; exact Hprops.
  - rewrite Hrun, Hw.
    destruct (KerasNetworkExtractor.process E model _ _) as [w' r];
      cbn [fst snd] in *.
    destruct (placeholder_then_weighted (Grapher.layers (grapher w')) Hfirst)
      as (placeholder & Hsplit & Hplace).
    exists placeholder, (filter ui_weighted (Grapher.layers (grapher w'))), k.
    destruct r as [[]|e]; cbn [fst snd];
      (split; [exact Hsplit|]); (split; [exact Hplace|]);
      (split; [exact Hk|]).
    + intros j _. now apply Hall.
    + intros j Hj. discriminate Hj.
Qed.

(** A two-layer checkpoint shown in a grapher that held another model. *)
Lemma load_model_rebuilds_grapher_witness :
  KerasModelSequence._load_model
    (Demo.env ["m.h5"] [("m.h5", Demo.two_dense true)] Demo.no_tape) 0
    (Demo.sequence_of ["m.h5"],
     with_grapher (Grapher.with_layers [Demo.old_layer]) (Demo.start Demo.empty_grapher))
  = KerasModelSequence._load_model
      (Demo.env ["m.h5"] [("m.h5", Demo.two_dense true)] Demo.no_tape) 0
      (Demo.sequence_of ["m.h5"],
       with_grapher Grapher.reset (Demo.start Demo.empty_grapher))
  /\ Grapher.properties
       (grapher
          (snd (fst (KerasModelSequence._load_model
                       (Demo.env ["m.h5"] [("m.h5", Demo.two_dense true)] Demo.no_tape) 0
                       (Demo.sequence_of ["m.h5"], Demo.start Demo.used_grapher)))))
     = [("name", PStr "two_dense")].
Proof.
  split.
  - apply (proj1 (load_model_rebuilds_grapher
                    (Demo.env ["m.h5"] [("m.h5", Demo.two_dense true)] Demo.no_tape)
                    (Demo.sequence_of ["m.h5"]) (Demo.start Demo.empty_grapher)
                    0%Z "m.h5" (Demo.two_dense true)
                    eq_refl eq_refl eq_refl eq_refl
                    ltac:(discriminate))).
  - apply (proj1 (proj2 (proj2 (proj2 (proj2
             (load_model_rebuilds_grapher
                (Demo.env ["m.h5"] [("m.h5", Demo.two_dense true)] Demo.no_tape)
                (Demo.sequence_of ["m.h5"]) (Demo.start Demo.used_grapher)
                0%Z "m.h5" (Demo.two_dense true)
                eq_refl eq_refl eq_refl eq_refl
                ltac:(discriminate))))))).
Defined.

(* ================================================================== *)
(** ** Further properties                                               *)
(* ================================================================== *)

(** *** The activation mapper: [_get_keras_layer] and [get_activation] *)

Section WalkFacts.
Context {KLayer : Type} (get_layer : KLayer -> string -> outcome KLayer).

Lemma last_cons {A} (a d : A) (l : list A) : last (a :: l) d = last l a.
Proof.
  revert a d; induction l as [|b l IH]; intros a d; [reflexivity|].
  change (last (a :: b :: l) d) with (last (b :: l) d).
  rewrite IH. symmetry. apply IH.
Qed.

Lemma walk_segments_found (path : string) (segments : list string) :
  forall cur acc lg lg' l layers,
    KerasActivation.walk_segments get_layer path segments cur acc lg
    = (lg', Ret (Some (l, layers))) ->
    lg' = lg
    /\ exists chain,
         layers = acc ++ chain
         /\ KerasActivation.follows get_layer cur segments chain
         /\ l = last chain cur.
Proof.
  induction segments as [|segment rest IH]; intros cur acc lg lg' l layers H.
  - injection H as <- <- <-. split; [reflexivity|].
    exists []. rewrite app_nil_r. repeat split.
  - cbn [KerasActivation.walk_segments] in H.
    destruct (get_layer cur segment) as [n|e] eqn:Hget.
    + apply IH in H. destruct H as [-> (chain & -> & Hfollows & ->)].
      split; [reflexivity|]. exists (n :: chain).
      rewrite <- app_assoc. cbn [app KerasActivation.follows].
      repeat split; try assumption.
      symmetry. apply last_cons.
    + destruct (KerasActivation.is_ValueError e); discriminate.
Qed.

Lemma walk_segments_missing (path : string) (segments : list string) :
  forall cur acc lg lg',
    KerasActivation.walk_segments get_layer path segments cur acc lg
    = (lg', Ret None) ->
    exists msg, lg' = lg ++ [Log ERROR msg].
Proof.
  induction segments as [|segment rest IH]; intros cur acc lg lg' H.
  - discriminate.
  - cbn [KerasActivation.walk_segments] in H.
    destruct (get_layer cur segment) as [n|e].
    + eapply IH; eassumption.
    + destruct (KerasActivation.is_ValueError e); [|discriminate].
      injection H as <-. eexists; reflexivity.
Qed.

Lemma walk_segments_outcome (p1 p2 : string) (segments : list string) :
  forall cur acc lg1 lg2,
    snd (KerasActivation.walk_segments get_layer p1 segments cur acc lg1)
    = snd (KerasActivation.walk_segments get_layer p2 segments cur acc lg2).
Proof.
  induction segments as [|segment rest IH]; intros cur acc lg1 lg2;
    [reflexivity|].
  cbn [KerasActivation.walk_segments].
  destruct (get_layer cur segment) as [n|e]; [apply IH|].
  destruct (KerasActivation.is_ValueError e); reflexivity.
Qed.

Lemma get_keras_layer_outcome (model : KLayer) (name path : string)
  (lg : list log_record) :
  snd (KerasActivation._get_keras_layer get_layer model name path lg)
  = match snd (KerasActivation.walk_segments get_layer path
                 (filter KerasActivation.non_empty (KerasActivation.split "/" path))
                 model [model] lg) with
    | Ret None => Ret None
    | Ret (Some (cur, layers)) =>
        match get_layer cur name with
        | Ret l => Ret (Some (l, layers))
        | Raise e => if KerasActivation.is_ValueError e then Ret None else Raise e
        end
    | Raise e => Raise e
    end.
Proof.
  unfold KerasActivation._get_keras_layer. cbv zeta. unfold bind at 1.
  destruct (KerasActivation.walk_segments get_layer path _ model [model] lg)
    as [lg1 [[[cur layers]|]|e]]; cbn [snd]; try reflexivity.
  destruct (get_layer cur name) as [l|e]; [reflexivity|].
  destruct (KerasActivation.is_ValueError e); reflexivity.
Qed.

End WalkFacts.

(** When [_get_keras_layer(model, name, path)] finds the layer, it logs
    nothing; the list returned with it starts with the model and goes on with
    the layers that [get_layer] gave for the non-empty segments of the path,
    each asked of the one before it; and the layer returned is the one
    [get_layer] gives for [name] when asked of the last of them. *)
Theorem get_keras_layer_found {KLayer : Type}
  (get_layer : KLayer -> string -> outcome KLayer) (model l : KLayer)
  (name path : string) (layers : list KLayer) (lg lg' : list log_record) :
  KerasActivation._get_keras_layer get_layer model name path lg
  = (lg', Ret (Some (l, layers))) ->
  lg' = lg
  /\ exists chain,
       layers = model :: chain
       /\ KerasActivation.follows get_layer model
            (filter KerasActivation.non_empty (KerasActivation.split "/" path))
            chain
       /\ get_layer (last chain model) name = Ret l.
Proof.
  unfold KerasActivation._get_keras_layer. cbv zeta. unfold bind at 1.
  destruct (KerasActivation.walk_segments get_layer path
              (filter KerasActivation.non_empty (KerasActivation.split "/" path))
              model [model] lg) as [lg1 [[[cur acc]|]|e]] eqn:Hwalk;
    [| discriminate | discriminate].
  apply walk_segments_found in Hwalk.
  destruct Hwalk as [-> (chain & -> & Hfollows & ->)].
  destruct (get_layer (last chain model) name) as [n|e] eqn:Hget.
  - intros H; injection H as <- <- <-.
    split; [reflexivity|].
    exists chain. repeat split; assumption.
  - destruct (KerasActivation.is_ValueError e); discriminate.
Qed.

(** The layer [conv] of the model [block] held by [net]. *)
Lemma get_keras_layer_found_witness :
  exists chain,
    ["net"; "block"] = "net" :: chain
    /\ KerasActivation.follows KerasActivation.net_get_layer "net"
         (filter KerasActivation.non_empty (KerasActivation.split "/" "/block/"))
         chain
    /\ KerasActivation.net_get_layer (last chain "net") "conv" = Ret "conv".
Proof.
  exact (proj2 (get_keras_layer_found KerasActivation.net_get_layer
                  "net" "conv" "conv" "/block/" ["net"; "block"] [] [] eq_refl)).
Defined.

(** When [_get_keras_layer] returns [None], it has logged exactly one error
    record. *)
Theorem get_keras_layer_missing {KLayer : Type}
  (get_layer : KLayer -> string -> outcome KLayer) (model : KLayer)
  (name path : string) (lg lg' : list log_record) :
  KerasActivation._get_keras_layer get_layer model name path lg = (lg', Ret None) ->
  exists msg, lg' = lg ++ [Log ERROR msg].
Proof.
  unfold KerasActivation._get_keras_layer. cbv zeta. unfold bind at 1.
  destruct (KerasActivation.walk_segments get_layer path
              (filter KerasActivation.non_empty (KerasActivation.split "/" path))
              model [model] lg) as [lg1 [[[cur acc]|]|e]] eqn:Hwalk;
    [| | discriminate].
  - apply walk_segments_found in Hwalk. destruct Hwalk as [-> _].
    destruct (get_layer cur name) as [n|e]; [discriminate|].
    destruct (KerasActivation.is_ValueError e); [|discriminate].
    intros H; injection H as <-. eexists; reflexivity.
  - apply walk_segments_missing in Hwalk. intros H; injection H as <-.
    exact Hwalk.
Qed.

Lemma get_keras_layer_missing_witness :
  exists msg,
    [Log ERROR "Fail to find layer dense_9 within path "]
    = [] ++ [Log ERROR msg].
Proof.
  apply (get_keras_layer_missing KerasActivation.net_get_layer
           "net" "dense_9" "" [] [Log ERROR "Fail to find layer dense_9 within path "]
           eq_refl).
Defined.

(** [get_activation] on a layer that [_get_keras_layer] does not find raises
    [TypeError]: the [None] it gets is unpacked as a pair, before the test
    [if not keras_layer].  So [get_activation] returns [None] only when the
    layer was found and the prediction raised [ValueError]. *)
Theorem get_activation_missing_layer {KLayer : Type}
  (get_layer : KLayer -> string -> outcome KLayer)
  (predict : KLayer -> KLayer -> Z -> ndarray -> outcome ndarray)
  (unit_slice : ndarray -> Z -> outcome ndarray)
  (current_model : KLayer) (img : ndarray)
  (layer_name layer_path : string) (unit : option Z) (lg : list log_record) :
  (snd (KerasActivation._get_keras_layer get_layer current_model
          layer_name layer_path lg)
   = Ret None ->
   KerasActivation.get_activation get_layer predict unit_slice current_model img
     layer_name layer_path unit lg
   = (fst (KerasActivation._get_keras_layer get_layer current_model
             layer_name layer_path lg),
      Raise (Exn TypeError "cannot unpack non-iterable NoneType object")))
  /\ (snd (KerasActivation.get_activation get_layer predict unit_slice
             current_model img layer_name layer_path unit lg) = Ret None ->
      exists l layers e,
        snd (KerasActivation._get_keras_layer get_layer current_model
               layer_name layer_path lg)
        = Ret (Some (l, layers))
        /\ predict current_model l (Z.of_nat (List.length layers) - 1)%Z img
           = Raise e
        /\ kind e = ValueError).
Proof.
  assert (Hrun :
    KerasActivation.get_activation get_layer predict unit_slice current_model img
      layer_name layer_path unit lg
    = match KerasActivation._get_keras_layer get_layer current_model
              layer_name layer_path lg with
      | (lg1, Ret None) =>
          (lg1, Raise (Exn TypeError "cannot unpack non-iterable NoneType object"))
      | (lg1, Ret (Some (l, layers))) =>
          match predict current_model l (Z.of_nat (List.length layers) - 1)%Z img with
          | Raise e =>
              if KerasActivation.is_ValueError e then
                (lg1 ++ [Log ERROR ("Fail to predict from input to partial output: "
                                      ++ message e)%string], Ret None)
              else (lg1, Raise e)
          | Ret maps =>
              match unit with
              | None => (lg1, Ret (Some maps))
              | Some u => (lg1, omap Some (unit_slice maps u))
              end
          end
      | (lg1, Raise e) => (lg1, Raise e)
      end).
  { unfold KerasActivation.get_activation. unfold bind at 1.
    destruct (KerasActivation._get_keras_layer get_layer current_model
                layer_name layer_path lg)
      as [lg1 [[[l layers]|]|e]]; try reflexivity.
    destruct (predict current_model l (Z.of_nat (List.length layers) - 1)%Z img)
      as [maps|e].
    - destruct unit as [u|]; [|reflexivity].
      unfold bind, lift. destruct (unit_slice maps u); reflexivity.
    - destruct (KerasActivation.is_ValueError e); reflexivity. }
  rewrite Hrun. clear Hrun.
  destruct (KerasActivation._get_keras_layer get_layer current_model
              layer_name layer_path lg)
    as [lg1 [[[l layers]|]|e]]; cbn [fst snd]; split;
    try (intros H; discriminate H); try (intros _; reflexivity).
  destruct (predict current_model l (Z.of_nat (List.length layers) - 1)%Z img)
    as [maps|e] eqn:Hp.
  - destruct unit as [u|]; [destruct (unit_slice maps u)|];
      cbn [snd omap]; intros H; discriminate H.
  - unfold KerasActivation.is_ValueError.
    destruct (kind e) eqn:Hk; cbn [exn_kind_eqb snd]; intros H;
      try discriminate H.
    exists l, layers, e. repeat split; assumption.
Qed.

Lemma get_activation_missing_layer_witness :
  KerasActivation.get_activation KerasActivation.net_get_layer
    (fun _ _ _ img => Ret img) (fun maps _ => Ret maps)
    "net" (NdArray [2; 2]%Z [1; 2; 3; 4]%Q) "dense_9" "" None []
  = ([Log ERROR "Fail to find layer dense_9 within path "],
     Raise (Exn TypeError "cannot unpack non-iterable NoneType object")).
Proof.
  apply (proj1 (get_activation_missing_layer KerasActivation.net_get_layer
                  (fun _ _ _ img => Ret img) (fun maps _ => Ret maps)
                  "net" (NdArray [2; 2]%Z [1; 2; 3; 4]%Q) "dense_9" "" None [])).
  reflexivity.
Defined.

(** Empty path segments do not count: two paths with the same non-empty
    segments (leading, trailing or doubled slashes apart) give the same
    result, whatever was logged. *)
Theorem get_keras_layer_ignores_empty_segments {KLayer : Type}
  (get_layer : KLayer -> string -> outcome KLayer) (model : KLayer)
  (name p1 p2 : string) (lg1 lg2 : list log_record) :
  filter KerasActivation.non_empty (KerasActivation.split "/" p1)
  = filter KerasActivation.non_empty (KerasActivation.split "/" p2) ->
  snd (KerasActivation._get_keras_layer get_layer model name p1 lg1)
  = snd (KerasActivation._get_keras_layer get_layer model name p2 lg2).
Proof.
  intros Hsame. rewrite !get_keras_layer_outcome. rewrite <- Hsame.
  now rewrite (walk_segments_outcome get_layer p1 p2 _ model [model] lg1 lg2).
Qed.

Lemma get_keras_layer_ignores_empty_segments_witness :
  snd (KerasActivation._get_keras_layer KerasActivation.net_get_layer
         "net" "conv" "block" [])
  = snd (KerasActivation._get_keras_layer KerasActivation.net_get_layer
           "net" "conv" "//block/" []).
Proof.
  apply (get_keras_layer_ignores_empty_segments KerasActivation.net_get_layer
           "net" "conv" "block" "//block/" [] []).
  reflexivity.
Defined.

(** *** [_get_keras_layer_attribute] *)

Lemma dict_get_set_str {V} (d : dict string V) (k k' : string) (v : V) :
  dict_get String.eqb (dict_set String.eqb d k v) k'
  = if String.eqb k k' then Some v else dict_get String.eqb d k'.
Proof.
  induction d as [|[k0 v0] d IH]; simpl; [reflexivity|].
  destruct (String.eqb_spec k0 k) as [->|Hne]; simpl.
  - destruct (String.eqb_spec k k'); reflexivity.
  - rewrite IH. destruct (String.eqb_spec k0 k') as [->|Hne']; [|reflexivity].
    destruct (String.eqb_spec k k'); [congruence | reflexivity].
Qed.

(** Without sub-attributes, [_get_keras_layer_attribute] never raises; and
    when the configuration of the layer is looked into and holds a string, a
    number or a boolean for the attribute, that value is the result, whatever
    the attribute of the layer itself is: the configuration is not a mere
    fall-back. *)
Theorem get_attribute_config_wins (keras_layer : KerasLayer) (attribute : string)
  (look_in_config : bool) :
  (exists v,
     KerasNetworkExtractor._get_keras_layer_attribute keras_layer attribute None
       look_in_config = Ret v)
  /\ (forall cfg c,
        config keras_layer = Some cfg ->
        dict_get String.eqb cfg attribute = Some c ->
        (exists s, c = PStr s) \/ (exists z, c = PInt z)
        \/ (exists q, c = PFloat q) \/ (exists b, c = PBool b) ->
        KerasNetworkExtractor._get_keras_layer_attribute keras_layer attribute None
          true = Ret c).
Proof.
  split.
  - unfold KerasNetworkExtractor._get_keras_layer_attribute. cbv zeta.
    destruct (is_none _); destruct (is_none _); eexists; reflexivity.
  - intros cfg c Hcfg Hc Hscalar.
    unfold KerasNetworkExtractor._get_keras_layer_attribute,
      KerasNetworkExtractor.config_value. cbv zeta.
    rewrite Hcfg, Hc.
    destruct Hscalar as [[s ->]|[[z ->]|[[q ->]|[b ->]]]];
      destruct (is_none _); reflexivity.
Qed.

(** A layer whose [activation] attribute is a function object and whose
    configuration names it. *)
Lemma get_attribute_config_wins_witness :
  KerasNetworkExtractor._get_keras_layer_attribute
    {| class_name := "Activation"; type_repr := "<class 'Activation'>";
       name := "activation"; weights := []; trainable_weights := [];
       input_shape := [None; Some 4%Z]; output_shape := [None; Some 4%Z];
       output_shape_at_0 := [None; Some 4%Z];
       attributes := [("activation", PObj "function" [])];
       bias := None;
       config := Some [("name", PStr "activation"); ("activation", PStr "relu")] |}
    "activation" None true
  = Ret (PStr "relu").
Proof.
  apply (proj2 (get_attribute_config_wins
                  {| class_name := "Activation"; type_repr := "<class 'Activation'>";
                     name := "activation"; weights := []; trainable_weights := [];
                     input_shape := [None; Some 4%Z]; output_shape := [None; Some 4%Z];
                     output_shape_at_0 := [None; Some 4%Z];
                     attributes := [("activation", PObj "function" [])];
                     bias := None;
                     config := Some [("name", PStr "activation");
                                     ("activation", PStr "relu")] |}
                  "activation" true)
               [("name", PStr "activation"); ("activation", PStr "relu")]
               (PStr "relu") eq_refl eq_refl).
  left. now exists "relu".
Defined.

Lemma collect_attributes_get (cls : string) (attrs : dict string pyval)
  (sub_attr : list string) :
  forall ret_attr k,
    dict_get String.eqb
      (KerasNetworkExtractor.collect_attributes (PObj cls attrs) sub_attr ret_attr) k
    = if KerasNetworkExtractor.mem k sub_attr then
        match dict_get String.eqb attrs k with
        | Some a => Some a
        | None => dict_get String.eqb ret_attr k
        end
      else dict_get String.eqb ret_attr k.
Proof.
  induction sub_attr as [|sa rest IH]; intros ret_attr k; [reflexivity|].
  cbn [KerasNetworkExtractor.collect_attributes py_getattr].
  unfold KerasNetworkExtractor.mem in *. cbn [existsb].
  destruct (dict_get String.eqb attrs sa) as [a|] eqn:Hsa.
  - rewrite IH, dict_get_set_str.
    destruct (String.eqb_spec k sa) as [->|Hne]; cbn [orb].
    + rewrite Hsa, String.eqb_refl.
      destruct (existsb (String.eqb sa) rest); reflexivity.
    + destruct (String.eqb_spec sa k) as [Heq|_]; [congruence|]. reflexivity.
  - rewrite IH.
    destruct (String.eqb_spec k sa) as [->|Hne]; cbn [orb]; [|reflexivity].
    rewrite Hsa. destruct (existsb (String.eqb sa) rest); reflexivity.
Qed.

(** With sub-attributes asked of an attribute that is an object, the result
    is a dictionary holding exactly the sub-attributes asked for that the
    object has; the call does not raise, and the configuration of the layer
    plays no part. *)
Theorem get_attribute_sub_attributes (keras_layer : KerasLayer)
  (attribute cls : string) (attrs : dict string pyval) (sub_attr : list string)
  (look_in_config : bool) :
  dict_get String.eqb (attributes keras_layer) attribute = Some (PObj cls attrs) ->
  exists d,
    KerasNetworkExtractor._get_keras_layer_attribute keras_layer attribute
      (Some sub_attr) look_in_config = Ret (PDict d)
    /\ forall k,
         dict_get String.eqb d k
         = if KerasNetworkExtractor.mem k sub_attr
           then dict_get String.eqb attrs k else None.
Proof.
  intros Hattr.
  unfold KerasNetworkExtractor._get_keras_layer_attribute. cbv zeta.
  rewrite Hattr. cbn [is_none].
  eexists. split; [reflexivity|].
  intros k. rewrite collect_attributes_get. cbn [dict_get].
  destruct (KerasNetworkExtractor.mem k sub_attr); [|reflexivity].
  destruct (dict_get String.eqb attrs k); reflexivity.
Qed.

Lemma get_attribute_sub_attributes_witness :
  exists d,
    KerasNetworkExtractor._get_keras_layer_attribute
      {| class_name := "Dense"; type_repr := "<class 'Dense'>";
         name := "dense"; weights := []; trainable_weights := [];
         input_shape := [None; Some 4%Z]; output_shape := [None; Some 2%Z];
         output_shape_at_0 := [None; Some 2%Z];
         attributes :=
           [("kernel_regularizer",
             PObj "L1L2" [("l1", PFloat 0); ("l2", PFloat (1 # 100))])];
         bias := None; config := None |}
      "kernel_regularizer" (Some ["l1"; "l2"]) true = Ret (PDict d)
    /\ dict_get String.eqb d "l2" = Some (PFloat (1 # 100)).
Proof.
  destruct (get_attribute_sub_attributes
              {| class_name := "Dense"; type_repr := "<class 'Dense'>";
                 name := "dense"; weights := []; trainable_weights := [];
                 input_shape := [None; Some 4%Z]; output_shape := [None; Some 2%Z];
                 output_shape_at_0 := [None; Some 2%Z];
                 attributes :=
                   [("kernel_regularizer",
                     PObj "L1L2" [("l1", PFloat 0); ("l2", PFloat (1 # 100))])];
                 bias := None; config := None |}
              "kernel_regularizer" "L1L2"
              [("l1", PFloat 0); ("l2", PFloat (1 # 100))] ["l1"; "l2"] true
              eq_refl) as (d & Hd & Hget).
  exists d. split; [exact Hd | exact (Hget "l2")].
Defined.

Lemma collect_items_first_missing (d : dict string pyval) (present : list string)
  (sa : string) (rest : list string) :
  (forall k, In k present -> dict_get String.eqb d k <> None) ->
  dict_get String.eqb d sa = None ->
  forall ret_attr,
    KerasNetworkExtractor.collect_items (PDict d) (present ++ sa :: rest) ret_attr
    = Raise (Exn KeyError ("'" ++ sa ++ "'")%string).
Proof.
  intros Hpresent Hmissing.
  induction present as [|k present IH]; intros ret_attr.
  - cbn [app KerasNetworkExtractor.collect_items py_subscript_str].
    unfold getitem_str. rewrite Hmissing. reflexivity.
  - cbn [app KerasNetworkExtractor.collect_items py_subscript_str].
    unfold getitem_str.
    destruct (dict_get String.eqb d k) as [a|] eqn:Hk.
    + apply IH. intros k' Hk'. apply Hpresent. now right.
    + exfalso. apply (Hpresent k); [now left | exact Hk].
Qed.

(** When the layer lacks the attribute and its configuration holds, under
    the key ['config'], a dictionary that misses one of the sub-attributes
    asked for, the call raises [KeyError] for the first one missing: the
    [except AttributeError] of the second loop does not cover it. *)
Theorem get_attribute_config_KeyError (keras_layer : KerasLayer)
  (attribute : string) (cfg entries d : dict string pyval)
  (present : list string) (sa : string) (rest : list string) :
  dict_get String.eqb (attributes keras_layer) attribute = None ->
  config keras_layer = Some cfg ->
  dict_get String.eqb cfg attribute = Some (PDict entries) ->
  dict_get String.eqb entries "config" = Some (PDict d) ->
  (forall k, In k present -> dict_get String.eqb d k <> None) ->
  dict_get String.eqb d sa = None ->
  KerasNetworkExtractor._get_keras_layer_attribute keras_layer attribute
    (Some (present ++ sa :: rest)) true
  = Raise (Exn KeyError ("'" ++ sa ++ "'")%string).
Proof.
  intros Hattr Hcfg Hentry Hconfig Hpresent Hmissing.
  unfold KerasNetworkExtractor._get_keras_layer_attribute,
    KerasNetworkExtractor.config_value. cbv zeta.
  rewrite Hattr, Hcfg, Hentry, Hconfig. cbn [is_none].
  now rewrite (collect_items_first_missing d present sa rest Hpresent Hmissing).
Qed.

(** A saved layer whose kernel regularizer is configured with [l2] only. *)
Lemma get_attribute_config_KeyError_witness :
  KerasNetworkExtractor._get_keras_layer_attribute
    {| class_name := "Dense"; type_repr := "<class 'Dense'>";
       name := "dense"; weights := []; trainable_weights := [];
       input_shape := [None; Some 4%Z]; output_shape := [None; Some 2%Z];
       output_shape_at_0 := [None; Some 2%Z];
       attributes := []; bias := None;
       config :=
         Some [("kernel_regularizer",
                PDict [("class_name", PStr "L2");
                       ("config", PDict [("l2", PFloat (1 # 100))])])] |}
    "kernel_regularizer" (Some ["l1"; "l2"]) true
  = Raise (Exn KeyError "'l1'").
Proof.
  apply (get_attribute_config_KeyError
           {| class_name := "Dense"; type_repr := "<class 'Dense'>";
              name := "dense"; weights := []; trainable_weights := [];
              input_shape := [None; Some 4%Z]; output_shape := [None; Some 2%Z];
              output_shape_at_0 := [None; Some 2%Z];
              attributes := []; bias := None;
              config :=
                Some [("kernel_regularizer",
                       PDict [("class_name", PStr "L2");
                              ("config", PDict [("l2", PFloat (1 # 100))])])] |}
           "kernel_regularizer"
           [("kernel_regularizer",
             PDict [("class_name", PStr "L2");
                    ("config", PDict [("l2", PFloat (1 # 100))])])]
           [("class_name", PStr "L2"); ("config", PDict [("l2", PFloat (1 # 100))])]
           [("l2", PFloat (1 # 100))] [] "l1" ["l2"]
           eq_refl eq_refl eq_refl eq_refl).
  - intros k [].
  - reflexivity.
Defined.

(** *** [_process_add_layer]: a regularizer without [l1] *)

(** When the kernel regularizer of a layer is an object without an attribute
    [l1] (the two other regularizers being absent), [_process_add_layer]
    raises [KeyError]: the dictionary of its sub-attributes has no key
    ['l1'], which [reg['l1']] reads first.  The layer is not added to the
    grapher. *)
Theorem process_add_layer_regularizer_KeyError (E : External)
  (layer : Layers.AbstractLayer) (keras_layer : KerasLayer)
  (layer_training_props layer_input_props : dict string pyval)
  (cls : string) (attrs : dict string pyval) (w : World) :
  KerasNetworkExtractor._get_keras_layer_attribute keras_layer
    "activity_regularizer" (Some ["l1"; "l2"]) true = Ret PNone ->
  KerasNetworkExtractor._get_keras_layer_attribute keras_layer
    "bias_regularizer" (Some ["l1"; "l2"]) true = Ret PNone ->
  dict_get String.eqb (attributes keras_layer) "kernel_regularizer"
  = Some (PObj cls attrs) ->
  dict_get String.eqb attrs "l1" = None ->
  KerasNetworkExtractor._process_add_layer E layer keras_layer
    layer_training_props layer_input_props w
  = (w, Raise (Exn KeyError "'l1'")).
Proof.
  intros Hact Hbias Hkernel Hl1.
  destruct (get_attribute_sub_attributes keras_layer "kernel_regularizer" cls attrs
              ["l1"; "l2"] true Hkernel) as (d & Hd & Hget).
  assert (Hval : KerasNetworkExtractor.regularizer_value E (PDict d)
                 = Raise (Exn KeyError "'l1'")).
  { unfold KerasNetworkExtractor.regularizer_value. cbn [is_none py_subscript_str].
    unfold getitem_str. rewrite (Hget "l1"). cbn. now rewrite Hl1. }
  unfold KerasNetworkExtractor._process_add_layer, bind, lift,
    KerasNetworkExtractor.prepare_layer. cbv zeta.
  cbn [KerasNetworkExtractor.regularizers].
  rewrite Hact. cbn [obind KerasNetworkExtractor.regularizer_value is_none truthy].
  rewrite Hbias. cbn [obind KerasNetworkExtractor.regularizer_value is_none truthy].
  rewrite Hd. cbn [obind]. rewrite Hval. reflexivity.
Qed.

Lemma process_add_layer_regularizer_KeyError_witness :
  KerasNetworkExtractor._process_add_layer (Demo.env [] [] Demo.no_tape)
    (Layers.new_weighted Layers.Dense "dense" (PInt 2)
       (NdArray [4; 2]%Z [1; 2; 3; 4; 5; 6; 7; 8]%Q) None "default")
    {| class_name := "Dense"; type_repr := "<class 'Dense'>";
       name := "dense"; weights := []; trainable_weights := [];
       input_shape := [None; Some 4%Z]; output_shape := [None; Some 2%Z];
       output_shape_at_0 := [None; Some 2%Z];
       attributes := [("kernel_regularizer", PObj "L2" [("l2", PFloat (1 # 100))])];
       bias := None; config := None |}
    [] [] (Demo.start Demo.empty_grapher)
  = (Demo.start Demo.empty_grapher, Raise (Exn KeyError "'l1'")).
Proof.
  apply (process_add_layer_regularizer_KeyError (Demo.env [] [] Demo.no_tape)
           (Layers.new_weighted Layers.Dense "dense" (PInt 2)
              (NdArray [4; 2]%Z [1; 2; 3; 4; 5; 6; 7; 8]%Q) None "default")
           {| class_name := "Dense"; type_repr := "<class 'Dense'>";
              name := "dense"; weights := []; trainable_weights := [];
              input_shape := [None; Some 4%Z]; output_shape := [None; Some 2%Z];
              output_shape_at_0 := [None; Some 2%Z];
              attributes :=
                [("kernel_regularizer", PObj "L2" [("l2", PFloat (1 # 100))])];
              bias := None; config := None |}
           [] [] "L2" [("l2", PFloat (1 # 100))] (Demo.start Demo.empty_grapher));
    reflexivity.
Defined.

(** *** The model sequence: edge cases of [load_sequence] and [_load_model] *)



Lemma getitem_out_of_range {A} (what : string) (l : list A) (i : Z) :
  (Z.of_nat (List.length l) <= i \/ i < - Z.of_nat (List.length l))%Z ->
  getitem what l i = Raise (index_error what).
Proof.
  intros H. unfold getitem.
  destruct (Z.ltb_spec i 0) as [Hneg|Hpos].
  - destruct (Z.leb_spec 0 (i + Z.of_nat (List.length l))) as [Hle|Hlt];
      [|reflexivity].
    destruct (Z.ltb_spec (i + Z.of_nat (List.length l)) (Z.of_nat (List.length l)))
      as [Hlt|Hge]; [|reflexivity].
    exfalso. lia.
  - destruct (Z.leb_spec 0 i) as [Hle|Hlt]; [|reflexivity].
    destruct (Z.ltb_spec i (Z.of_nat (List.length l))) as [Hlt|Hge]; [|reflexivity].
    exfalso. lia.
Qed.

(** A model index outside the sequence ([i >= len(model_paths)] or
    [i < -len(model_paths)]) makes [_load_model] raise [IndexError], not
    [ModelError], and nothing is changed: neither the current model, nor the
    epoch index, nor the grapher. *)
Theorem load_model_index_out_of_range (E : External)
  (s : KerasModelSequence.session) (i : Z) :
  (Z.of_nat (List.length (KerasModelSequence.model_paths (fst s))) <= i
   \/ i < - Z.of_nat (List.length (KerasModelSequence.model_paths (fst s))))%Z ->
  KerasModelSequence._load_model E i s
  = (s, Raise (Exn IndexError "list index out of range")).
Proof.
  intros H.
  unfold KerasModelSequence._load_model, bind, get, lift,
    KerasModelSequence._load_keras_model.
  rewrite (getitem_out_of_range "list" _ i H). reflexivity.
Qed.

Lemma load_model_index_out_of_range_witness :
  KerasModelSequence._load_model
    (Demo.env ["m.h5"] [("m.h5", Demo.two_dense true)] Demo.no_tape) 1
    (Demo.sequence_of ["m.h5"], Demo.start Demo.used_grapher)
  = ((Demo.sequence_of ["m.h5"], Demo.start Demo.used_grapher),
     Raise (Exn IndexError "list index out of range")).
Proof.
  apply (load_model_index_out_of_range
           (Demo.env ["m.h5"] [("m.h5", Demo.two_dense true)] Demo.no_tape)
           (Demo.sequence_of ["m.h5"], Demo.start Demo.used_grapher) 1).
  left. cbn. lia.
Defined.

(** When the model loaded is not a Sequential model, [_load_model] raises
    the [ModelError] of [process()] after two assignments that stay: the
    model is the current model of the sequence and its properties are the
    top-level properties of the grapher, whereas the layer list of the
    grapher and [current_epoch_index] are those of the model shown before. *)
Theorem load_model_not_sequential (E : External) (self : KerasModelSequence.t)
  (w : World) (i : Z) (model : Model) :
  KerasModelSequence._load_keras_model E self i = Ret model ->
  is_sequential model = false ->
  KerasModelSequence._load_model E i (self, w)
  = ((KerasModelSequence.with_current_model (Some model) self,
      with_grapher (Grapher.with_properties (keras_model_properties E model)) w),
     Raise (Exn ModelError ("Unexpected model of type '" ++ model_type model
                              ++ "', expecting Sequential model")%string)).
Proof.
  intros Hkm Hseq.
  unfold KerasModelSequence._load_model, bind, get, lift, modify,
    KerasModelSequence.on_self, KerasModelSequence.on_world,
    KerasNetworkExtractor.process.
  cbn [fst snd]. rewrite Hkm. cbn [fst snd]. rewrite Hseq. reflexivity.
Qed.

Lemma load_model_not_sequential_witness :
  KerasModelSequence._load_model
    (Demo.env ["f.h5"] [("f.h5", Demo.functional)] Demo.no_tape) 0
    (Demo.sequence_of ["f.h5"], Demo.start Demo.used_grapher)
  = ((KerasModelSequence.with_current_model (Some Demo.functional)
        (Demo.sequence_of ["f.h5"]),
      with_grapher (Grapher.with_properties [("name", PStr "functional")])
        (Demo.start Demo.used_grapher)),
     Raise (Exn ModelError
              "Unexpected model of type '<class 'tensorflow.python.keras.engine.functional.Functional'>', expecting Sequential model")).
Proof.
  apply (load_model_not_sequential
           (Demo.env ["f.h5"] [("f.h5", Demo.functional)] Demo.no_tape)
           (Demo.sequence_of ["f.h5"]) (Demo.start Demo.used_grapher) 0
           Demo.functional eq_refl eq_refl).
Defined.



(** *** [list_models] when nothing fails *)

Lemma insert_sorted_permutation {A} (leb : A -> A -> bool) (a : A) (l : list A) :
  Permutation (insert_sorted leb a l) (a :: l).
Proof.
  induction l as [|b l IH]; simpl; [reflexivity|].
  destruct (leb a b); [reflexivity|].
  rewrite IH. apply perm_swap.
Qed.

Lemma sort_permutation {A} (leb : A -> A -> bool) (l : list A) :
  Permutation (sort leb l) l.
Proof.
  induction l as [|a l IH]; simpl; [reflexivity|].
  rewrite insert_sorted_permutation. now constructor.
Qed.

Lemma insert_sorted_Sorted {A} (leb : A -> A -> bool) (a : A) (l : list A) :
  (forall x y, leb x y = false -> leb y x = true) ->
  Sorted (fun x y => leb x y = true) l ->
  Sorted (fun x y => leb x y = true) (insert_sorted leb a l).
Proof.
  intros Htotal. induction l as [|b l IH]; simpl; intros H.
  - repeat constructor.
  - destruct (leb a b) eqn:Hab.
    + constructor; [exact H | constructor; exact Hab].
    + inversion H as [|? ? Hs Hhd]; subst.
      constructor; [apply IH; exact Hs|].
      destruct l as [|c l]; simpl.
      * constructor. apply Htotal; exact Hab.
      * destruct (leb a c); constructor.
        -- apply Htotal; exact Hab.
        -- inversion Hhd; assumption.
Qed.

Lemma sort_Sorted {A} (leb : A -> A -> bool) (l : list A) :
  (forall x y, leb x y = false -> leb y x = true) ->
  Sorted (fun x y => leb x y = true) (sort leb l).
Proof.
  intros Htotal. induction l as [|a l IH]; simpl; [constructor|].
  now apply insert_sorted_Sorted.
Qed.

Lemma string_leb_total (a b : string) :
  string_leb a b = false -> string_leb b a = true.
Proof.
  unfold string_leb. rewrite (String.compare_antisym a b).
  destruct (String.compare b a); simpl; congruence.
Qed.

(** One directory: the files matching [*.h5] and [*.tf] are added to the
    list, and nothing is logged. *)
Lemma list_directory_gathers (E : External) (pattern p1 p2 path : string)
  (s s' : KerasModelSequence.listing) (r : outcome unit) :
  KerasModelSequence.list_directory E pattern p1 p2 path tt s = (s', r) ->
  snd s' = snd s
  /\ exists more,
       fst s' = fst s ++ glob_glob E (path_join E path "*.h5")
                      ++ glob_glob E (path_join E path "*.tf") ++ more.
Proof.
  unfold KerasModelSequence.list_directory, KerasModelSequence.extend,
    bind, modify, lift. cbv zeta. cbn [fst snd].
  destruct (re_compile E p2) as [[]|e].
  - destruct (comprehension (fun p => KerasModelSequence.search_group E p2 p 1)
                (glob_glob E (path_join E path p1))) as [found|e];
      intros H; injection H as <- _; cbn [fst snd]; (split; [reflexivity|]).
    + eexists. rewrite <- !app_assoc. reflexivity.
    + exists []. rewrite app_nil_r, <- app_assoc. reflexivity.
  - intros H; injection H as <- _; cbn [fst snd]. split; [reflexivity|].
    exists []. rewrite app_nil_r, <- app_assoc. reflexivity.
Qed.

Lemma list_directories_gather (E : External) (pattern p1 p2 : string)
  (directories : list string) :
  forall s s',
    for_each directories (KerasModelSequence.list_directory E pattern p1 p2) tt s
    = (s', Ret tt) ->
    snd s' = snd s
    /\ incl (fst s) (fst s')
    /\ forall d p,
         In d directories ->
         In p (glob_glob E (path_join E d "*.h5"))
         \/ In p (glob_glob E (path_join E d "*.tf")) ->
         In p (fst s').
Proof.
  induction directories as [|d ds IH]; intros s s' H.
  - injection H as <-. split; [reflexivity|]. split; [apply incl_refl|].
    intros d p [].
  - cbn [for_each] in H. unfold bind in H.
    destruct (KerasModelSequence.list_directory E pattern p1 p2 d tt s)
      as [s1 [[]|e]] eqn:Hd; [|discriminate].
    apply list_directory_gathers in Hd. destruct Hd as [Hlog (more & Hmodels)].
    destruct (IH _ _ H) as (Hlog' & Hincl & Hall).
    split; [congruence|]. split.
    + intros p Hp. apply Hincl. rewrite Hmodels. apply in_or_app. now left.
    + intros d0 p [<-|Hd0] Hp.
      * apply Hincl. rewrite Hmodels. apply in_or_app. right.
        destruct Hp as [Hp|Hp].
        -- apply in_or_app. now left.
        -- apply in_or_app. right. apply in_or_app. now left.
      * eapply Hall; eassumption.
Qed.

(** When [list_models] returns a list, nothing was logged, the list is in
    ascending order and holds every [*.h5] and [*.tf] file found in each of
    the directories. *)
Theorem list_models_returns (E : External) (directories : list string)
  (pattern : string) (logged lg : list log_record) (models : list string) :
  KerasModelSequence.list_models E directories pattern logged = (lg, Ret models) ->
  lg = logged
  /\ Sorted (fun a b => string_leb a b = true) models
  /\ forall d p,
       In d directories ->
       In p (glob_glob E (path_join E d "*.h5"))
       \/ In p (glob_glob E (path_join E d "*.tf")) ->
       In p models.
Proof.
  intros H.
  destruct (for_each directories
              (KerasModelSequence.list_directory E pattern
                 (replace (replace pattern "{model}" "*") "{epoch}" "[0-9]*")
                 (replace (replace pattern "{model}" "(\w+)") "{epoch}" "([0-9]+)"))
              tt ([], logged)) as [s [[]|e]] eqn:Hwalk.
  - assert (Hrun : KerasModelSequence.list_models E directories pattern logged
                   = (snd s, Ret (sort string_leb (fst s)))).
    { unfold KerasModelSequence.list_models, bind, try_except, get, ret.
      rewrite Hwalk. destruct s as [found lg0]. reflexivity. }
    rewrite Hrun in H. injection H as <- <-.
    apply list_directories_gather in Hwalk. destruct Hwalk as (Hlog & _ & Hall).
    split; [exact Hlog|]. split.
    + apply sort_Sorted. exact string_leb_total.
    + intros d p Hd Hp.
      apply (Permutation_in p (Permutation_sym (sort_permutation string_leb (fst s)))).
      eapply Hall; eassumption.
  - rewrite (list_models_handler_raises E directories pattern logged s e Hwalk) in H.
    discriminate H.
Qed.

Lemma list_models_returns_witness :
  Sorted (fun a b => string_leb a b = true)
    ["models/a.h5"; "models/b.h5"; "models/c.tf"; "models/run_{epoch}"].
Proof.
  apply (proj1 (proj2 (list_models_returns
           (Demo.env ["models/b.h5"; "models/run_2"; "models/c.tf"; "models/a.h5";
                      "models/run_1"] [] Demo.no_tape)
           ["models"] KerasModelSequence.default_pattern [] []
           ["models/a.h5"; "models/b.h5"; "models/c.tf"; "models/run_{epoch}"]
           eq_refl))).
Defined.

(** *** [process]: the names of the output units *)

Lemma update_nth_last {A} (f : A -> A) (init : list A) (a : A) :
  KerasNetworkExtractor.update_nth (List.length init) f (init ++ [a])
  = init ++ [f a].
Proof.
  induction init as [|b init IH]; [reflexivity|].
  cbn [List.length app KerasNetworkExtractor.update_nth]. now rewrite IH.
Qed.

Lemma set_output_classes_names (test_data : TestData) (names : list string)
  (w w' : World) :
  output_classes test_data = Some names ->
  KerasNetworkExtractor.set_output_classes test_data w = (w', Ret tt) ->
  exists ls l,
    Grapher.layers (grapher w) = ls ++ [l]
    /\ Grapher.layers (grapher w') = ls ++ [Layers.with_unit_names (Some names) l].
Proof.
  intros Hnames. unfold KerasNetworkExtractor.set_output_classes.
  rewrite Hnames. cbv zeta.
  unfold bind, get, lift, KerasNetworkExtractor.update_layer, modify.
  destruct (Grapher.layers (grapher w)) as [|a0 rest] eqn:HL.
  - discriminate.
  - destruct (@exists_last _ (a0 :: rest) ltac:(discriminate)) as (init & a & Hlast).
    rewrite Hlast.
    destruct (getitem "list" (init ++ [a]) (-1)) as [x|e]; [|discriminate].
    intros H; injection H as <-.
    exists init, a. split; [reflexivity|].
    cbn [grapher with_grapher Grapher.layers Grapher.with_layers].
    rewrite HL, Hlast.
    replace (List.length (init ++ [a]) - 1)%nat with (List.length init)
      by (rewrite length_app; cbn [List.length]; lia).
    apply update_nth_last.
Qed.

(** When [process()] returns and the test data name the output classes, the
    grapher holds at least one layer and its last layer bears these names as
    [unit_names]. *)
Theorem process_names_output_units (E : External) (model : Model)
  (test_data : TestData) (names : list string) (w w' : World) :
  is_sequential model = true ->
  layers model <> [] ->
  output_classes test_data = Some names ->
  KerasNetworkExtractor.process E model test_data w = (w', Ret tt) ->
  exists ls l,
    Grapher.layers (grapher w') = ls ++ [l]
    /\ Layers.unit_names l = Some names.
Proof.
  intros Hseq Hne Hnames.
  assert (Hrun : KerasNetworkExtractor.process E model test_data w
                 = match KerasNetworkExtractor.compute_gradients E model test_data
                           (with_grapher Grapher.reset w) with
                   | (w1, Ret grads) =>
                       KerasNetworkExtractor.build_layers E model test_data
                         (Grapher.theme (grapher w)) grads w1
                   | (w1, Raise e) => (w1, Raise e)
                   end).
  { unfold KerasNetworkExtractor.process.
    rewrite Hseq. destruct (layers model) as [|kl ls]; [contradiction|].
    reflexivity. }
  rewrite Hrun.
  destruct (KerasNetworkExtractor.compute_gradients E model test_data
              (with_grapher Grapher.reset w)) as [w1 [grads|e]]; [|discriminate].
  unfold KerasNetworkExtractor.build_layers. unfold bind at 1.
  destruct (KerasNetworkExtractor.input_placeholder model
              (Grapher.theme (grapher w)) test_data w1) as [w2 [previous|e]];
    [|discriminate].
  unfold bind at 1.
  destruct (for_each (layers model) _ _ w2) as [w3 [st|e]]; [|discriminate].
  intros H.
  destruct (set_output_classes_names test_data names w3 w' Hnames H)
    as (ls & l & _ & Hlayers).
  exists ls, (Layers.with_unit_names (Some names) l).
  split; [exact Hlayers | reflexivity].
Qed.

Lemma process_names_output_units_witness :
  exists ls l,
    Grapher.layers
      (grapher (fst (KerasNetworkExtractor.process (Demo.env [] [] Demo.no_tape)
                       (Demo.two_dense true) Demo.classified_sample
                       (Demo.start Demo.empty_grapher))))
    = ls ++ [l]
    /\ Layers.unit_names l = Some ["cat"].
Proof.
  apply (process_names_output_units (Demo.env [] [] Demo.no_tape)
           (Demo.two_dense true) Demo.classified_sample ["cat"]
           (Demo.start Demo.empty_grapher)
           (fst (KerasNetworkExtractor.process (Demo.env [] [] Demo.no_tape)
                   (Demo.two_dense true) Demo.classified_sample
                   (Demo.start Demo.empty_grapher)))
           eq_refl ltac:(discriminate) eq_refl).
  vm_compute. reflexivity.
Defined.

(** *** [process]: the caption of a dropout layer *)

Lemma regularizers_training_props (E : External) (keras_layer : KerasLayer)
  (k : string) (reg_attrs : list string) :
  ~ In k reg_attrs ->
  forall layer layer',
    KerasNetworkExtractor.regularizers E keras_layer reg_attrs layer = Ret layer' ->
    dict_get String.eqb (Layers.training_props layer') k
    = dict_get String.eqb (Layers.training_props layer) k.
Proof.
  induction reg_attrs as [|a rest IH]; intros Hk layer layer' H.
  - injection H as <-. reflexivity.
  - cbn [KerasNetworkExtractor.regularizers] in H.
    destruct (KerasNetworkExtractor._get_keras_layer_attribute keras_layer a
                (Some ["l1"; "l2"]) true) as [reg|e]; [|discriminate].
    cbn [obind] in H.
    destruct (KerasNetworkExtractor.regularizer_value E reg) as [value|e];
      [|discriminate].
    cbn [obind] in H. apply IH in H; [|intros Hin; apply Hk; now right].
    rewrite H. destruct (truthy value); [|reflexivity].
    cbn [Layers.set_training_prop Layers.with_training_props Layers.training_props].
    rewrite dict_get_set_str.
    destruct (String.eqb_spec a k) as [->|_]; [|reflexivity].
    exfalso. apply Hk. now left.
Qed.

Lemma prepare_layer_training_props (E : External)
  (layer layer' : Layers.AbstractLayer) (keras_layer : KerasLayer)
  (tp ip : dict string pyval) (k : string) :
  ~ In k ["activity_regularizer"; "bias_regularizer"; "kernel_regularizer"] ->
  KerasNetworkExtractor.prepare_layer E layer keras_layer tp ip = Ret layer' ->
  dict_get String.eqb (Layers.training_props layer') k
  = dict_get String.eqb (dict_update String.eqb (Layers.training_props layer) tp) k.
Proof.
  intros Hk. unfold KerasNetworkExtractor.prepare_layer. cbv zeta.
  match goal with
  | |- obind (KerasNetworkExtractor.regularizers E keras_layer ?attrs ?l0) _ = _ -> _ =>
      destruct (KerasNetworkExtractor.regularizers E keras_layer attrs l0)
        as [l1|e] eqn:Hreg; [|discriminate]
  end.
  apply (regularizers_training_props E keras_layer k _ Hk) in Hreg. cbn [obind].
  destruct (KerasNetworkExtractor._get_keras_layer_attribute keras_layer
              "activation" None true) as [activation|e]; [|discriminate].
  cbn [obind]. intros H. injection H as <-.
  transitivity (dict_get String.eqb (Layers.training_props l1) k); [|exact Hreg].
  destruct (is_none activation);
    destruct (match dict_get String.eqb (attributes keras_layer) "use_bias" with
              | Some b => truthy b
              | None => true
              end);
    destruct (bias keras_layer); reflexivity.
Qed.

Lemma map_update_nth {A B} (g : A -> B) (f : A -> A) (i : nat) (l : list A) :
  (forall a, g (f a) = g a) ->
  map g (KerasNetworkExtractor.update_nth i f l) = map g l.
Proof.
  intros Hf. revert i; induction l as [|a l IH]; intros i; [destruct i; reflexivity|].
  destruct i as [|i]; simpl; [now rewrite Hf | now rewrite IH].
Qed.

(** A modification that leaves the training properties of every layer of
    the grapher as they are. *)
Ltac training_kept :=
  first [ reflexivity
        | cbn [grapher with_grapher Grapher.layers Grapher.with_layers];
          apply map_update_nth; intros ?; reflexivity ].

(** When the branch of a ['Dense'] or ['Conv2D'] layer returns, the layer
    list has one more layer, at its end, and the training properties of that
    layer hold what was pending under every key that is not the name of a
    regularizer. *)
Lemma weighted_branch_training_props (E : External) (c : Layers.layer_class)
  (keras_layer : KerasLayer) (grads : option (list (option ndarray)))
  (theme : Theme) (st : KerasNetworkExtractor.locals) (w w' : World)
  (p : option nat) :
  KerasNetworkExtractor.weighted_branch E c keras_layer grads theme st w
  = (w', Ret p) ->
  exists tpl,
    map Layers.training_props (Grapher.layers (grapher w'))
    = map Layers.training_props (Grapher.layers (grapher w)) ++ [tpl]
    /\ forall k,
         ~ In k ["activity_regularizer"; "bias_regularizer"; "kernel_regularizer"] ->
         dict_get String.eqb tpl k
         = dict_get String.eqb
             (dict_update String.eqb [] (KerasNetworkExtractor.layer_training_props st))
             k.
Proof.
  unfold KerasNetworkExtractor.weighted_branch.
  unfold bind at 1. unfold lift at 1.
  destruct (KerasNetworkExtractor.new_layer c keras_layer grads
              (KerasNetworkExtractor.idx_grads st) theme) as [layer|e] eqn:Hnew;
    [|discriminate].
  assert (Hc : Layers.training_props layer = []).
  { revert Hnew. unfold KerasNetworkExtractor.new_layer.
    destruct (getitem "tuple" (output_shape keras_layer) (-1)) as [n|e0];
      [|discriminate].
    cbn [obind].
    destruct (getitem "list" (weights keras_layer) 0) as [k|e0]; [|discriminate].
    cbn [obind].
    destruct (KerasNetworkExtractor.grads_arg grads
                (KerasNetworkExtractor.idx_grads st)) as [g|e0]; [|discriminate].
    cbn [obind]. intros H; injection H as <-. reflexivity. }
  unfold bind at 1. unfold KerasNetworkExtractor._process_add_layer.
  unfold bind at 1. unfold lift at 1.
  destruct (KerasNetworkExtractor.prepare_layer E layer keras_layer
              (KerasNetworkExtractor.layer_training_props st)
              (KerasNetworkExtractor.layer_input_props st)) as [layer1|e] eqn:Hprep;
    [|discriminate].
  destruct (KerasNetworkExtractor.add_layer layer1 w) as [w1 [i|e]] eqn:Hw1;
    [|discriminate Hw1].
  unfold KerasNetworkExtractor.add_layer in Hw1. injection Hw1 as Hw1 Hi.
  intros H.
  match type of H with
  | ?rest _ = _ =>
      assert (Hk : keeps (fun w0 => map Layers.training_props
                                      (Grapher.layers (grapher w0))) rest)
        by (destruct c; unfold KerasNetworkExtractor.update_layer;
            repeat keeps_step ltac:(training_kept))
  end.
  exists (Layers.training_props layer1). split.
  - rewrite (Hk _ _ _ H), <- Hw1.
    cbn [grapher with_grapher Grapher.layers Grapher.add_layer Grapher.with_layers].
    now rewrite map_app.
  - intros k Hkey.
    rewrite (prepare_layer_training_props E layer layer1 keras_layer _ _ k Hkey Hprep).
    now rewrite Hc.
Qed.

Lemma map_eq_snoc {A B} (g : A -> B) (L : list A) (front : list B) (b : B) :
  map g L = front ++ [b] ->
  exists ls l, L = ls ++ [l] /\ map g ls = front /\ g l = b.
Proof.
  intros H. apply map_eq_app in H.
  destruct H as (ls & tail & -> & Hls & Htail).
  destruct tail as [|l [|l' tail]]; try discriminate.
  injection Htail as Hl. exists ls, l. repeat split; assumption.
Qed.

(** The caption of a dropout layer goes to the layer added next.  When the
    turn of a layer of one of the dropout classes returns, and the turn of
    the ['Dense'] or ['Conv2D'] layer that follows it returns, the UI layer
    added last bears, as training property ['dropout'], the caption of the
    dropout class followed by the rate of the dropout layer between
    parentheses (['-'] without a rate), and nothing is pending any more. *)
Theorem dropout_caption_on_next_layer (E : External)
  (grads : option (list (option ndarray))) (theme : Theme) (test_data : TestData)
  (dropout keras_layer : KerasLayer) (st st1 st2 : KerasNetworkExtractor.locals)
  (w w1 w2 : World) :
  KerasNetworkExtractor.mem (class_name dropout)
    KerasNetworkExtractor._dropout_layers = true ->
  weighted_class keras_layer = true ->
  KerasNetworkExtractor.loop_body E grads theme test_data dropout st w
  = (w1, Ret st1) ->
  KerasNetworkExtractor.loop_body E grads theme test_data keras_layer st1 w1
  = (w2, Ret st2) ->
  exists caption rate ls l,
    dict_get String.eqb KerasNetworkExtractor._dropout_captions (class_name dropout)
    = Some caption
    /\ KerasNetworkExtractor._get_keras_layer_attribute dropout "rate" None true
       = Ret rate
    /\ Grapher.layers (grapher w2) = ls ++ [l]
    /\ List.length ls = List.length (Grapher.layers (grapher w1))
    /\ dict_get String.eqb (Layers.training_props l) "dropout"
       = Some (PStr (caption ++ " ("
                       ++ py_str E (if is_none rate then PStr "-" else rate)
                       ++ ")")%string)
    /\ KerasNetworkExtractor.layer_training_props st2 = [].
Proof.
  intros Hdrop Hweighted Hturn1 Hturn2.
  (* the turn of the dropout layer *)
  assert (Hpending : exists caption rate,
            dict_get String.eqb KerasNetworkExtractor._dropout_captions
              (class_name dropout) = Some caption
            /\ KerasNetworkExtractor._get_keras_layer_attribute dropout "rate"
                 None true = Ret rate
            /\ KerasNetworkExtractor.layer_training_props st1
               = [("dropout",
                   PStr (caption ++ " ("
                           ++ py_str E (if is_none rate then PStr "-" else rate)
                           ++ ")")%string)]).
  { revert Hturn1.
    unfold KerasNetworkExtractor.loop_body, KerasNetworkExtractor.dropout_branch.
    cbv zeta.
    assert (Hname : class_name dropout = "Dropout"
                    \/ class_name dropout = "SpatialDropout1D"
                    \/ class_name dropout = "SpatialDropout2D"
                    \/ class_name dropout = "SpatialDropout3D").
    { revert Hdrop. unfold KerasNetworkExtractor.mem,
        KerasNetworkExtractor._dropout_layers. cbn [existsb].
      destruct (String.eqb_spec (class_name dropout) "Dropout"); [now left|].
      destruct (String.eqb_spec (class_name dropout) "SpatialDropout1D");
        [now right; left|].
      destruct (String.eqb_spec (class_name dropout) "SpatialDropout2D");
        [now right; right; left|].
      destruct (String.eqb_spec (class_name dropout) "SpatialDropout3D");
        [now right; right; right|].
      discriminate. }
    destruct Hname as [Hn|[Hn|[Hn|Hn]]]; rewrite Hn;
      cbn [String.eqb Ascii.eqb Bool.eqb andb KerasNetworkExtractor.mem existsb orb
             KerasNetworkExtractor._pooling_layers
             KerasNetworkExtractor._dropout_layers
             KerasNetworkExtractor._dropout_captions dict_get];
      unfold bind, lift, ret;
      (destruct (KerasNetworkExtractor._get_keras_layer_attribute dropout "rate"
                   None true) as [rate|e]; [|discriminate]);
      intros H; injection H as _ <-;
      eexists; exists rate; (split; [reflexivity|]); (split; reflexivity). }
  destruct Hpending as (caption & rate & Hcaption & Hrate & Hprops).
  exists caption, rate.
  (* the turn of the layer with weights *)
  assert (Hadded : exists tpl,
            map Layers.training_props (Grapher.layers (grapher w2))
            = map Layers.training_props (Grapher.layers (grapher w1)) ++ [tpl]
            /\ dict_get String.eqb tpl "dropout"
               = Some (PStr (caption ++ " ("
                               ++ py_str E (if is_none rate then PStr "-" else rate)
                               ++ ")")%string)
            /\ KerasNetworkExtractor.layer_training_props st2 = []).
  { revert Hturn2 Hweighted.
    unfold KerasNetworkExtractor.loop_body, weighted_class. cbv zeta.
    destruct (String.eqb (class_name keras_layer) "Dense").
    - intros H _. unfold bind in H.
      destruct (KerasNetworkExtractor.weighted_branch E Layers.Dense keras_layer
                  grads theme st1 w1) as [w' [p|e]] eqn:Hb; [|discriminate].
      injection H as <- <-.
      apply weighted_branch_training_props in Hb.
      destruct Hb as (tpl & Hmap & Hget). exists tpl.
      split; [exact Hmap|]. split; [|reflexivity].
      rewrite Hget, Hprops; [reflexivity|].
      cbn; intros [H|[H|[H|[]]]]; discriminate H.
    - destruct (String.eqb (class_name keras_layer) "Conv2D"); [|discriminate].
      intros H _. unfold bind in H.
      destruct (KerasNetworkExtractor.weighted_branch E Layers.Convo2D keras_layer
                  grads theme st1 w1) as [w' [p|e]] eqn:Hb; [|discriminate].
      injection H as <- <-.
      apply weighted_branch_training_props in Hb.
      destruct Hb as (tpl & Hmap & Hget). exists tpl.
      split; [exact Hmap|]. split; [|reflexivity].
      rewrite Hget, Hprops; [reflexivity|].
      cbn; intros [H|[H|[H|[]]]]; discriminate H. }
  destruct Hadded as (tpl & Hmap & Hget & Hnone).
  apply map_eq_snoc in Hmap. destruct Hmap as (ls & l & Hlayers & Hls & Hl).
  exists ls, l. split; [exact Hcaption|]. split; [exact Hrate|].
  split; [exact Hlayers|]. split.
  - rewrite <- (length_map Layers.training_props ls), Hls. apply length_map.
  - split; [now rewrite Hl | exact Hnone].
Qed.

Lemma dropout_caption_on_next_layer_witness :
  exists caption rate ls l,
    dict_get String.eqb KerasNetworkExtractor._dropout_captions "Dropout"
    = Some caption
    /\ KerasNetworkExtractor._get_keras_layer_attribute (Demo.dropout "dropout" 2)
         "rate" None true = Ret rate
    /\ Grapher.layers
         (grapher
            (fst (KerasNetworkExtractor.loop_body (Demo.env [] [] Demo.no_tape)
                    None "default" Demo.no_test_data
                    (Demo.dense_layer "dense_1" 2 1 [5; 6]%Q [0]%Q true)
                    {| KerasNetworkExtractor.previous_layer := None;
                       KerasNetworkExtractor.idx_grads := 0;
                       KerasNetworkExtractor.layer_training_props :=
                         [("dropout", PStr "Standard (<float>)")];
                       KerasNetworkExtractor.layer_input_props := [] |}
                    (Demo.start Demo.empty_grapher))))
       = ls ++ [l]
    /\ List.length ls = 0%nat
    /\ dict_get String.eqb (Layers.training_props l) "dropout"
       = Some (PStr (caption ++ " ("
                       ++ Demo.show (if is_none rate then PStr "-" else rate)
                       ++ ")")%string)
    /\ @nil (string * pyval) = [].
Proof.
  apply (dropout_caption_on_next_layer (Demo.env [] [] Demo.no_tape)
           None "default" Demo.no_test_data
           (Demo.dropout "dropout" 2)
           (Demo.dense_layer "dense_1" 2 1 [5; 6]%Q [0]%Q true)
           (KerasNetworkExtractor.initial_locals None)
           {| KerasNetworkExtractor.previous_layer := None;
              KerasNetworkExtractor.idx_grads := 0;
              KerasNetworkExtractor.layer_training_props :=
                [("dropout", PStr "Standard (<float>)")];
              KerasNetworkExtractor.layer_input_props := [] |}
           {| KerasNetworkExtractor.previous_layer := Some 0%nat;
              KerasNetworkExtractor.idx_grads := 2;
              KerasNetworkExtractor.layer_training_props := [];
              KerasNetworkExtractor.layer_input_props := [] |}
           (Demo.start Demo.empty_grapher)
           (Demo.start Demo.empty_grapher)
           (fst (KerasNetworkExtractor.loop_body (Demo.env [] [] Demo.no_tape)
                   None "default" Demo.no_test_data
                   (Demo.dense_layer "dense_1" 2 1 [5; 6]%Q [0]%Q true)
                   {| KerasNetworkExtractor.previous_layer := None;
                      KerasNetworkExtractor.idx_grads := 0;
                      KerasNetworkExtractor.layer_training_props :=
                        [("dropout", PStr "Standard (<float>)")];
                      KerasNetworkExtractor.layer_input_props := [] |}
                   (Demo.start Demo.empty_grapher))));
    vm_compute; reflexivity.
Defined.
